(** * CPU_BUDDY alert engine: a shallow embedding of [alert_engine.py]

    The development follows [src/alert_engine.py] function by function,
    then the callback of [src/core.py], [list_domains] of
    [src/hypervisor_monitor.py] and the data side of [src/dashboard.py].

    Modelling conventions.
    - Python [int] is [Z]; Python [float] is idealised as an exact rational
      [Q] (no rounding, no NaN, no infinities).  Comparisons between numbers
      are the exact ones Python performs.  Where a statement depends on a
      computed float being the exact value, it says so ([binary64_exact]).
    - The exceptions modelled are those a snapshot of finite numbers within
      the range of a float can cause; [OverflowError] is outside the model,
      and the statements about logged exceptions speak of the sites, not of
      a closed list of exception types.
    - [self.last_alert_time] and [self._last_vm_cpu_time] are dictionaries with
      string keys: [gmap string Q] and [gmap string Z].
    - [time.time()] reads a clock.  The clock is an oracle [clock : nat -> Q]
      and the world counts the reads made so far, so two consecutive reads
      may differ, as they may in the source.
    - Exceptions are an outcome [Raise e]; [try ... except Exception] is
      [try_except], which logs the exception and goes on.
    - [ProcessSnapshot] and [HostMetrics] are classes with annotated fields and
      are records here; a VM is a [dict] coming from the hypervisor, whose
      numeric fields are dynamically typed values ([pyval]) that the source
      converts with [int(... or 0)].
    - An f-string message is represented by the values interpolated in it
      ([Message]). *)

From Stdlib Require Import ZArith QArith String List DecimalString Lia Lqa.
From Stdlib Require Import Sorting.Sorted Sorting.Permutation.
From stdpp Require Import base option gmap strings.

Local Open Scope string_scope.
Local Open Scope Z_scope.

(** ** Python values and exceptions *)

Inductive pyval : Type :=
| VNone
| VBool (b : bool)
| VInt (z : Z)
| VFloat (q : Q)
| VStr (s : string).

Inductive exn : Type :=
| KeyError
| TypeError
| ValueError
| ZeroDivisionError.

Inductive outcome (A : Type) : Type :=
| Ok (a : A)
| Raise (e : exn).
Arguments Ok {A} a.
Arguments Raise {A} e.

Definition Qlt_bool (a b : Q) : bool := negb (Qle_bool b a).

(** Truth value of a Python object ([bool(v)]). *)
Definition truthy (v : pyval) : bool :=
  match v with
  | VNone => false
  | VBool b => b
  | VInt z => negb (z =? 0)
  | VFloat q => negb (Qeq_bool q 0)
  | VStr s => negb (String.eqb s "")
  end.

(** [v or d] *)
Definition py_or (v d : pyval) : pyval := if truthy v then v else d.

(** The number a numeric Python value denotes ([bool] is a subtype of [int]). *)
Definition num_of (v : pyval) : option Q :=
  match v with
  | VBool b => Some (if b then 1%Q else 0%Q)
  | VInt z => Some (inject_Z z)
  | VFloat q => Some q
  | VNone | VStr _ => None
  end.

Definition as_number (v : pyval) : outcome Q :=
  match num_of v with
  | Some q => Ok q
  | None => Raise TypeError
  end.

(** True division [a / b]. *)
Definition py_truediv (a b : Q) : outcome Q :=
  if Qeq_bool b 0 then Raise ZeroDivisionError else Ok (a / b)%Q.

Definition str_of_Z (z : Z) : string := NilZero.string_of_int (Z.to_int z).

(** ** Data model *)

(** [process_monitor.ProcessSnapshot] *)
Record ProcessSnapshot : Type := {
  pid : Z;
  name : string;
  cpu : Q;
  mem_percent : Q
}.

(** [process_monitor.HostMetrics] *)
Record HostMetrics : Type := {
  host_cpu_percent : Q;
  host_mem_percent : Q
}.

(** A VM dictionary as built by [HypervisorMonitor.list_domains]; a field
    is [None] when the key is missing. *)
Record VmRecord : Type := {
  vm_name : string;
  vm_maxMemKB : option pyval;
  vm_memKB : option pyval;
  vm_cpuTime : option pyval;
  vm_vcpus : option pyval
}.

(** The snapshot dictionary; [interval] is [None] when the key is missing
    and [Some VNone] when it is present with value [None]. *)
Record Snapshot : Type := {
  host : option HostMetrics;
  processes : list ProcessSnapshot;
  vms : list VmRecord;
  interval : option pyval
}.

(** One of the dictionaries [host_alerts], [process_alerts], [vm_alerts]. *)
Record Thresholds : Type := {
  thr_cpu_percent : option Q;
  thr_memory_percent : option Q;
  thr_cpu_time_delta_ns : option pyval
}.

Definition no_thresholds : Thresholds :=
  {| thr_cpu_percent := None; thr_memory_percent := None;
     thr_cpu_time_delta_ns := None |}.

(** The part of the [email] dictionary read outside the [try] of
    [_send_email]. *)
Record EmailCfg : Type := {
  email_enabled : option bool;
  email_from : option string;
  email_to : option (list string)
}.

Record Config : Type := {
  alert_throttle_seconds : option Q;
  host_alerts : option Thresholds;
  process_alerts : option Thresholds;
  vm_alerts : option Thresholds;
  poll_interval : option pyval;
  email : option EmailCfg
}.

(** The text of an alert, by the values its f-string interpolates. *)
Inductive Message : Type :=
| HostCpuHigh (v : Q)
| HostMemHigh (v : Q)
| ProcCpuMsg (pname : string) (ppid : Z) (v : Q)
| ProcMemMsg (pname : string) (ppid : Z) (v : Q)
| VmCpuHigh (vname : string) (v : Q) (vcpus : pyval)
| VmMemHigh (vname : string) (v : Q) (mem_kb max_mem_kb : Z).

(** Where a [logger.exception] call sits. *)
Inductive ErrSite : Type :=
| HostSite
| ProcSite
| VmSite (vm : VmRecord).

(** The engine's two dictionaries, together with what the engine does to
    the outside: clock reads, warnings logged, mails handed to SMTP,
    exceptions logged. *)
Record World : Type := {
  last_alert_time : gmap string Q;
  _last_vm_cpu_time : gmap string Z;
  ticks : nat;
  warnings : list (string * Message);
  outbox : list (string * Message);
  errors : list (ErrSite * exn)
}.

Definition set_last_alert_time (f : gmap string Q -> gmap string Q) (w : World) : World :=
  {| last_alert_time := f (last_alert_time w);
     _last_vm_cpu_time := _last_vm_cpu_time w;
     ticks := ticks w; warnings := warnings w; outbox := outbox w;
     errors := errors w |}.

Definition set_last_vm_cpu_time (f : gmap string Z -> gmap string Z) (w : World) : World :=
  {| last_alert_time := last_alert_time w;
     _last_vm_cpu_time := f (_last_vm_cpu_time w);
     ticks := ticks w; warnings := warnings w; outbox := outbox w;
     errors := errors w |}.

Definition tick (w : World) : World :=
  {| last_alert_time := last_alert_time w;
     _last_vm_cpu_time := _last_vm_cpu_time w;
     ticks := S (ticks w); warnings := warnings w; outbox := outbox w;
     errors := errors w |}.

Definition log_warning (s : string) (m : Message) (w : World) : World :=
  {| last_alert_time := last_alert_time w;
     _last_vm_cpu_time := _last_vm_cpu_time w;
     ticks := ticks w; warnings := warnings w ++ [(s, m)]; outbox := outbox w;
     errors := errors w |}.

Definition hand_to_smtp (s : string) (m : Message) (w : World) : World :=
  {| last_alert_time := last_alert_time w;
     _last_vm_cpu_time := _last_vm_cpu_time w;
     ticks := ticks w; warnings := warnings w; outbox := outbox w ++ [(s, m)];
     errors := errors w |}.

Definition log_exception (site : ErrSite) (e : exn) (w : World) : World :=
  {| last_alert_time := last_alert_time w;
     _last_vm_cpu_time := _last_vm_cpu_time w;
     ticks := ticks w; warnings := warnings w; outbox := outbox w;
     errors := errors w ++ [(site, e)] |}.

Definition new_engine : World :=
  {| last_alert_time := ∅; _last_vm_cpu_time := ∅; ticks := 0%nat;
     warnings := []; outbox := []; errors := [] |}.

(** ** The monad of engine code: state and exceptions *)

Definition M (A : Type) : Type := World -> outcome A * World.

Definition ret {A} (a : A) : M A := fun w => (Ok a, w).

Definition bind {A B} (m : M A) (k : A -> M B) : M B :=
  fun w =>
    match m w with
    | (Ok a, w') => k a w'
    | (Raise e, w') => (Raise e, w')
    end.

Definition lift {A} (o : outcome A) : M A := fun w => (o, w).
Definition gets {A} (f : World -> A) : M A := fun w => (Ok (f w), w).
Definition modify (f : World -> World) : M unit := fun w => (Ok tt, f w).

Declare Scope engine_scope.
Delimit Scope engine_scope with engine.
Notation "x <- m ;; k" := (bind m (fun x => k))
  (at level 100, m at next level, right associativity) : engine_scope.
Notation "m ;;; k" := (bind m (fun _ => k))
  (at level 100, right associativity) : engine_scope.
Local Open Scope engine_scope.

(** [if c: body] *)
Definition when (c : bool) (body : M unit) : M unit :=
  if c then body else ret tt.

(** [try: body / except Exception: logger.exception(...)] *)
Definition try_except (site : ErrSite) (body : M unit) : M unit :=
  fun w =>
    match body w with
    | (Ok _, w') => (Ok tt, w')
    | (Raise e, w') => (Ok tt, log_exception site e w')
    end.

(** [for x in l: body x] *)
Fixpoint for_each {A} (l : list A) (body : A -> M unit) : M unit :=
  match l with
  | [] => ret tt
  | x :: rest => body x ;;; for_each rest body
  end.

Definition result {A} (m : M A) (w : World) : outcome A := fst (m w).
Definition exec {A} (m : M A) (w : World) : World := snd (m w).

(** ** What the engine takes from the platform

    [clock n] is what the [n]-th call of [time.time()] returns;
    [parse_int s] is [int(s)] for a string [s], [None] where Python raises
    [ValueError]. *)
Class Platform : Type := {
  clock : nat -> Q;
  parse_int : string -> option Z
}.

Section Engine.
Context {P : Platform}.

(** [time.time()] *)
Definition time_time : M Q :=
  fun w => (Ok (clock (ticks w)), tick w).

(** [int(v)] *)
Definition py_int (v : pyval) : outcome Z :=
  match v with
  | VNone => Raise TypeError
  | VBool b => Ok (if b then 1 else 0)
  | VInt z => Ok z
  | VFloat q => Ok (Z.quot (Qnum q) (Zpos (Qden q)))
  | VStr s =>
      match parse_int s with
      | Some z => Ok z
      | None => Raise ValueError
      end
  end.

(** [int(d.get(key, 0) or 0)] *)
Definition int_field (f : option pyval) : outcome Z :=
  py_int (py_or (default (VInt 0) f) (VInt 0)).

(** [AlertEngine._throttle_ok] *)
Definition _throttle_ok (cfg : Config) (key : string) : M bool :=
  let throttle := default (60 # 1)%Q (alert_throttle_seconds cfg) in
  last <- gets (fun w => default 0%Q (last_alert_time w !! key)) ;;
  t <- time_time ;;
  if Qlt_bool (t - last)%Q throttle then ret false
  else
    t' <- time_time ;;
    modify (set_last_alert_time <[key := t']>) ;;;
    ret true.

(** [AlertEngine._send_email]: the reads of [email_cfg['from']] and
    [email_cfg['to']] are outside the [try], the SMTP transaction is inside
    it. *)
Definition _send_email (cfg : Config) (subject : string) (body : Message) : M unit :=
  let email_cfg :=
    default {| email_enabled := None; email_from := None; email_to := None |}
            (email cfg) in
  if negb (default false (email_enabled email_cfg)) then ret tt
  else
    match email_from email_cfg with
    | None => lift (Raise KeyError)
    | Some _ =>
        match email_to email_cfg with
        | None => lift (Raise KeyError)
        | Some _ => modify (hand_to_smtp subject body)
        end
    end.

(** [AlertEngine._emit_alert] *)
Definition _emit_alert (cfg : Config) (subject : string) (message : Message)
    (key : string) : M unit :=
  modify (log_warning subject message) ;;;
  _send_email cfg subject message.

(** [interval_seconds is None or interval_seconds <= 0] *)
Definition none_or_nonpositive (interval_seconds : pyval) : outcome bool :=
  match interval_seconds with
  | VNone => Ok true
  | v =>
      match num_of v with
      | Some q => Ok (Qle_bool q 0)
      | None => Raise TypeError
      end
  end.

(** [AlertEngine._vm_cpu_percent_from_delta] *)
Definition _vm_cpu_percent_from_delta (vname : string) (cpu_time_ns : Z)
    (interval_seconds : pyval) : M (option Q) :=
  skip <- lift (none_or_nonpositive interval_seconds) ;;
  if (skip : bool) then ret None
  else
    prev <- gets (fun w => _last_vm_cpu_time w !! vname) ;;
    let now_cpu := cpu_time_ns in
    match prev with
    | None =>
        modify (set_last_vm_cpu_time <[vname := now_cpu]>) ;;;
        ret None
    | Some prev =>
        let delta_ns := now_cpu - prev in
        modify (set_last_vm_cpu_time <[vname := now_cpu]>) ;;;
        if delta_ns <=? 0 then ret None
        else
          delta_seconds <- lift (py_truediv (inject_Z delta_ns) (1000000000 # 1)) ;;
          secs <- lift (as_number interval_seconds) ;;
          ratio <- lift (py_truediv delta_seconds secs) ;;
          ret (Some (ratio * (100 # 1))%Q)
    end.

(** The body of the host [try] block of [check_and_alert]. *)
Definition host_checks (cfg : Config) (h : HostMetrics) : M unit :=
  let host_cfg := default no_thresholds (host_alerts cfg) in
  when (Qle_bool (default (100 # 1)%Q (thr_cpu_percent host_cfg)) (host_cpu_percent h))
    (let key := "host_cpu" in
     ok <- _throttle_ok cfg key ;;
     when ok
       (let msg := HostCpuHigh (host_cpu_percent h) in
        _emit_alert cfg "Host CPU Alert" msg key)) ;;;
  when (Qle_bool (default (100 # 1)%Q (thr_memory_percent host_cfg)) (host_mem_percent h))
    (let key := "host_mem" in
     ok <- _throttle_ok cfg key ;;
     when ok
       (let msg := HostMemHigh (host_mem_percent h) in
        _emit_alert cfg "Host Memory Alert" msg key)).

(** [sorted(procs, key=lambda x: x.cpu, reverse=True)]: a stable sort by
    descending [cpu]; an element goes in front of the later elements whose
    [cpu] is not larger. *)
Fixpoint insert_desc (x : ProcessSnapshot) (l : list ProcessSnapshot)
    : list ProcessSnapshot :=
  match l with
  | [] => [x]
  | y :: ys => if Qlt_bool (cpu x) (cpu y) then y :: insert_desc x ys else x :: y :: ys
  end.

Definition sorted_by_cpu_desc (procs : list ProcessSnapshot) : list ProcessSnapshot :=
  fold_right insert_desc [] procs.

(** [sorted(...)[:20]] *)
Definition top_offenders (procs : list ProcessSnapshot) : list ProcessSnapshot :=
  firstn 20 (sorted_by_cpu_desc procs).

(** The body of the [for p in ...] loop. *)
Definition process_checks (cfg : Config) (cpu_thr mem_thr : Q) (p : ProcessSnapshot)
    : M unit :=
  when (Qle_bool cpu_thr (cpu p))
    (let key := "proc_cpu_" +:+ str_of_Z (pid p) in
     ok <- _throttle_ok cfg key ;;
     when ok
       (let msg := ProcCpuMsg (name p) (pid p) (cpu p) in
        _emit_alert cfg "Process CPU Alert" msg key)) ;;;
  when (Qle_bool mem_thr (mem_percent p))
    (let key := "proc_mem_" +:+ str_of_Z (pid p) in
     ok <- _throttle_ok cfg key ;;
     when ok
       (let msg := ProcMemMsg (name p) (pid p) (mem_percent p) in
        _emit_alert cfg "Process Memory Alert" msg key)).

(** The body of the process [try] block. *)
Definition process_pass (cfg : Config) (procs : list ProcessSnapshot) : M unit :=
  let proc_cfg := default no_thresholds (process_alerts cfg) in
  let cpu_thr := default (100 # 1)%Q (thr_cpu_percent proc_cfg) in
  let mem_thr := default (100 # 1)%Q (thr_memory_percent proc_cfg) in
  for_each (top_offenders procs) (process_checks cfg cpu_thr mem_thr).

(** [v is not None], for the value of [vm_cfg.get("cpu_time_delta_ns", None)] *)
Definition is_not_none (v : option pyval) : bool :=
  match v with
  | None | Some VNone => false
  | Some _ => true
  end.

(** The body of the [try] block of the [for vm in vms] loop. *)
Definition vm_checks (cfg : Config) (interval_seconds : pyval) (vm : VmRecord) : M unit :=
  let vm_cfg := default no_thresholds (vm_alerts cfg) in
  let vm_cpu_thr := default (100 # 1)%Q (thr_cpu_percent vm_cfg) in
  let vm_mem_thr := default (100 # 1)%Q (thr_memory_percent vm_cfg) in
  let vm_cpu_time_delta_thr := thr_cpu_time_delta_ns vm_cfg in
  let vname := vm_name vm in
  max_mem_kb <- lift (int_field (vm_maxMemKB vm)) ;;
  mem_kb <- lift (int_field (vm_memKB vm)) ;;
  cpu_time_ns <- lift (int_field (vm_cpuTime vm)) ;;
  mem_pct <-
    (if 0 <? max_mem_kb
     then q <- lift (py_truediv (inject_Z mem_kb) (inject_Z max_mem_kb)) ;;
          ret (Some (q * (100 # 1))%Q)
     else ret None) ;;
  cpu_pct <- _vm_cpu_percent_from_delta vname cpu_time_ns interval_seconds ;;
  match cpu_pct with
  | Some cpu_percent =>
      when (Qle_bool vm_cpu_thr cpu_percent)
        (let key := "vm_cpu_" +:+ vname in
         ok <- _throttle_ok cfg key ;;
         when ok
           (let msg := VmCpuHigh vname cpu_percent (default VNone (vm_vcpus vm)) in
            _emit_alert cfg "VM CPU Alert" msg key))
  | None => ret tt
  end ;;;
  match mem_pct with
  | Some mem_percent =>
      when (Qle_bool vm_mem_thr mem_percent)
        (let key := "vm_mem_" +:+ vname in
         ok <- _throttle_ok cfg key ;;
         when ok
           (let msg := VmMemHigh vname mem_percent mem_kb max_mem_kb in
            _emit_alert cfg "VM Memory Alert" msg key))
  | None => ret tt
  end ;;;
  when (is_not_none vm_cpu_time_delta_thr)
    (prev <- gets (fun w => _last_vm_cpu_time w !! vname) ;;
     ret tt).

(** [snapshot.get("interval", self.config.get("poll_interval", 2))] *)
Definition snapshot_interval (cfg : Config) (snapshot : Snapshot) : pyval :=
  default (default (VInt 2) (poll_interval cfg)) (interval snapshot).

(** The [for vm in vms] loop. *)
Definition vm_pass (cfg : Config) (snapshot : Snapshot) : M unit :=
  let interval_seconds := snapshot_interval cfg snapshot in
  for_each (vms snapshot)
    (fun vm => try_except (VmSite vm) (vm_checks cfg interval_seconds vm)).

(** The host part of [check_and_alert], with its [try]. *)
Definition host_pass (cfg : Config) (snapshot : Snapshot) : M unit :=
  match host snapshot with
  | Some h => try_except HostSite (host_checks cfg h)
  | None => ret tt
  end.

(** [AlertEngine.check_and_alert] *)
Definition check_and_alert (cfg : Config) (snapshot : Snapshot) : M unit :=
  host_pass cfg snapshot ;;;
  try_except ProcSite (process_pass cfg (processes snapshot)) ;;;
  vm_pass cfg snapshot.

End Engine.

(** ** Vocabulary of the statements *)

(** An interval over which a rate can be computed: a number above zero. *)
Definition positive_interval (interval_seconds : pyval) (q : Q) : Prop :=
  num_of interval_seconds = Some q /\ (0 < q)%Q.

(** An interval that is [None], zero or negative. *)
Definition unusable_interval (interval_seconds : pyval) : Prop :=
  interval_seconds = VNone \/
  exists q, num_of interval_seconds = Some q /\ (q <= 0)%Q.

(** The throttle window and the timestamp [_throttle_ok] compares with. *)
Definition window (cfg : Config) : Q :=
  default (60 # 1)%Q (alert_throttle_seconds cfg).

Definition last_emission (key : string) (w : World) : Q :=
  default 0%Q (last_alert_time w !! key).

(** The percentage the docstring of [_vm_cpu_percent_from_delta] gives. *)
Definition percent_of_delta (delta_ns : Z) (interval_seconds : Q) : Q :=
  (((inject_Z delta_ns / (1000000000 # 1)) / interval_seconds) * (100 # 1))%Q.

(** A relation between the world before and after, kept by every step. *)
Definition preserves {A} (R : World -> World -> Prop) (m : M A) : Prop :=
  forall w, R w (exec m w).

(** The exceptions a computation can raise. *)
Definition raises_only {A} (E : exn -> Prop) (m : M A) : Prop :=
  forall w e, result m w = Raise e -> E e.

(** A relation that holds across everything the engine does besides
    logging a warning, logging an exception and storing a VM baseline. *)
Class Framed (R : World -> World -> Prop) : Prop := {
  framed_refl : forall w, R w w;
  framed_trans : forall w1 w2 w3, R w1 w2 -> R w2 w3 -> R w1 w3;
  framed_tick : forall w, R w (tick w);
  framed_last_alert_time : forall f w, R w (set_last_alert_time f w);
  framed_smtp : forall s m w, R w (hand_to_smtp s m w)
}.

(** The warnings logged between [w] and [w'] all satisfy [Pw]. *)
Definition warnings_grow (Pw : string * Message -> Prop) (w w' : World) : Prop :=
  exists new, warnings w' = (warnings w ++ new)%list /\ Forall Pw new.

(** The exceptions logged between [w] and [w'] all satisfy [Pe]. *)
Definition errors_grow (Pe : ErrSite * exn -> Prop) (w w' : World) : Prop :=
  exists new, errors w' = (errors w ++ new)%list /\ Forall Pe new.

(** The VM baselines are the same in [w] and [w']. *)
Definition baselines_kept (w w' : World) : Prop :=
  _last_vm_cpu_time w' = _last_vm_cpu_time w.


(** The two alerts a process can cause. *)
Definition about_process (p : ProcessSnapshot) (a : string * Message) : Prop :=
  a = ("Process CPU Alert", ProcCpuMsg (name p) (pid p) (cpu p)) \/
  a = ("Process Memory Alert", ProcMemMsg (name p) (pid p) (mem_percent p)).

(** [(mem_kb / max_mem_kb) * 100.0 if max_mem_kb > 0 else None] *)
Definition memory_percent (mem_kb max_mem_kb : Z) : option Q :=
  if 0 <? max_mem_kb
  then Some ((inject_Z mem_kb / inject_Z max_mem_kb) * (100 # 1))%Q
  else None.

(** The thresholds [check_and_alert] reads, with their default of 100. *)
Definition cpu_threshold (section : option Thresholds) : Q :=
  default (100 # 1)%Q (thr_cpu_percent (default no_thresholds section)).

Definition memory_threshold (section : option Thresholds) : Q :=
  default (100 # 1)%Q (thr_memory_percent (default no_thresholds section)).

(** A message of the VM pass. *)
Definition vm_message (m : Message) : Prop :=
  match m with
  | VmCpuHigh _ _ _ | VmMemHigh _ _ _ _ => True
  | _ => False
  end.

Definition is_vm_memory_alert (a : string * Message) : Prop :=
  match snd a with
  | VmMemHigh _ _ _ _ => True
  | _ => False
  end.

Definition is_vm_cpu_alert (a : string * Message) : Prop :=
  match snd a with
  | VmCpuHigh _ _ _ => True
  | _ => False
  end.

(** A VM memory alert is about a VM with a positive [maxMemKB]. *)
Definition memory_alert_has_capacity (a : string * Message) : Prop :=
  match snd a with
  | VmMemHigh _ _ _ max_mem_kb => 0 < max_mem_kb
  | _ => True
  end.


Definition with_vms (snapshot : Snapshot) (l : list VmRecord) : Snapshot :=
  {| host := host snapshot; processes := processes snapshot; vms := l;
     interval := interval snapshot |}.

(** The configuration with [vm_alerts.cpu_time_delta_ns] set to [d]
    ([None]: the option is absent). *)
Definition with_cpu_time_delta_ns (d : option pyval) (cfg : Config) : Config :=
  let vm_cfg := default no_thresholds (vm_alerts cfg) in
  {| alert_throttle_seconds := alert_throttle_seconds cfg;
     host_alerts := host_alerts cfg;
     process_alerts := process_alerts cfg;
     vm_alerts := Some {| thr_cpu_percent := thr_cpu_percent vm_cfg;
                          thr_memory_percent := thr_memory_percent vm_cfg;
                          thr_cpu_time_delta_ns := d |};
     poll_interval := poll_interval cfg;
     email := email cfg |}.

(** ** Vocabulary for the engine's further properties *)

Definition present {A} (o : option A) : bool :=
  match o with
  | Some _ => true
  | None => false
  end.

(** The [email] dictionary, [{}] when the key is missing. *)
Definition email_section (cfg : Config) : EmailCfg :=
  default {| email_enabled := None; email_from := None; email_to := None |}
          (email cfg).

(** [email_cfg.get("enabled", False)] *)
Definition mail_enabled (cfg : Config) : bool :=
  default false (email_enabled (email_section cfg)).

(** Mail is enabled and both [from] and [to] are there. *)
Definition mail_ready (cfg : Config) : bool :=
  mail_enabled cfg && present (email_from (email_section cfg))
                   && present (email_to (email_section cfg)).

(** Mail is enabled and [from] or [to] is missing. *)
Definition mail_broken (cfg : Config) : bool :=
  mail_enabled cfg && negb (present (email_from (email_section cfg))
                            && present (email_to (email_section cfg))).

(** The exceptions an evaluation of [snapshot] can log, by site, among
    those modelled. *)
Definition may_log (cfg : Config) (snapshot : Snapshot) (entry : ErrSite * exn) : Prop :=
  match fst entry with
  | HostSite | ProcSite => snd entry = KeyError /\ mail_broken cfg = true
  | VmSite vm =>
      In vm (vms snapshot) /\
      ((snd entry = KeyError /\ mail_broken cfg = true) \/
       snd entry = TypeError \/ snd entry = ValueError)
  end.


(** At most [n] warnings are logged by [m]. *)
Definition adds_at_most {A} (n : nat) (m : M A) : Prop :=
  forall w, exists new,
    warnings (exec m w) = (warnings w ++ new)%list /\ (length new <= n)%nat.

(** The baselines of the names outside [names] are the same in [w] and
    [w'], and no baseline is removed. *)
Definition baselines_outside_kept (names : list string) (w w' : World) : Prop :=
  (forall n, ~ In n names -> _last_vm_cpu_time w' !! n = _last_vm_cpu_time w !! n) /\
  (forall n, is_Some (_last_vm_cpu_time w !! n) -> is_Some (_last_vm_cpu_time w' !! n)).

(** Between [w] and [w'] the clock was only read, and every throttle
    timestamp that changed is a time read in between. *)
Definition timestamps_from_clock {P : Platform} (w w' : World) : Prop :=
  (ticks w <= ticks w')%nat /\
  forall k,
    last_alert_time w' !! k = last_alert_time w !! k \/
    exists n, (ticks w <= n < ticks w')%nat /\
              last_alert_time w' !! k = Some (clock n).

(** The part of the body of the VM loop that follows the estimate: the
    CPU check, the memory check and the unused delta-threshold branch. *)
Definition vm_alert_steps {P : Platform} (cfg : Config) (vm : VmRecord)
    (max_mem_kb mem_kb : Z) (cpu_pct : option Q) : M unit :=
  bind match cpu_pct with
       | Some cpu_percent =>
           when (Qle_bool (cpu_threshold (vm_alerts cfg)) cpu_percent)
             (bind (_throttle_ok cfg ("vm_cpu_" +:+ vm_name vm))
                (fun ok => when ok
                   (_emit_alert cfg "VM CPU Alert"
                      (VmCpuHigh (vm_name vm) cpu_percent (default VNone (vm_vcpus vm)))
                      ("vm_cpu_" +:+ vm_name vm))))
       | None => ret tt
       end
    (fun _ =>
       bind match memory_percent mem_kb max_mem_kb with
            | Some mem_percent =>
                when (Qle_bool (memory_threshold (vm_alerts cfg)) mem_percent)
                  (bind (_throttle_ok cfg ("vm_mem_" +:+ vm_name vm))
                     (fun ok => when ok
                        (_emit_alert cfg "VM Memory Alert"
                           (VmMemHigh (vm_name vm) mem_percent mem_kb max_mem_kb)
                           ("vm_mem_" +:+ vm_name vm))))
            | None => ret tt
            end
         (fun _ =>
            when (is_not_none
                    (thr_cpu_time_delta_ns (default no_thresholds (vm_alerts cfg))))
              (bind (gets (fun w => _last_vm_cpu_time w !! vm_name vm))
                    (fun _ => ret tt)))).

(** The configuration with [poll_interval] set to [p]. *)
Definition with_poll_interval (p : option pyval) (cfg : Config) : Config :=
  {| alert_throttle_seconds := alert_throttle_seconds cfg;
     host_alerts := host_alerts cfg;
     process_alerts := process_alerts cfg;
     vm_alerts := vm_alerts cfg;
     poll_interval := p;
     email := email cfg |}.

(** ** Vocabulary for the checks of an evaluation *)

(** The shape shared by the six threshold checks: the comparison [c], the
    throttle gate of the key, the emission. *)
Definition gated_alert {P : Platform} (cfg : Config) (c : bool) (subject : string)
    (message : Message) (key : string) : M unit :=
  when c (bind (_throttle_ok cfg key)
               (fun ok => when ok (_emit_alert cfg subject message key))).





(** The world in which the VM loop, having gone through the records [l1],
    evaluates the record that follows them. *)
Definition vm_reached {P : Platform} (cfg : Config) (snapshot : Snapshot)
    (l1 : list VmRecord) (w : World) : World :=
  exec (vm_pass cfg (with_vms snapshot l1))
       (exec (try_except ProcSite (process_pass cfg (processes snapshot)))
             (exec (host_pass cfg snapshot) w)).

(** The body of the VM loop without its CPU part: the conversions of the
    three fields, the memory check, the unused delta-threshold branch. *)
Definition vm_memory_checks {P : Platform} (cfg : Config) (vm : VmRecord) : M unit :=
  bind (lift (int_field (vm_maxMemKB vm))) (fun max_mem_kb =>
  bind (lift (int_field (vm_memKB vm))) (fun mem_kb =>
  bind (lift (int_field (vm_cpuTime vm))) (fun _ =>
  bind match memory_percent mem_kb max_mem_kb with
       | Some mem_percent =>
           gated_alert cfg (Qle_bool (memory_threshold (vm_alerts cfg)) mem_percent)
             "VM Memory Alert"
             (VmMemHigh (vm_name vm) mem_percent mem_kb max_mem_kb)
             ("vm_mem_" +:+ vm_name vm)
       | None => ret tt
       end
    (fun _ =>
       when (is_not_none (thr_cpu_time_delta_ns (default no_thresholds (vm_alerts cfg))))
         (bind (gets (fun w => _last_vm_cpu_time w !! vm_name vm))
               (fun _ => ret tt)))))).

(** An evaluation whose VM loop makes the memory checks only. *)
Definition check_and_alert_memory_only {P : Platform} (cfg : Config)
    (snapshot : Snapshot) : M unit :=
  bind (host_pass cfg snapshot) (fun _ =>
  bind (try_except ProcSite (process_pass cfg (processes snapshot))) (fun _ =>
  for_each (vms snapshot)
    (fun vm => try_except (VmSite vm) (vm_memory_checks cfg vm)))).

(** A number that a Python float (IEEE 754 binary64) holds exactly:
    [m * 2^e] with [|m| < 2^53] and [-1074 <= e <= 971].  An operation of
    float arithmetic whose exact result is such a number returns it
    unrounded. *)
Definition binary64_exact (q : Q) : Prop :=
  exists m e : Z,
    Z.abs m < 2 ^ 53 /\ -1074 <= e <= 971 /\ (q == inject_Z m * (2 # 1) ^ e)%Q.

(** [(mem_kb / max_mem_kb) * 100.0] is computed without rounding. *)
Definition memory_percent_exact (mem_kb max_mem_kb : Z) : Prop :=
  binary64_exact (inject_Z mem_kb / inject_Z max_mem_kb) /\
  binary64_exact ((inject_Z mem_kb / inject_Z max_mem_kb) * (100 # 1)).




(** The sites at which an evaluation logs an exception: the host and
    process blocks log only the [KeyError] of a mail section without
    [from] or [to]; the block of a VM record logs for that record. *)
Definition logged_at (cfg : Config) (snapshot : Snapshot) (entry : ErrSite * exn) : Prop :=
  match fst entry with
  | HostSite | ProcSite => snd entry = KeyError /\ mail_broken cfg = true
  | VmSite vm => In vm (vms snapshot)
  end.

(** ** [hypervisor_monitor.py] *)

(** What [dom.info()] returns: state, maxMem, memory, nrVirtCpu, cpuTime. *)
Record DomainInfo : Type := {
  info_state : Z;
  info_maxMem : Z;
  info_memory : Z;
  info_nrVirtCpu : Z;
  info_cpuTime : Z
}.

(** A libvirt domain, by what its [name()], [ID()] and [info()] return. *)
Record Domain : Type := {
  dom_name : string;
  dom_ID : Z;
  dom_info : DomainInfo
}.

(** The libvirt connection, by what it answers during one call of
    [list_domains]: the domains behind [listDomainsID()] and the domains
    behind [listDefinedDomains()], each in the order listed. *)
Record Connection : Type := {
  running_domains : list Domain;
  defined_domains : list Domain
}.

(** A dictionary appended by [list_domains]: the keys [id] and [state],
    and the five keys the alert engine reads. *)
Record DomainDict : Type := {
  dd_id : option Z;
  dd_state : Z;
  dd_vm : VmRecord
}.

Definition domain_dict (id : option Z) (dom : Domain) : DomainDict :=
  let info := dom_info dom in
  {| dd_id := id;
     dd_state := info_state info;
     dd_vm := {| vm_name := dom_name dom;
                 vm_maxMemKB := Some (VInt (info_maxMem info));
                 vm_memKB := Some (VInt (info_memory info));
                 vm_cpuTime := Some (VInt (info_cpuTime info));
                 vm_vcpus := Some (VInt (info_nrVirtCpu info)) |} |}.

(** [HypervisorMonitor.list_domains] *)
Definition list_domains (conn : Connection) : list DomainDict :=
  (map (fun dom => domain_dict (Some (dom_ID dom)) dom) (running_domains conn)
   ++ map (fun dom => domain_dict None dom) (defined_domains conn))%list.

(** ** [core.py] *)

(** [hm] as [on_snapshot] finds it: [None], or a monitor whose
    [list_domains()] raises, or one whose connection answers. *)
Inductive Hypervisor : Type :=
| NoHypervisor
| Unreachable
| Reachable (conn : Connection).

(** The state of [main] around the callback: the [nonlocal]
    [last_snapshot_time], and how often each of the two [except] branches of
    [on_snapshot] has logged. *)
Record Core : Type := {
  last_snapshot_time : Q;
  vm_read_failures : nat;
  engine_failures : nat
}.

(** The callback [on_snapshot] of [main]; [data] is the dictionary built
    by [ProcessMonitor.run], to which the keys [vms] and [interval] are
    added. *)
Definition on_snapshot {P : Platform} (cfg : Config) (hm : Hypervisor)
    (data : Snapshot) (c : Core) : M Core :=
  bind time_time (fun now =>
  let interval_seconds := (now - last_snapshot_time c)%Q in
  let failures :=
    match hm with
    | Unreachable => S (vm_read_failures c)
    | _ => vm_read_failures c
    end in
  let vm_list :=
    match hm with
    | Reachable conn => map dd_vm (list_domains conn)
    | _ => []
    end in
  let data' :=
    {| host := host data; processes := processes data; vms := vm_list;
       interval := Some (VFloat interval_seconds) |} in
  fun w =>
    match check_and_alert cfg data' w with
    | (Ok _, w') =>
        (Ok {| last_snapshot_time := now; vm_read_failures := failures;
               engine_failures := engine_failures c |}, w')
    | (Raise _, w') =>
        (Ok {| last_snapshot_time := now; vm_read_failures := failures;
               engine_failures := S (engine_failures c) |}, w')
    end).

(** The VM list [on_snapshot] puts under the key [vms]. *)
Definition core_vms (hm : Hypervisor) : list VmRecord :=
  match hm with
  | Reachable conn => map dd_vm (list_domains conn)
  | _ => []
  end.

(** The dictionary [on_snapshot] hands to [check_and_alert]. *)
Definition core_snapshot (hm : Hypervisor) (data : Snapshot) (interval_seconds : Q)
    : Snapshot :=
  {| host := host data; processes := processes data; vms := core_vms hm;
     interval := Some (VFloat interval_seconds) |}.

(** The names of the domains of a connection, running ones first. *)
Definition domain_names (conn : Connection) : list string :=
  (map dom_name (running_domains conn) ++ map dom_name (defined_domains conn))%list.

(** ** [dashboard.py] *)

Definition MAX_DATA_POINTS : nat := 30.

(** [CPUBuddyDashboard.get_bar_style]: the style it configures and
    returns. *)
Definition get_bar_style (percent : Q) : string :=
  if Qlt_bool percent (50 # 1) then "green.Horizontal.TProgressbar"
  else if Qlt_bool percent (80 # 1) then "yellow.Horizontal.TProgressbar"
  else "red.Horizontal.TProgressbar".

(** [deque(maxlen=n).append(x)]: when the deque is full, the oldest
    element is dropped from the left. *)
Definition deque_append {A} (maxlen : nat) (d : list A) (x : A) : list A :=
  let d' := (d ++ [x])%list in
  skipn (length d' - maxlen) d'.

(** The widgets and fields [update_data] writes before it fills the
    process table: the two labels (by the value shown), the two bars with
    their style, the two histories behind the graph. *)
Record Dashboard : Type := {
  running : bool;
  cpu_label : option Q;
  mem_label : option Q;
  cpu_bar : option (Q * string);
  mem_bar : option (Q * string);
  cpu_data : list Q;
  mem_data : list Q
}.

(** The fields as [__init__] sets them, before its closing call of
    [update_data]: labels showing [--], empty bars and histories,
    monitoring on. *)
Definition new_dashboard : Dashboard :=
  {| running := true; cpu_label := None; mem_label := None;
     cpu_bar := None; mem_bar := None; cpu_data := []; mem_data := [] |}.

(** [start_monitoring] and [stop_monitoring] *)
Definition start_monitoring (d : Dashboard) : Dashboard :=
  {| running := true; cpu_label := cpu_label d; mem_label := mem_label d;
     cpu_bar := cpu_bar d; mem_bar := mem_bar d; cpu_data := cpu_data d;
     mem_data := mem_data d |}.

Definition stop_monitoring (d : Dashboard) : Dashboard :=
  {| running := false; cpu_label := cpu_label d; mem_label := mem_label d;
     cpu_bar := cpu_bar d; mem_bar := mem_bar d; cpu_data := cpu_data d;
     mem_data := mem_data d |}.

(** [update_data], from the [running] test to the graph update (source
    lines 95 to 115); [cpu] and [mem] are what psutil reports. *)
Definition update_metrics (cpu mem : Q) (d : Dashboard) : Dashboard :=
  if running d then
    {| running := true;
       cpu_label := Some cpu; mem_label := Some mem;
       cpu_bar := Some (cpu, get_bar_style cpu);
       mem_bar := Some (mem, get_bar_style mem);
       cpu_data := deque_append MAX_DATA_POINTS (cpu_data d) cpu;
       mem_data := deque_append MAX_DATA_POINTS (mem_data d) mem |}
  else d.

(** The rank of a bar style: green, yellow, red. *)
Definition style_rank (style : string) : nat :=
  if String.eqb style "green.Horizontal.TProgressbar" then 0
  else if String.eqb style "yellow.Horizontal.TProgressbar" then 1
  else 2.

(** The last [n] elements of a list. *)
Definition lastn {A} (n : nat) (l : list A) : list A :=
  skipn (length l - n) l.

(** Successive runs of [update_data], one per pair of readings, as
    scheduled by [root.after]. *)
Definition feed (readings : list (Q * Q)) (d : Dashboard) : Dashboard :=
  fold_left (fun d r => update_metrics (fst r) (snd r) d) readings d.

(** What [__init__] leaves: it ends with a call of [update_data], so the
    dashboard starts with one reading, [cpu] and [mem] being what psutil
    reports at that moment. *)
Definition constructed_dashboard (cpu mem : Q) : Dashboard :=
  update_metrics cpu mem new_dashboard.

(** ** Sample data *)

Definition decimal_int (s : string) : option Z :=
  option_map Z.of_int (NilZero.int_of_string s).

(** A clock that starts at [t0] and advances by [step] at every read. *)
Definition linear_clock (t0 step : Q) : Platform :=
  {| clock := fun n => (t0 + inject_Z (Z.of_nat n) * step)%Q;
     parse_int := decimal_int |}.

(** A clock that reads the listed instants in turn, then stays at [t]. *)
Definition listed_clock (l : list Q) (t : Q) : Platform :=
  {| clock := fun n => nth n l t; parse_int := decimal_int |}.

Definition default_config : Config :=
  {| alert_throttle_seconds := None; host_alerts := None;
     process_alerts := None; vm_alerts := None; poll_interval := None;
     email := None |}.

(** The wall clock of a running system: well past the epoch, a
    millisecond between reads. *)
Definition wall_clock : Platform := linear_clock (1700000000 # 1) (1 # 1000).

(** A clock that stands 10 seconds after the epoch. *)
Definition epoch_clock : Platform := linear_clock (10 # 1) 0.

Definition long_throttle_config : Config :=
  {| alert_throttle_seconds := Some (2000000000 # 1)%Q; host_alerts := None;
     process_alerts := None; vm_alerts := None; poll_interval := None;
     email := None |}.

(** [email] enabled, without the [from] and [to] keys. *)
Definition broken_email_config : Config :=
  {| alert_throttle_seconds := None; host_alerts := None;
     process_alerts := None; vm_alerts := None; poll_interval := None;
     email := Some {| email_enabled := Some true; email_from := None;
                      email_to := None |} |}.

Definition ninety : Thresholds :=
  {| thr_cpu_percent := Some (90 # 1)%Q; thr_memory_percent := Some (90 # 1)%Q;
     thr_cpu_time_delta_ns := None |}.

Definition config_90 : Config :=
  {| alert_throttle_seconds := None; host_alerts := Some ninety;
     process_alerts := Some ninety; vm_alerts := Some ninety;
     poll_interval := Some (VInt 2); email := None |}.

Definition zero_thresholds : Thresholds :=
  {| thr_cpu_percent := Some 0%Q; thr_memory_percent := Some (1000 # 1)%Q;
     thr_cpu_time_delta_ns := None |}.

Definition config_0 : Config :=
  {| alert_throttle_seconds := None; host_alerts := None;
     process_alerts := Some zero_thresholds; vm_alerts := None;
     poll_interval := None; email := None |}.

Definition host_cpu_at_90 : HostMetrics :=
  {| host_cpu_percent := (90 # 1)%Q; host_mem_percent := (50 # 1)%Q |}.

Definition host_mem_at_90 : HostMetrics :=
  {| host_cpu_percent := (50 # 1)%Q; host_mem_percent := (90 # 1)%Q |}.

Definition host_full : HostMetrics :=
  {| host_cpu_percent := (100 # 1)%Q; host_mem_percent := (50 # 1)%Q |}.

Definition proc_cpu_at_90 : ProcessSnapshot :=
  {| pid := 7; name := "busy"; cpu := (90 # 1)%Q; mem_percent := (10 # 1)%Q |}.

Definition proc_mem_at_90 : ProcessSnapshot :=
  {| pid := 8; name := "fat"; cpu := (10 # 1)%Q; mem_percent := (90 # 1)%Q |}.

(** Process number [i], using [i] percent of CPU. *)
Definition numbered_process (i : nat) : ProcessSnapshot :=
  {| pid := Z.of_nat i; name := "worker"; cpu := inject_Z (Z.of_nat i);
     mem_percent := 0%Q |}.

(** 25 processes, in ascending order of CPU. *)
Definition twenty_five : list ProcessSnapshot := map numbered_process (seq 1 25).

Definition snapshot_25 : Snapshot :=
  {| host := None; processes := twenty_five; vms := []; interval := Some (VFloat (2 # 1)) |}.

Definition vmA : VmRecord :=
  {| vm_name := "vmA"; vm_maxMemKB := Some (VInt 1000); vm_memKB := Some (VInt 100);
     vm_cpuTime := Some (VInt 1800000000); vm_vcpus := Some (VInt 2) |}.

Definition vmB : VmRecord :=
  {| vm_name := "vmB"; vm_maxMemKB := Some (VInt 1000); vm_memKB := Some (VInt 900);
     vm_cpuTime := Some (VInt 0); vm_vcpus := Some (VInt 1) |}.

(** A VM record with a non-numeric [cpuTime]. *)
Definition vm_malformed : VmRecord :=
  {| vm_name := "vmX"; vm_maxMemKB := Some (VInt 1000); vm_memKB := Some (VInt 950);
     vm_cpuTime := Some (VStr "abc"); vm_vcpus := Some (VInt 1) |}.

(** A VM record with [maxMemKB = 0]. *)
Definition vm_no_capacity : VmRecord :=
  {| vm_name := "vmZ"; vm_maxMemKB := Some (VInt 0); vm_memKB := Some (VInt 5000);
     vm_cpuTime := Some (VInt 0); vm_vcpus := Some (VInt 1) |}.

Definition snapshot_malformed : Snapshot :=
  {| host := Some host_full; processes := []; vms := [vm_malformed; vmB];
     interval := Some (VFloat (2 # 1)) |}.

(** A process at 100 percent of CPU, alone in its snapshot. *)
Definition proc_full : ProcessSnapshot :=
  {| pid := 42; name := "spin"; cpu := (100 # 1)%Q; mem_percent := (1 # 1)%Q |}.


(** The engine after a first sample [v] of VM [vname] over 2 seconds. *)
Definition sampled (vname : string) (v : Z) : World :=
  exec (_vm_cpu_percent_from_delta vname v (VFloat (2 # 1))) new_engine.


Definition snapshot_two_vms : Snapshot :=
  {| host := Some host_cpu_at_90; processes := [proc_cpu_at_90]; vms := [vmA; vmB];
     interval := Some (VFloat (2 # 1)) |}.

Definition snapshot_quiet : Snapshot :=
  {| host := Some host_mem_at_90; processes := [proc_mem_at_90]; vms := [];
     interval := None |}.

(** One running and one defined domain. *)
Definition domain_web : Domain :=
  {| dom_name := "web"; dom_ID := 3;
     dom_info := {| info_state := 1; info_maxMem := 2097152; info_memory := 2000000;
                    info_nrVirtCpu := 2; info_cpuTime := 5000000000 |} |}.

Definition domain_db : Domain :=
  {| dom_name := "db"; dom_ID := 0;
     dom_info := {| info_state := 5; info_maxMem := 1048576; info_memory := 0;
                    info_nrVirtCpu := 1; info_cpuTime := 0 |} |}.

Definition sample_connection : Connection :=
  {| running_domains := [domain_web]; defined_domains := [domain_db] |}.

Definition sample_data : Snapshot :=
  {| host := Some host_cpu_at_90; processes := [proc_cpu_at_90]; vms := [];
     interval := None |}.

(** [main] two seconds before the first read of [wall_clock]. *)
Definition sample_core : Core :=
  {| last_snapshot_time := (1699999998 # 1)%Q; vm_read_failures := 0;
     engine_failures := 0 |}.

(** [main] with a previous callback at the time [epoch_clock] stands at. *)
Definition stalled_core : Core :=
  {| last_snapshot_time := (10 # 1)%Q; vm_read_failures := 0; engine_failures := 0 |}.

(** Readings number 1 to [n]: CPU [i] percent, memory [100 - i] percent. *)
Definition readings_up_to (n : nat) : list (Q * Q) :=
  map (fun i => (inject_Z (Z.of_nat i), inject_Z (100 - Z.of_nat i))) (seq 1 n).








(** A VM using all of its memory, 2 seconds of CPU time on its counter. *)
Definition vm_full : VmRecord :=
  {| vm_name := "vmC"; vm_maxMemKB := Some (VInt 1024); vm_memKB := Some (VInt 1024);
     vm_cpuTime := Some (VInt 2000000000); vm_vcpus := Some (VInt 2) |}.


Definition snapshot_vm_full_null_interval : Snapshot :=
  {| host := None; processes := []; vms := [vmA; vm_full]; interval := Some VNone |}.

(** A snapshot whose interval is a string. *)
Definition snapshot_text_interval : Snapshot :=
  {| host := None; processes := []; vms := [vmA; vmB]; interval := Some (VStr "fast") |}.

(** A clock that moves by a microsecond between the two reads of the
    first call: 100, 100.000001, 130 and 160 seconds, then 200. *)
Definition drifting_clock : Platform :=
  listed_clock [(100 # 1); (100000001 # 1000000); (130 # 1); (160 # 1)]%Q (200 # 1)%Q.

(** * Properties *)

(** ** Comparisons on rationals *)

Lemma Qlt_bool_true (a b : Q) : Qlt_bool a b = true <-> (a < b)%Q.
Proof.
  unfold Qlt_bool. rewrite negb_true_iff.
  split; intro H.
  - apply Qnot_le_lt. intro Hle. apply Qle_bool_iff in Hle. congruence.
  - destruct (Qle_bool b a) eqn:E; [|reflexivity].
    apply Qle_bool_iff in E. exfalso. apply (Qlt_not_le _ _ H E).
Qed.

Lemma Qlt_bool_false (a b : Q) : Qlt_bool a b = false <-> (b <= a)%Q.
Proof.
  unfold Qlt_bool. rewrite negb_false_iff. apply Qle_bool_iff.
Qed.

Lemma Qle_bool_false (a b : Q) : Qle_bool a b = false <-> (b < a)%Q.
Proof.
  rewrite <- Qlt_bool_true. unfold Qlt_bool.
  destruct (Qle_bool a b); simpl; split; congruence.
Qed.

Lemma Qeq_bool_false_of_pos (q : Q) : (0 < q)%Q -> Qeq_bool q 0 = false.
Proof.
  intro H. destruct (Qeq_bool q 0) eqn:E; [|reflexivity].
  apply Qeq_bool_iff in E. rewrite E in H. exfalso. apply (Qlt_irrefl _ H).
Qed.

(** ** The delta estimator, case by case *)

Section DeltaEstimator.

Lemma unusable_interval_skips iv :
  unusable_interval iv -> none_or_nonpositive iv = Ok true.
Proof.
  intros [-> | (q & Hq & Hle)]; [reflexivity|].
  unfold none_or_nonpositive.
  destruct iv; simpl in *; try discriminate; injection Hq as <-;
    f_equal; apply Qle_bool_iff; exact Hle.
Qed.

Lemma positive_interval_passes iv q :
  positive_interval iv q -> none_or_nonpositive iv = Ok false.
Proof.
  intros [Hq Hpos]. unfold none_or_nonpositive.
  destruct iv; simpl in *; try discriminate; injection Hq as <-;
    f_equal; apply Qle_bool_false; exact Hpos.
Qed.

Lemma estimate_unusable vname v iv w :
  unusable_interval iv ->
  _vm_cpu_percent_from_delta vname v iv w = (Ok None, w).
Proof.
  intro H. unfold _vm_cpu_percent_from_delta, bind, lift.
  rewrite (unusable_interval_skips _ H). reflexivity.
Qed.

Lemma estimate_first vname v iv q w :
  positive_interval iv q ->
  _last_vm_cpu_time w !! vname = None ->
  _vm_cpu_percent_from_delta vname v iv w =
    (Ok None, set_last_vm_cpu_time <[vname := v]> w).
Proof.
  intros H Hnone. unfold _vm_cpu_percent_from_delta, bind, lift, gets, modify, ret.
  rewrite (positive_interval_passes _ _ H), Hnone. reflexivity.
Qed.

Lemma estimate_no_progress vname v iv q prev w :
  positive_interval iv q ->
  _last_vm_cpu_time w !! vname = Some prev ->
  v - prev <= 0 ->
  _vm_cpu_percent_from_delta vname v iv w =
    (Ok None, set_last_vm_cpu_time <[vname := v]> w).
Proof.
  intros H Hprev Hle. unfold _vm_cpu_percent_from_delta, bind, lift, gets, modify, ret.
  rewrite (positive_interval_passes _ _ H), Hprev.
  apply Z.leb_le in Hle. rewrite Hle. reflexivity.
Qed.

Lemma estimate_progress vname v iv q prev w :
  positive_interval iv q ->
  _last_vm_cpu_time w !! vname = Some prev ->
  prev < v ->
  _vm_cpu_percent_from_delta vname v iv w =
    (Ok (Some (percent_of_delta (v - prev) q)),
     set_last_vm_cpu_time <[vname := v]> w).
Proof.
  intros H Hprev Hlt. unfold _vm_cpu_percent_from_delta, bind, lift, gets, modify, ret.
  rewrite (positive_interval_passes _ _ H), Hprev.
  assert (Hgt : (v - prev <=? 0) = false) by (apply Z.leb_gt; lia).
  rewrite Hgt. destruct H as [Hq Hpos].
  unfold as_number. rewrite Hq. unfold py_truediv at 1. simpl Qeq_bool.
  cbv iota. unfold py_truediv. rewrite (Qeq_bool_false_of_pos _ Hpos).
  reflexivity.
Qed.

Lemma estimate_positive vname v iv q w :
  positive_interval iv q ->
  exists r, _vm_cpu_percent_from_delta vname v iv w =
              (Ok r, set_last_vm_cpu_time <[vname := v]> w).
Proof.
  intro Hpos. destruct (_last_vm_cpu_time w !! vname) as [prev|] eqn:Hprev.
  - destruct (Z_lt_le_dec prev v) as [Hlt|Hle].
    + eexists. apply (estimate_progress _ _ _ _ _ _ Hpos Hprev Hlt).
    + eexists. apply (estimate_no_progress _ _ _ _ _ _ Hpos Hprev). lia.
  - eexists. apply (estimate_first _ _ _ _ _ Hpos Hprev).
Qed.

End DeltaEstimator.

Section DeltaEstimatorClaims.

Lemma percent_of_delta_above_100 (delta_ns : Z) (q : Q) :
  (0 < q)%Q -> (q * (1000000000 # 1) < inject_Z delta_ns)%Q ->
  (100 # 1 < percent_of_delta delta_ns q)%Q.
Proof.
  intros Hq Hd. unfold percent_of_delta.
  assert (H1 : (1 < inject_Z delta_ns / (1000000000 # 1) / q)%Q).
  { apply Qlt_shift_div_l; [exact Hq|].
    apply Qlt_shift_div_l; [reflexivity|]. lra. }
  lra.
Qed.

(** C1, as amended: a call with a positive interval leaves
    the baseline of the name equal to the cumulative value passed in,
    whatever the call returns; a call whose interval is [None], zero or
    negative returns UNAVAILABLE ([None]) and leaves the engine, baseline
    included, as it was. *)
Theorem C1_baseline_after_estimate (vname : string) (v : Z) (iv : pyval) (w : World) :
  (forall q, positive_interval iv q ->
     exists r,
       _vm_cpu_percent_from_delta vname v iv w =
         (Ok r, set_last_vm_cpu_time <[vname := v]> w) /\
       _last_vm_cpu_time (exec (_vm_cpu_percent_from_delta vname v iv) w) !! vname
         = Some v) /\
  (unusable_interval iv ->
     _vm_cpu_percent_from_delta vname v iv w = (Ok None, w) /\
     _last_vm_cpu_time (exec (_vm_cpu_percent_from_delta vname v iv) w)
       = _last_vm_cpu_time w).
Proof.
  split.
  - intros q Hpos.
    destruct (estimate_positive vname v iv q w Hpos) as [r Hr].
    exists r. split; [exact Hr|].
    unfold exec. rewrite Hr. simpl. apply lookup_insert_eq.
  - intro Hun. unfold exec. rewrite (estimate_unusable _ _ _ _ Hun).
    split; reflexivity.
Qed.

(** C3: with a positive interval the first call for a name
    stores the cumulative value and returns UNAVAILABLE; a later call with
    a larger cumulative value returns [(delta_ns / 1e9) / interval * 100]
    and stores the new value; the value is returned as computed, above 100
    whenever the CPU time spent exceeds the interval.  On a fresh engine
    [estimate("vmA", 1_000_000_000, 2.0)] is UNAVAILABLE and the following
    [estimate("vmA", 3_000_000_000, 2.0)] is 100. *)
Theorem C3_first_sample_then_rate (vname : string) (iv : pyval) (q : Q) :
  positive_interval iv q ->
  (forall v w,
     _last_vm_cpu_time w !! vname = None ->
     _vm_cpu_percent_from_delta vname v iv w =
       (Ok None, set_last_vm_cpu_time <[vname := v]> w)) /\
  (forall v prev w,
     _last_vm_cpu_time w !! vname = Some prev ->
     prev < v ->
     _vm_cpu_percent_from_delta vname v iv w =
       (Ok (Some (((inject_Z (v - prev) / (1000000000 # 1)) / q) * (100 # 1))%Q),
        set_last_vm_cpu_time <[vname := v]> w)) /\
  (forall v1 v2 iv1 q1 w,
     positive_interval iv1 q1 ->
     _last_vm_cpu_time w !! vname = None ->
     v1 < v2 ->
     result (_vm_cpu_percent_from_delta vname v2 iv)
            (exec (_vm_cpu_percent_from_delta vname v1 iv1) w) =
       Ok (Some (((inject_Z (v2 - v1) / (1000000000 # 1)) / q) * (100 # 1))%Q)) /\
  (forall v prev w,
     _last_vm_cpu_time w !! vname = Some prev ->
     (q * (1000000000 # 1) < inject_Z (v - prev))%Q ->
     exists x,
       result (_vm_cpu_percent_from_delta vname v iv) w = Ok (Some x) /\
       (100 # 1 < x)%Q) /\
  (result (_vm_cpu_percent_from_delta "vmA" 1000000000 (VFloat (2 # 1))) new_engine
     = Ok None /\
   exists x,
     result (_vm_cpu_percent_from_delta "vmA" 3000000000 (VFloat (2 # 1)))
            (exec (_vm_cpu_percent_from_delta "vmA" 1000000000 (VFloat (2 # 1)))
                  new_engine) = Ok (Some x) /\
     (x == 100 # 1)%Q).
Proof.
  intro Hpos. repeat split.
  - intros v w Hnone. apply (estimate_first _ _ _ _ _ Hpos Hnone).
  - intros v prev w Hprev Hlt.
    apply (estimate_progress _ _ _ _ _ _ Hpos Hprev Hlt).
  - intros v1 v2 iv1 q1 w Hpos1 Hnone Hlt.
    unfold result, exec. rewrite (estimate_first _ _ _ _ _ Hpos1 Hnone). simpl.
    erewrite (estimate_progress vname v2 iv q v1); [reflexivity|exact Hpos| |exact Hlt].
    simpl. apply lookup_insert_eq.
  - intros v prev w Hprev Hbig.
    assert (Hlt : prev < v).
    { destruct Hpos as [_ Hq].
      assert (H0 : (0 < inject_Z (v - prev))%Q) by nra.
      change 0%Q with (inject_Z 0) in H0. rewrite <- Zlt_Qlt in H0. lia. }
    eexists. split.
    + unfold result. rewrite (estimate_progress _ _ _ _ _ _ Hpos Hprev Hlt). reflexivity.
    + apply percent_of_delta_above_100; [apply Hpos|exact Hbig].
  - eexists. split; [vm_compute; reflexivity|]. reflexivity.
Qed.

(** C4: when a baseline exists for the name and the new cumulative value
    is not above it (counter reset, restart, no progress), the estimate -
    made past the guard on the interval, so with a positive interval - is
    UNAVAILABLE and the baseline becomes the new, smaller or equal,
    value.  After samples of 1e9 and 3e9 ns,
    [estimate("vmA", 500_000_000, 2.0)] is UNAVAILABLE and the baseline is
    500_000_000. *)
Theorem C4_counter_reset (vname : string) (v prev : Z) (iv : pyval) (q : Q) (w : World) :
  positive_interval iv q ->
  _last_vm_cpu_time w !! vname = Some prev ->
  v - prev <= 0 ->
  (result (_vm_cpu_percent_from_delta vname v iv) w = Ok None /\
   _last_vm_cpu_time (exec (_vm_cpu_percent_from_delta vname v iv) w) !! vname
     = Some v) /\
  (let w2 := exec (_vm_cpu_percent_from_delta "vmA" 3000000000 (VFloat (2 # 1)))
               (exec (_vm_cpu_percent_from_delta "vmA" 1000000000 (VFloat (2 # 1)))
                     new_engine) in
   result (_vm_cpu_percent_from_delta "vmA" 500000000 (VFloat (2 # 1))) w2 = Ok None /\
   _last_vm_cpu_time
     (exec (_vm_cpu_percent_from_delta "vmA" 500000000 (VFloat (2 # 1))) w2) !! "vmA"
     = Some 500000000).
Proof.
  intros Hpos Hprev Hle. split.
  - unfold result, exec.
    rewrite (estimate_no_progress _ _ _ _ _ _ Hpos Hprev Hle). simpl.
    split; [reflexivity|apply lookup_insert_eq].
  - split; vm_compute; reflexivity.
Qed.

End DeltaEstimatorClaims.

(** ** The throttle gate *)

Section ThrottleGate.
Context {P : Platform}.

Lemma throttle_allows cfg key w :
  (window cfg <= clock (ticks w) - last_emission key w)%Q ->
  _throttle_ok cfg key w =
    (Ok true,
     set_last_alert_time <[key := clock (S (ticks w))]> (tick (tick w))).
Proof.
  intro H. unfold _throttle_ok, bind, gets, time_time, modify, ret.
  fold (last_emission key w). fold (window cfg).
  apply Qlt_bool_false in H. rewrite H. reflexivity.
Qed.

Lemma throttle_denies cfg key w :
  (clock (ticks w) - last_emission key w < window cfg)%Q ->
  _throttle_ok cfg key w = (Ok false, tick w).
Proof.
  intro H. unfold _throttle_ok, bind, gets, time_time, modify, ret.
  fold (last_emission key w). fold (window cfg).
  apply Qlt_bool_true in H. rewrite H. reflexivity.
Qed.

Lemma throttle_never_raises cfg key w :
  exists b, result (_throttle_ok cfg key) w = Ok b.
Proof.
  destruct (Qlt_le_dec (clock (ticks w) - last_emission key w) (window cfg)) as [H|H].
  - exists false. unfold result. rewrite (throttle_denies _ _ _ H). reflexivity.
  - exists true. unfold result. rewrite (throttle_allows _ _ _ H). reflexivity.
Qed.

(** C2, as amended: a key with no recorded emission is
    treated as last emitted at time 0.  [_throttle_ok] reads the clock and
    returns true when [now - last >= window]; it then records the time of a
    second clock read, made at that moment; otherwise it returns false and
    leaves the recorded timestamps as they were.  So, on a fresh key, a
    call that reads [t >= window] returns true and records the time [r] of
    its second read; the next call returns false when it reads a time less
    than [window] after [r], and the call after that returns true when it
    reads a time at least [window] after [r], false when less.  In
    particular, when the two reads of the first call both give [t], calls
    at [t], [t + eps] with [eps < window], and [t + window] return true,
    false, true. *)
Theorem C2_throttle_gate (cfg : Config) (key : string) (w : World) :
  ((window cfg <= clock (ticks w) - last_emission key w)%Q ->
     result (_throttle_ok cfg key) w = Ok true /\
     last_alert_time (exec (_throttle_ok cfg key) w) =
       <[key := clock (S (ticks w))]> (last_alert_time w)) /\
  ((clock (ticks w) - last_emission key w < window cfg)%Q ->
     result (_throttle_ok cfg key) w = Ok false /\
     last_alert_time (exec (_throttle_ok cfg key) w) = last_alert_time w) /\
  (last_alert_time w !! key = None ->
   (window cfg <= clock (ticks w))%Q ->
   let w1 := exec (_throttle_ok cfg key) w in
   let w2 := exec (_throttle_ok cfg key) w1 in
   let recorded := clock (S (ticks w)) in
   result (_throttle_ok cfg key) w = Ok true /\
   last_alert_time w1 !! key = Some recorded /\
   ((clock (S (S (ticks w))) - recorded < window cfg)%Q ->
      result (_throttle_ok cfg key) w1 = Ok false /\
      ((window cfg <= clock (S (S (S (ticks w)))) - recorded)%Q ->
         result (_throttle_ok cfg key) w2 = Ok true) /\
      ((clock (S (S (S (ticks w)))) - recorded < window cfg)%Q ->
         result (_throttle_ok cfg key) w2 = Ok false))) /\
  (forall t eps : Q,
     last_alert_time w !! key = None ->
     (window cfg <= t)%Q ->
     (eps < window cfg)%Q ->
     (clock (ticks w) == t)%Q ->
     (clock (S (ticks w)) == t)%Q ->
     (clock (S (S (ticks w))) == t + eps)%Q ->
     (clock (S (S (S (ticks w)))) == t + window cfg)%Q ->
     let w1 := exec (_throttle_ok cfg key) w in
     let w2 := exec (_throttle_ok cfg key) w1 in
     result (_throttle_ok cfg key) w = Ok true /\
     result (_throttle_ok cfg key) w1 = Ok false /\
     result (_throttle_ok cfg key) w2 = Ok true).
Proof.
  assert (Hseq :
    last_alert_time w !! key = None ->
    (window cfg <= clock (ticks w))%Q ->
    let w1 := exec (_throttle_ok cfg key) w in
    let w2 := exec (_throttle_ok cfg key) w1 in
    let recorded := clock (S (ticks w)) in
    result (_throttle_ok cfg key) w = Ok true /\
    last_alert_time w1 !! key = Some recorded /\
    ((clock (S (S (ticks w))) - recorded < window cfg)%Q ->
       result (_throttle_ok cfg key) w1 = Ok false /\
       ((window cfg <= clock (S (S (S (ticks w)))) - recorded)%Q ->
          result (_throttle_ok cfg key) w2 = Ok true) /\
       ((clock (S (S (S (ticks w)))) - recorded < window cfg)%Q ->
          result (_throttle_ok cfg key) w2 = Ok false))).
  { intros Hfresh Hwin w1 w2 recorded.
    assert (Hlast : last_emission key w = 0%Q).
    { unfold last_emission. rewrite Hfresh. reflexivity. }
    assert (Ha : (window cfg <= clock (ticks w) - last_emission key w)%Q).
    { rewrite Hlast. lra. }
    assert (Ew1 : w1 = set_last_alert_time <[key := recorded]> (tick (tick w))).
    { unfold w1, exec. rewrite (throttle_allows _ _ _ Ha). reflexivity. }
    assert (Hlast1 : last_emission key w1 = recorded).
    { rewrite Ew1. unfold last_emission. simpl. rewrite lookup_insert_eq. reflexivity. }
    assert (Ht1 : ticks w1 = S (S (ticks w))) by (rewrite Ew1; reflexivity).
    split; [unfold result; rewrite (throttle_allows _ _ _ Ha); reflexivity|].
    split; [rewrite Ew1; simpl; apply lookup_insert_eq|].
    intro Hnear.
    assert (Hb : (clock (ticks w1) - last_emission key w1 < window cfg)%Q).
    { rewrite Hlast1, Ht1. exact Hnear. }
    assert (Ew2 : w2 = tick w1).
    { unfold w2, exec. rewrite (throttle_denies _ _ _ Hb). reflexivity. }
    assert (Hlast2 : last_emission key w2 = recorded).
    { rewrite Ew2. unfold last_emission. simpl. fold (last_emission key w1). exact Hlast1. }
    assert (Ht2 : ticks w2 = S (S (S (ticks w)))) by (rewrite Ew2; simpl; rewrite Ht1; reflexivity).
    split; [unfold result; rewrite (throttle_denies _ _ _ Hb); reflexivity|].
    split; intro Hthird; unfold result.
    - rewrite throttle_allows; [reflexivity|]. rewrite Hlast2, Ht2. exact Hthird.
    - rewrite throttle_denies; [reflexivity|]. rewrite Hlast2, Ht2. exact Hthird. }
  split; [|split; [|split; [exact Hseq|]]].
  - intro H. unfold result, exec. rewrite (throttle_allows _ _ _ H).
    split; reflexivity.
  - intro H. unfold result, exec. rewrite (throttle_denies _ _ _ H).
    split; reflexivity.
  - intros t eps Hfresh Hwin Heps H0 H1 H2 H3 w1 w2.
    destruct Hseq as (Hfirst & _ & Hrest); [exact Hfresh|rewrite H0; exact Hwin|].
    destruct Hrest as (Hsecond & Hthird & _); [rewrite H1, H2; lra|].
    split; [exact Hfirst|]. split; [exact Hsecond|].
    apply Hthird. rewrite H1, H3. lra.
Qed.

End ThrottleGate.

(** ** Reasoning about engine code *)

Lemma run_eta {A} (m : M A) (w : World) : m w = (result m w, exec m w).
Proof. unfold result, exec. destruct (m w); reflexivity. Qed.

Lemma bind_ok {A B} (m : M A) (k : A -> M B) w a w' :
  m w = (Ok a, w') -> bind m k w = k a w'.
Proof. intro H. unfold bind. rewrite H. reflexivity. Qed.

Lemma bind_raise {A B} (m : M A) (k : A -> M B) w e w' :
  m w = (Raise e, w') -> bind m k w = (Raise e, w').
Proof. intro H. unfold bind. rewrite H. reflexivity. Qed.

Lemma bind_ext {A B} (m : M A) (k1 k2 : A -> M B) w :
  (forall a w', k1 a w' = k2 a w') -> bind m k1 w = bind m k2 w.
Proof. intro H. unfold bind. destruct (m w) as [[a|e] w']; [apply H|reflexivity]. Qed.

Lemma for_each_app {A} (l1 l2 : list A) (body : A -> M unit) w :
  for_each (l1 ++ l2) body w = bind (for_each l1 body) (fun _ => for_each l2 body) w.
Proof.
  revert w. induction l1 as [|x l1 IH]; intro w; simpl.
  - reflexivity.
  - unfold bind. destruct (body x w) as [[[]|e] w']; [|reflexivity].
    rewrite IH. reflexivity.
Qed.

Lemma try_except_ok site body w :
  result (try_except site body) w = Ok tt.
Proof. unfold result, try_except. destruct (body w) as [[a|e] w']; reflexivity. Qed.


Lemma try_except_pass site body w a :
  result body w = Ok a ->
  try_except site body w = (Ok tt, exec body w).
Proof.
  unfold result, exec, try_except. destruct (body w) as [[a'|e'] w']; simpl.
  - reflexivity.
  - discriminate.
Qed.

Section Frame.
Context (R : World -> World -> Prop) `{!Framed R}.

Lemma preserves_ret {A} (a : A) : preserves R (ret a).
Proof. intro w. apply framed_refl. Qed.

Lemma preserves_lift {A} (o : outcome A) : preserves R (lift o).
Proof. intro w. apply framed_refl. Qed.

Lemma preserves_gets {A} (f : World -> A) : preserves R (gets f).
Proof. intro w. apply framed_refl. Qed.

Lemma preserves_modify (f : World -> World) :
  (forall w, R w (f w)) -> preserves R (modify f).
Proof. intros H w. apply H. Qed.

Lemma preserves_bind {A B} (m : M A) (k : A -> M B) :
  preserves R m -> (forall a, preserves R (k a)) -> preserves R (bind m k).
Proof.
  intros Hm Hk w. specialize (Hm w). unfold exec in *. unfold bind.
  destruct (m w) as [[a|e] w1]; simpl in *.
  - eapply framed_trans; [exact Hm|]. apply (Hk a w1).
  - exact Hm.
Qed.

Lemma preserves_when (c : bool) (body : M unit) :
  preserves R body -> preserves R (when c body).
Proof. intro H. destruct c; simpl; [exact H|apply preserves_ret]. Qed.

Lemma preserves_for_each {A} (l : list A) (body : A -> M unit) :
  (forall x, In x l -> preserves R (body x)) -> preserves R (for_each l body).
Proof.
  induction l as [|x l IH]; intro H; simpl.
  - apply preserves_ret.
  - apply preserves_bind.
    + apply H. left. reflexivity.
    + intros _. apply IH. intros y Hy. apply H. right. exact Hy.
Qed.

Lemma preserves_try_except site (body : M unit) :
  (forall e w, R w (log_exception site e w)) ->
  preserves R body -> preserves R (try_except site body).
Proof.
  intros Hexc H w. specialize (H w). unfold exec, try_except in *.
  destruct (body w) as [[a|e] w1]; simpl in *.
  - exact H.
  - eapply framed_trans; [exact H|apply Hexc].
Qed.

Context {P : Platform}.

Lemma preserves_time_time : preserves R time_time.
Proof. intro w. apply framed_tick. Qed.

Lemma preserves_throttle_ok cfg key : preserves R (_throttle_ok cfg key).
Proof.
  unfold _throttle_ok. apply preserves_bind; [apply preserves_gets|].
  intro last. apply preserves_bind; [apply preserves_time_time|].
  intro t. destruct (Qlt_bool _ _); [apply preserves_ret|].
  apply preserves_bind; [apply preserves_time_time|].
  intro t'. apply preserves_bind; [|intros; apply preserves_ret].
  apply preserves_modify. intro w. apply framed_last_alert_time.
Qed.

Lemma preserves_send_email cfg s m : preserves R (_send_email cfg s m).
Proof.
  unfold _send_email. destruct (negb _); [apply preserves_ret|].
  destruct (email_from _); [|apply preserves_lift].
  destruct (email_to _); [|apply preserves_lift].
  apply preserves_modify. intro w. apply framed_smtp.
Qed.

Lemma preserves_emit_alert cfg s m key :
  (forall w, R w (log_warning s m w)) -> preserves R (_emit_alert cfg s m key).
Proof.
  intro H. unfold _emit_alert. apply preserves_bind.
  - apply preserves_modify. exact H.
  - intros _. apply preserves_send_email.
Qed.

(** The shape shared by the six threshold checks. *)
Lemma preserves_gated_alert cfg (c : bool) s m key :
  (c = true -> forall w, R w (log_warning s m w)) ->
  preserves R
    (when c (bind (_throttle_ok cfg key)
                  (fun ok => when ok (_emit_alert cfg s m key)))).
Proof.
  intro H. destruct c; simpl; [|apply preserves_ret].
  apply preserves_bind; [apply preserves_throttle_ok|].
  intro ok. apply preserves_when. apply preserves_emit_alert. apply H. reflexivity.
Qed.

End Frame.

(** ** Ranking the processes *)

Section Ranking.

Lemma insert_desc_perm x l : Permutation (insert_desc x l) (x :: l).
Proof.
  induction l as [|y ys IH]; simpl.
  - apply Permutation_refl.
  - destruct (Qlt_bool (cpu x) (cpu y)).
    + eapply Permutation_trans; [apply perm_skip, IH|apply perm_swap].
    + apply Permutation_refl.
Qed.

Lemma sorted_by_cpu_desc_perm l : Permutation (sorted_by_cpu_desc l) l.
Proof.
  induction l as [|x l IH]; simpl.
  - apply perm_nil.
  - eapply Permutation_trans; [apply insert_desc_perm|apply perm_skip, IH].
Qed.










End Ranking.

(** ** Relations kept by the engine *)

Lemma warnings_kept_grow Pw w w' :
  warnings w' = warnings w -> warnings_grow Pw w w'.
Proof. intro H. exists []. rewrite H, app_nil_r. split; [reflexivity|constructor]. Qed.

Lemma warnings_grow_log Pw s m w :
  Pw (s, m) -> warnings_grow Pw w (log_warning s m w).
Proof. intro H. exists [(s, m)]. split; [reflexivity|]. constructor; [exact H|constructor]. Qed.

Lemma warnings_grow_weaken (Pw Qw : string * Message -> Prop) w w' :
  (forall a, Pw a -> Qw a) -> warnings_grow Pw w w' -> warnings_grow Qw w w'.
Proof.
  intros H (new & E & F). exists new. split; [exact E|].
  eapply List.Forall_impl; [exact H|exact F].
Qed.

#[local] Instance warnings_grow_framed Pw : Framed (warnings_grow Pw).
Proof.
  split.
  - intro w. apply warnings_kept_grow. reflexivity.
  - intros w1 w2 w3 (n1 & E1 & F1) (n2 & E2 & F2). exists (n1 ++ n2)%list.
    split; [rewrite E2, E1, app_assoc; reflexivity|].
    apply List.Forall_app. split; assumption.
  - intro w. apply warnings_kept_grow. reflexivity.
  - intros f w. apply warnings_kept_grow. reflexivity.
  - intros s m w. apply warnings_kept_grow. reflexivity.
Qed.

#[local] Instance baselines_kept_framed : Framed baselines_kept.
Proof.
  split; unfold baselines_kept; try reflexivity.
  intros w1 w2 w3 H1 H2. rewrite H2. exact H1.
Qed.

Section Passes.
Context {P : Platform} (R : World -> World -> Prop) `{!Framed R}.

Lemma preserves_bind_reached {A B} (m : M A) (k : A -> M B) :
  preserves R m ->
  (forall a, (exists w, result m w = Ok a) -> preserves R (k a)) ->
  preserves R (bind m k).
Proof.
  intros Hm Hk w. specialize (Hm w). unfold exec, result in *. unfold bind.
  destruct (m w) as [[a|e] w1] eqn:E; simpl in *.
  - eapply framed_trans; [exact Hm|]. apply (Hk a).
    exists w. rewrite E. reflexivity.
  - exact Hm.
Qed.

Lemma preserves_host_checks cfg h :
  (forall s v w, R w (log_warning s (HostCpuHigh v) w)) ->
  (forall s v w, R w (log_warning s (HostMemHigh v) w)) ->
  preserves R (host_checks cfg h).
Proof.
  intros Hc Hm. unfold host_checks. apply (preserves_bind R).
  - apply (preserves_gated_alert R). intros _ w. apply Hc.
  - intros _. apply (preserves_gated_alert R). intros _ w. apply Hm.
Qed.

Lemma preserves_process_checks cfg cpu_thr mem_thr p :
  (forall a w, about_process p a -> R w (log_warning (fst a) (snd a) w)) ->
  preserves R (process_checks cfg cpu_thr mem_thr p).
Proof.
  intros H. unfold process_checks. apply (preserves_bind R).
  - apply (preserves_gated_alert R). intros _ w.
    apply (H (_, _)). left. reflexivity.
  - intros _. apply (preserves_gated_alert R). intros _ w.
    apply (H (_, _)). right. reflexivity.
Qed.

Lemma preserves_process_pass cfg procs :
  (forall p a w, In p (top_offenders procs) -> about_process p a ->
                 R w (log_warning (fst a) (snd a) w)) ->
  preserves R (process_pass cfg procs).
Proof.
  intro H. unfold process_pass. apply (preserves_for_each R).
  intros p Hp. apply preserves_process_checks. intros a w. apply (H p a w Hp).
Qed.

End Passes.

(** ** The VM pass *)

Lemma interval_cases iv :
  (none_or_nonpositive iv = Ok true /\ unusable_interval iv) \/
  (none_or_nonpositive iv = Ok false /\ exists q, positive_interval iv q) \/
  (none_or_nonpositive iv = Raise TypeError /\ num_of iv = None /\ iv <> VNone).
Proof.
  unfold none_or_nonpositive, unusable_interval, positive_interval.
  destruct iv as [|b|z|q|s]; simpl.
  - left. split; [reflexivity|left; reflexivity].
  - destruct (Qle_bool (if b then 1%Q else 0%Q) 0) eqn:E.
    + left. split; [reflexivity|]. right. eexists. split; [reflexivity|].
      apply Qle_bool_iff, E.
    + right. left. split; [reflexivity|]. eexists. split; [reflexivity|].
      apply Qle_bool_false, E.
  - destruct (Qle_bool (inject_Z z) 0) eqn:E.
    + left. split; [reflexivity|]. right. eexists. split; [reflexivity|].
      apply Qle_bool_iff, E.
    + right. left. split; [reflexivity|]. eexists. split; [reflexivity|].
      apply Qle_bool_false, E.
  - destruct (Qle_bool q 0) eqn:E.
    + left. split; [reflexivity|]. right. eexists. split; [reflexivity|].
      apply Qle_bool_iff, E.
    + right. left. split; [reflexivity|]. eexists. split; [reflexivity|].
      apply Qle_bool_false, E.
  - right. right. repeat split; discriminate.
Qed.

Lemma estimate_outcome vname v iv w :
  (exists r, result (_vm_cpu_percent_from_delta vname v iv) w = Ok r) \/
  (_vm_cpu_percent_from_delta vname v iv w = (Raise TypeError, w)).
Proof.
  destruct (interval_cases iv) as [[_ H]|[[_ [q H]]|[H _]]].
  - left. exists None. unfold result. rewrite (estimate_unusable _ _ _ _ H). reflexivity.
  - left. destruct (estimate_positive vname v iv q w H) as [r Hr].
    exists r. unfold result. rewrite Hr. reflexivity.
  - right. unfold _vm_cpu_percent_from_delta, bind, lift. rewrite H. reflexivity.
Qed.

Section RaisesOnly.
Context {P : Platform} (E : exn -> Prop).

Lemma raises_only_ret {A} (a : A) : raises_only E (ret a).
Proof. intros w e H. discriminate H. Qed.

Lemma raises_only_modify f : raises_only E (modify f).
Proof. intros w e H. discriminate H. Qed.

Lemma raises_only_lift {A} (o : outcome A) :
  (forall e, o = Raise e -> E e) -> raises_only E (lift o).
Proof. intros H w e He. apply H. exact He. Qed.

Lemma raises_only_bind {A B} (m : M A) (k : A -> M B) :
  raises_only E m ->
  (forall a, (exists w, result m w = Ok a) -> raises_only E (k a)) ->
  raises_only E (bind m k).
Proof.
  intros Hm Hk w e. specialize (Hm w). unfold result in *. unfold bind.
  destruct (m w) as [[a|e'] w1] eqn:Em; simpl in *.
  - apply (Hk a). exists w. rewrite Em. reflexivity.
  - intros [= ->]. apply Hm. reflexivity.
Qed.

Lemma raises_only_when c (body : M unit) :
  raises_only E body -> raises_only E (when c body).
Proof. intro H. destruct c; simpl; [exact H|apply raises_only_ret]. Qed.

Lemma raises_only_throttle_ok cfg key : raises_only E (_throttle_ok cfg key).
Proof.
  intros w e H. destruct (throttle_never_raises cfg key w) as [b Hb].
  rewrite Hb in H. discriminate H.
Qed.

Hypothesis E_KeyError : E KeyError.

Lemma raises_only_send_email cfg s m : raises_only E (_send_email cfg s m).
Proof.
  unfold _send_email. destruct (negb _); [apply raises_only_ret|].
  destruct (email_from _); [|apply raises_only_lift; intros e [= <-]; exact E_KeyError].
  destruct (email_to _); [|apply raises_only_lift; intros e [= <-]; exact E_KeyError].
  apply raises_only_modify.
Qed.

Lemma raises_only_gated_alert cfg (c : bool) s m key :
  raises_only E
    (when c (bind (_throttle_ok cfg key)
                  (fun ok => when ok (_emit_alert cfg s m key)))).
Proof.
  apply raises_only_when, raises_only_bind; [apply raises_only_throttle_ok|].
  intros ok _. apply raises_only_when. unfold _emit_alert.
  apply raises_only_bind; [apply raises_only_modify|].
  intros _ _. apply raises_only_send_email.
Qed.

Hypothesis E_TypeError : E TypeError.

Lemma raises_only_estimate vname v iv :
  raises_only E (_vm_cpu_percent_from_delta vname v iv).
Proof.
  intros w e H. destruct (estimate_outcome vname v iv w) as [[r Hr]|Hr].
  - rewrite Hr in H. discriminate H.
  - unfold result in H. rewrite Hr in H. injection H as <-. exact E_TypeError.
Qed.

Hypothesis E_ValueError : E ValueError.

Lemma int_field_raises f e :
  int_field f = Raise e -> E e.
Proof.
  unfold int_field, py_int.
  destruct (py_or _ _) as [|b|z|q|s]; try discriminate.
  - intros [= <-]. exact E_TypeError.
  - destruct (parse_int s); [discriminate|]. intros [= <-]. exact E_ValueError.
Qed.

Lemma raises_only_vm_checks cfg iv vm : raises_only E (vm_checks cfg iv vm).
Proof.
  unfold vm_checks.
  apply raises_only_bind; [apply raises_only_lift, int_field_raises|]. intros mx _.
  apply raises_only_bind; [apply raises_only_lift, int_field_raises|]. intros mem _.
  apply raises_only_bind; [apply raises_only_lift, int_field_raises|]. intros ct _.
  apply raises_only_bind.
  { destruct (0 <? mx) eqn:Hmx; [|apply raises_only_ret].
    apply raises_only_bind; [|intros; apply raises_only_ret].
    apply raises_only_lift. intros e. unfold py_truediv.
    assert (Hnz : Qeq_bool (inject_Z mx) 0 = false).
    { apply Qeq_bool_false_of_pos. apply Z.ltb_lt in Hmx.
      change 0%Q with (inject_Z 0). rewrite <- Zlt_Qlt. exact Hmx. }
    rewrite Hnz. discriminate. }
  intros mem_pct _.
  apply raises_only_bind; [apply raises_only_estimate|]. intros cpu_pct _.
  apply raises_only_bind.
  { destruct cpu_pct; [apply raises_only_gated_alert|apply raises_only_ret]. }
  intros _ _. apply raises_only_bind.
  { destruct mem_pct; [apply raises_only_gated_alert|apply raises_only_ret]. }
  intros _ _. apply raises_only_when.
  apply raises_only_bind; [intros w e H; discriminate H|].
  intros; apply raises_only_ret.
Qed.

End RaisesOnly.

Section VmPass.
Context {P : Platform} (R : World -> World -> Prop) `{!Framed R}.

Lemma preserves_estimate vname v iv :
  (forall f w, R w (set_last_vm_cpu_time f w)) ->
  preserves R (_vm_cpu_percent_from_delta vname v iv).
Proof.
  intros Hset w. unfold exec.
  destruct (interval_cases iv) as [[_ H]|[[_ [q H]]|[H _]]].
  - rewrite (estimate_unusable _ _ _ _ H). apply framed_refl.
  - destruct (estimate_positive vname v iv q w H) as [r Hr]. rewrite Hr. apply Hset.
  - unfold _vm_cpu_percent_from_delta, bind, lift. rewrite H. apply framed_refl.
Qed.

Lemma preserves_vm_checks cfg iv vm :
  (forall v, preserves R (_vm_cpu_percent_from_delta (vm_name vm) v iv)) ->
  (forall v pct,
     (exists w, result (_vm_cpu_percent_from_delta (vm_name vm) v iv) w = Ok (Some pct)) ->
     forall s c w, R w (log_warning s (VmCpuHigh (vm_name vm) pct c) w)) ->
  (forall mx, int_field (vm_maxMemKB vm) = Ok mx -> 0 < mx ->
     forall s pct mem w, R w (log_warning s (VmMemHigh (vm_name vm) pct mem mx) w)) ->
  preserves R (vm_checks cfg iv vm).
Proof.
  intros Hest Hcpu Hmem. unfold vm_checks.
  apply (preserves_bind_reached R); [apply (preserves_lift R)|]. intros mx [w0 Hmx].
  apply (preserves_bind R); [apply (preserves_lift R)|]. intros mem.
  apply (preserves_bind R); [apply (preserves_lift R)|]. intros ct.
  apply (preserves_bind_reached R).
  { destruct (0 <? mx); [|apply (preserves_ret R)].
    apply (preserves_bind R); [apply (preserves_lift R)|].
    intro q. apply (preserves_ret R). }
  intros mem_pct [w1 Hpct].
  apply (preserves_bind_reached R); [apply Hest|]. intros cpu_pct Hreach.
  apply (preserves_bind R).
  { destruct cpu_pct as [pct|]; [|apply (preserves_ret R)].
    apply (preserves_gated_alert R). intros _ w. apply (Hcpu ct pct Hreach). }
  intros _. apply (preserves_bind R).
  { destruct mem_pct as [pct|]; [|apply (preserves_ret R)].
    apply (preserves_gated_alert R). intros _ w. apply Hmem.
    - exact Hmx.
    - destruct (0 <? mx) eqn:E; [apply Z.ltb_lt, E|discriminate Hpct]. }
  intros _. apply (preserves_when R).
  apply (preserves_bind R); [apply (preserves_gets R)|].
  intros _. apply (preserves_ret R).
Qed.

Lemma preserves_check_and_alert cfg snapshot :
  (forall site e w, R w (log_exception site e w)) ->
  (forall s m w, ~ vm_message m -> R w (log_warning s m w)) ->
  (forall vm, In vm (vms snapshot) ->
     preserves R (vm_checks cfg (snapshot_interval cfg snapshot) vm)) ->
  preserves R (check_and_alert cfg snapshot).
Proof.
  intros Hexc Hlog Hvm. unfold check_and_alert.
  apply (preserves_bind R).
  { unfold host_pass. destruct (host snapshot) as [h|]; [|apply (preserves_ret R)].
    apply (preserves_try_except R); [apply Hexc|].
    apply (preserves_host_checks R); intros; apply Hlog; intros []. }
  intros _. apply (preserves_bind R).
  { apply (preserves_try_except R); [apply Hexc|].
    apply (preserves_process_pass R).
    intros p a w _ [-> | ->]; apply Hlog; intros []. }
  intros _. unfold vm_pass. apply (preserves_for_each R).
  intros vm Hin. apply (preserves_try_except R); [apply Hexc|]. apply Hvm, Hin.
Qed.

End VmPass.

Section VmMemory.
Context {P : Platform}.

(** C6: a VM record whose [maxMemKB] is 0 (or below)
    causes no VM memory alert, whatever its [memKB] and the memory
    threshold; the division is made only under [max_mem_kb > 0], so no
    [ZeroDivisionError] arises in the evaluation of a VM record; and every VM
    memory alert of an evaluation is about a VM with a positive
    [maxMemKB]. *)
Theorem C6_no_memory_alert_without_capacity (cfg : Config) :
  (forall iv vm mx w,
     int_field (vm_maxMemKB vm) = Ok mx -> mx <= 0 ->
     warnings_grow (fun a => ~ is_vm_memory_alert a) w (exec (vm_checks cfg iv vm) w)) /\
  (forall iv vm, raises_only (fun e => e <> ZeroDivisionError) (vm_checks cfg iv vm)) /\
  (forall snapshot w,
     warnings_grow memory_alert_has_capacity w (exec (check_and_alert cfg snapshot) w)).
Proof.
  split; [|split].
  - intros iv vm mx w Hmx Hle.
    apply (preserves_vm_checks (warnings_grow _)).
    + intro v. apply (preserves_estimate (warnings_grow _)).
      intros f w0. apply warnings_kept_grow. reflexivity.
    + intros v pct _ s c w0. apply warnings_grow_log. intros [].
    + intros mx' Hmx' Hpos. rewrite Hmx in Hmx'. injection Hmx' as <-. lia.
  - intros iv vm. apply raises_only_vm_checks; discriminate.
  - intros snapshot w. apply (preserves_check_and_alert (warnings_grow _)).
    + intros site e w0. apply warnings_kept_grow. reflexivity.
    + intros s m w0 Hm. apply warnings_grow_log.
      unfold memory_alert_has_capacity. simpl. destruct m; try exact I.
      exfalso. apply Hm. exact I.
    + intros vm _. apply (preserves_vm_checks (warnings_grow _)).
      * intro v. apply (preserves_estimate (warnings_grow _)).
        intros f w0. apply warnings_kept_grow. reflexivity.
      * intros v pct _ s c w0. apply warnings_grow_log. exact I.
      * intros mx _ Hpos s pct mem w0. apply warnings_grow_log. exact Hpos.
Qed.

End VmMemory.

(** ** Isolation of the phases *)

Section Isolation.
Context {P : Platform}.

Lemma for_each_try_ok {A} (l : list A) (site : A -> ErrSite) (body : A -> M unit) w :
  result (for_each l (fun x => try_except (site x) (body x))) w = Ok tt.
Proof.
  revert w. induction l as [|x l IH]; intro w; [reflexivity|].
  simpl. unfold result, bind.
  destruct (try_except (site x) (body x) w) as [[[]|e] w1] eqn:E.
  - apply IH.
  - pose proof (try_except_ok (site x) (body x) w) as H.
    unfold result in H. rewrite E in H. discriminate H.
Qed.

Lemma host_pass_ok cfg snapshot w : result (host_pass cfg snapshot) w = Ok tt.
Proof.
  unfold host_pass. destruct (host snapshot); [apply try_except_ok|reflexivity].
Qed.

Lemma check_and_alert_ok cfg snapshot w :
  result (check_and_alert cfg snapshot) w = Ok tt.
Proof.
  unfold check_and_alert, result, bind.
  destruct (host_pass cfg snapshot w) as [[[]|e] w1] eqn:E1.
  - destruct (try_except ProcSite (process_pass cfg (processes snapshot)) w1)
      as [[[]|e] w2] eqn:E2.
    + apply (for_each_try_ok (vms snapshot) VmSite).
    + pose proof (try_except_ok ProcSite (process_pass cfg (processes snapshot)) w1) as H.
      unfold result in H. rewrite E2 in H. discriminate H.
  - pose proof (host_pass_ok cfg snapshot w) as H.
    unfold result in H. rewrite E1 in H. discriminate H.
Qed.


End Isolation.

(** ** The unused [cpu_time_delta_ns] option *)

Section DeltaOption.
Context {P : Platform}.

Lemma for_each_ext {A} (l : list A) (f g : A -> M unit) w :
  (forall x w', f x w' = g x w') -> for_each l f w = for_each l g w.
Proof.
  intro H. revert w. induction l as [|x l IH]; intro w; [reflexivity|].
  simpl. unfold bind. rewrite H. destruct (g x w) as [[[]|e] w1]; [apply IH|reflexivity].
Qed.

Lemma try_except_ext site (f g : M unit) w :
  f w = g w -> try_except site f w = try_except site g w.
Proof. intro H. unfold try_except. rewrite H. reflexivity. Qed.

Lemma vm_checks_delta_option cfg d iv vm w :
  vm_checks (with_cpu_time_delta_ns d cfg) iv vm w = vm_checks cfg iv vm w.
Proof.
  unfold vm_checks.
  apply bind_ext; intros mx w1. apply bind_ext; intros mem w2.
  apply bind_ext; intros ct w3. apply bind_ext; intros mem_pct w4.
  apply bind_ext; intros cpu_pct w5. apply bind_ext; intros [] w6.
  apply bind_ext; intros [] w7.
  destruct (is_not_none _), (is_not_none _); reflexivity.
Qed.

(** C8: setting [vm_alerts.cpu_time_delta_ns], to any
    value, changes nothing: an evaluation under the configuration with the
    option set returns the same outcome and leaves the same world (alerts,
    throttle timestamps, baselines) as under the configuration with the
    option absent, and as under the configuration it was set in. *)
Theorem C8_cpu_time_delta_ns_unused (cfg : Config) (d : option pyval)
    (snapshot : Snapshot) (w : World) :
  check_and_alert (with_cpu_time_delta_ns d cfg) snapshot w =
    check_and_alert (with_cpu_time_delta_ns None cfg) snapshot w /\
  check_and_alert (with_cpu_time_delta_ns d cfg) snapshot w =
    check_and_alert cfg snapshot w.
Proof.
  assert (H : forall d', check_and_alert (with_cpu_time_delta_ns d' cfg) snapshot w =
                         check_and_alert cfg snapshot w).
  { intro d'. unfold check_and_alert.
    apply bind_ext; intros [] w1. apply bind_ext; intros [] w2.
    unfold vm_pass. apply for_each_ext. intros vm w3.
    apply try_except_ext. apply vm_checks_delta_option. }
  split; [rewrite (H d), (H None); reflexivity|apply H].
Qed.

End DeltaOption.

(** ** When an alert is logged *)

Section Firing.
Context {P : Platform}.

Lemma bind_result {A B} (m : M A) (k : A -> M B) w a :
  result m w = Ok a -> bind m k w = k a (exec m w).
Proof. intro H. apply bind_ok. rewrite (run_eta m w), H. reflexivity. Qed.

Lemma throttle_result_frame cfg key w w' :
  last_alert_time w' = last_alert_time w -> ticks w' = ticks w ->
  result (_throttle_ok cfg key) w' = result (_throttle_ok cfg key) w.
Proof.
  intros Hl Ht. unfold result, _throttle_ok, bind, gets, time_time, modify, ret.
  rewrite Hl, Ht. destruct (Qlt_bool _ _); reflexivity.
Qed.

Lemma throttle_warnings cfg key w :
  warnings (exec (_throttle_ok cfg key) w) = warnings w.
Proof.
  unfold exec, _throttle_ok, bind, gets, time_time, modify, ret.
  destruct (Qlt_bool _ _); reflexivity.
Qed.

Lemma send_email_warnings cfg s m w :
  warnings (exec (_send_email cfg s m) w) = warnings w.
Proof.
  unfold exec, _send_email, lift, modify, ret.
  destruct (negb _); [reflexivity|].
  destruct (email_from _); [|reflexivity].
  destruct (email_to _); reflexivity.
Qed.

Lemma estimate_gate vname v iv w :
  last_alert_time (exec (_vm_cpu_percent_from_delta vname v iv) w) = last_alert_time w /\
  ticks (exec (_vm_cpu_percent_from_delta vname v iv) w) = ticks w.
Proof.
  unfold exec. destruct (interval_cases iv) as [[_ H]|[[_ [q H]]|[H _]]].
  - rewrite (estimate_unusable _ _ _ _ H). split; reflexivity.
  - destruct (estimate_positive vname v iv q w H) as [r Hr]. rewrite Hr.
    split; reflexivity.
  - unfold _vm_cpu_percent_from_delta, bind, lift. rewrite H. split; reflexivity.
Qed.

Lemma gated_alert_fires cfg (c : bool) s m key w :
  c = true ->
  result (_throttle_ok cfg key) w = Ok true ->
  In (s, m)
     (warnings (exec (when c (bind (_throttle_ok cfg key)
                                   (fun ok => when ok (_emit_alert cfg s m key)))) w)).
Proof.
  intros -> Hgate. simpl when. unfold exec.
  rewrite (bind_result _ _ _ _ Hgate). simpl when.
  unfold _emit_alert, bind at 1, modify.
  change (In (s, m) (warnings (exec (_send_email cfg s m)
            (log_warning s m (exec (_throttle_ok cfg key) w))))).
  rewrite send_email_warnings. simpl. apply in_or_app. right. left. reflexivity.
Qed.

Lemma in_warnings_bind {A B} (m : M A) (k : A -> M B) a w :
  In a (warnings (exec m w)) ->
  (forall x, preserves (warnings_grow (fun _ => True)) (k x)) ->
  In a (warnings (exec (bind m k) w)).
Proof.
  intros Hin Hk. unfold exec, bind in *.
  destruct (m w) as [[x|e] w1]; simpl in *; [|exact Hin].
  destruct (Hk x w1) as (new & E & _). unfold exec in E. rewrite E.
  apply in_or_app. left. exact Hin.
Qed.




Lemma memory_block mem mx {B} (k : option Q -> M B) w :
  bind (if 0 <? mx
        then bind (lift (py_truediv (inject_Z mem) (inject_Z mx)))
                  (fun q => ret (Some (q * (100 # 1))%Q))
        else ret None) k w
  = k (memory_percent mem mx) w.
Proof.
  unfold memory_percent. destruct (0 <? mx) eqn:Hmx; [|reflexivity].
  unfold py_truediv.
  assert (Hnz : Qeq_bool (inject_Z mx) 0 = false).
  { apply Qeq_bool_false_of_pos. apply Z.ltb_lt in Hmx.
    change 0%Q with (inject_Z 0). rewrite <- Zlt_Qlt. exact Hmx. }
  rewrite Hnz. reflexivity.
Qed.


Lemma vm_memory_alert_fires cfg iv vm mx mem ct cpu_pct pct w :
  int_field (vm_maxMemKB vm) = Ok mx ->
  int_field (vm_memKB vm) = Ok mem ->
  int_field (vm_cpuTime vm) = Ok ct ->
  memory_percent mem mx = Some pct ->
  result (_vm_cpu_percent_from_delta (vm_name vm) ct iv) w = Ok cpu_pct ->
  (forall c, cpu_pct = Some c -> (c < cpu_threshold (vm_alerts cfg))%Q) ->
  (memory_threshold (vm_alerts cfg) <= pct)%Q ->
  result (_throttle_ok cfg ("vm_mem_" +:+ vm_name vm)) w = Ok true ->
  In ("VM Memory Alert", VmMemHigh (vm_name vm) pct mem mx)
     (warnings (exec (vm_checks cfg iv vm) w)).
Proof.
  intros Hmx Hmem Hct Hpct Hest Hcpu Hthr Hgate. unfold exec, vm_checks.
  rewrite Hmx, Hmem, Hct.
  unfold bind at 1, lift at 1. unfold bind at 1, lift at 1.
  unfold bind at 1, lift at 1.
  rewrite (memory_block mem mx), Hpct.
  rewrite (bind_result _ _ _ _ Hest).
  assert (Hquiet :
    forall w1,
      match cpu_pct with
      | Some cpu_percent =>
          when (Qle_bool (default (100 # 1)%Q
                  (thr_cpu_percent (default no_thresholds (vm_alerts cfg)))) cpu_percent)
            (bind (_throttle_ok cfg ("vm_cpu_" +:+ vm_name vm))
               (fun ok => when ok
                  (_emit_alert cfg "VM CPU Alert"
                     (VmCpuHigh (vm_name vm) cpu_percent (default VNone (vm_vcpus vm)))
                     ("vm_cpu_" +:+ vm_name vm))))
      | None => ret tt
      end w1 = (Ok tt, w1)).
  { intro w1. destruct cpu_pct as [c|]; [|reflexivity].
    specialize (Hcpu c eq_refl). apply Qle_bool_false in Hcpu.
    unfold cpu_threshold in Hcpu. rewrite Hcpu. reflexivity. }
  rewrite (bind_ok _ _ _ _ _ (Hquiet _)).
  apply in_warnings_bind.
  - apply gated_alert_fires.
    + apply Qle_bool_iff. exact Hthr.
    + destruct (estimate_gate (vm_name vm) ct iv w) as [Hl Ht].
      rewrite (throttle_result_frame _ _ _ _ Hl Ht). exact Hgate.
  - intros _. apply (preserves_when (warnings_grow _)).
    apply (preserves_bind (warnings_grow _)); [apply (preserves_gets (warnings_grow _))|].
    intros _. apply (preserves_ret (warnings_grow _)).
Qed.

End Firing.

(** * Further properties of the engine *)

(** ** What one call touches *)

Section Locality.
Context {P : Platform}.

(** X1: [_throttle_ok] never raises, reads the clock once or twice, and
    touches nothing but the timestamp of its own key. *)
Theorem throttle_ok_touches_only_its_key (cfg : Config) (key : string) (w : World) :
  let w' := exec (_throttle_ok cfg key) w in
  (exists b, result (_throttle_ok cfg key) w = Ok b) /\
  (forall k, k <> key -> last_alert_time w' !! k = last_alert_time w !! k) /\
  _last_vm_cpu_time w' = _last_vm_cpu_time w /\
  warnings w' = warnings w /\ outbox w' = outbox w /\ errors w' = errors w /\
  (result (_throttle_ok cfg key) w = Ok false -> ticks w' = S (ticks w)) /\
  (result (_throttle_ok cfg key) w = Ok true -> ticks w' = S (S (ticks w))).
Proof.
  intro w'. subst w'.
  destruct (Qlt_le_dec (clock (ticks w) - last_emission key w) (window cfg)) as [H|H].
  - unfold result, exec. rewrite (throttle_denies _ _ _ H). simpl.
    repeat split; try reflexivity; try discriminate. exists false. reflexivity.
  - unfold result, exec. rewrite (throttle_allows _ _ _ H). simpl.
    repeat split; try reflexivity; try discriminate.
    + exists true. reflexivity.
    + intros k Hk. apply lookup_insert_ne. congruence.
Qed.

(** X2: [_vm_cpu_percent_from_delta] touches nothing but the baseline of its
    own name: the other baselines, the throttle timestamps, the clock and
    the logs are left as they were, and the baseline of the name is never
    removed. *)
Theorem estimate_touches_only_its_name (vname : string) (v : Z) (iv : pyval) (w : World) :
  let w' := exec (_vm_cpu_percent_from_delta vname v iv) w in
  (forall n, n <> vname -> _last_vm_cpu_time w' !! n = _last_vm_cpu_time w !! n) /\
  (is_Some (_last_vm_cpu_time w !! vname) -> is_Some (_last_vm_cpu_time w' !! vname)) /\
  last_alert_time w' = last_alert_time w /\ ticks w' = ticks w /\
  warnings w' = warnings w /\ outbox w' = outbox w /\ errors w' = errors w.
Proof.
  intro w'. subst w'. unfold exec.
  destruct (interval_cases iv) as [[_ H]|[[_ [q H]]|[H _]]].
  - rewrite (estimate_unusable _ _ _ _ H). simpl. repeat split; auto.
  - destruct (estimate_positive vname v iv q w H) as [r Hr]. rewrite Hr. simpl.
    repeat split; auto.
    + intros n Hn. apply lookup_insert_ne. congruence.
    + intros _. rewrite lookup_insert_eq. eexists. reflexivity.
  - unfold _vm_cpu_percent_from_delta, bind, lift. rewrite H. simpl.
    repeat split; auto.
Qed.

Lemma percent_of_delta_positive (delta_ns : Z) (q : Q) :
  0 < delta_ns -> (0 < q)%Q -> (0 < percent_of_delta delta_ns q)%Q.
Proof.
  intros Hd Hq. unfold percent_of_delta.
  assert (H0 : (0 < inject_Z delta_ns)%Q).
  { change 0%Q with (inject_Z 0). rewrite <- Zlt_Qlt. exact Hd. }
  assert (H1 : (0 < inject_Z delta_ns / (1000000000 # 1))%Q).
  { apply Qlt_shift_div_l; [reflexivity|]. lra. }
  assert (H2 : (0 < inject_Z delta_ns / (1000000000 # 1) / q)%Q).
  { apply Qlt_shift_div_l; [exact Hq|]. lra. }
  lra.
Qed.

Lemma estimate_some_inv (vname : string) (v : Z) (iv : pyval) (w : World) (x : Q) :
  result (_vm_cpu_percent_from_delta vname v iv) w = Ok (Some x) ->
  exists prev, _last_vm_cpu_time w !! vname = Some prev.
Proof.
  intro Hres. unfold result in Hres.
  destruct (_last_vm_cpu_time w !! vname) as [prev|] eqn:Hprev; [exists prev; reflexivity|].
  exfalso. destruct (interval_cases iv) as [[_ H]|[[_ [q H]]|[H _]]].
  - rewrite (estimate_unusable _ _ _ _ H) in Hres. discriminate Hres.
  - rewrite (estimate_first _ _ _ _ _ H Hprev) in Hres. discriminate Hres.
  - unfold _vm_cpu_percent_from_delta, bind, lift in Hres. rewrite H in Hres.
    discriminate Hres.
Qed.

(** X3: a percentage is returned only for a name that had a baseline, a
    cumulative value above that baseline and a positive interval; it is
    then the docstring's formula and is above zero. *)
Theorem estimate_value_only_on_progress (vname : string) (v : Z) (iv : pyval)
    (w : World) (x : Q) :
  result (_vm_cpu_percent_from_delta vname v iv) w = Ok (Some x) ->
  exists prev q,
    _last_vm_cpu_time w !! vname = Some prev /\ prev < v /\
    positive_interval iv q /\
    x = percent_of_delta (v - prev) q /\ (0 < x)%Q.
Proof.
  intro Hres. unfold result in Hres.
  destruct (interval_cases iv) as [[_ H]|[[_ [q H]]|[H _]]].
  - rewrite (estimate_unusable _ _ _ _ H) in Hres. discriminate Hres.
  - destruct (_last_vm_cpu_time w !! vname) as [prev|] eqn:Hprev.
    + destruct (Z_lt_le_dec prev v) as [Hlt|Hle].
      * rewrite (estimate_progress _ _ _ _ _ _ H Hprev Hlt) in Hres.
        injection Hres as <-. exists prev, q. repeat split; try assumption.
        -- apply H.
        -- apply H.
        -- apply percent_of_delta_positive; [lia|apply H].
      * rewrite (estimate_no_progress _ _ _ _ _ _ H Hprev) in Hres by lia.
        discriminate Hres.
    + rewrite (estimate_first _ _ _ _ _ H Hprev) in Hres. discriminate Hres.
  - unfold _vm_cpu_percent_from_delta, bind, lift in Hres. rewrite H in Hres.
    discriminate Hres.
Qed.

End Locality.

(** ** Conversions of VM fields *)

Section Conversions.
Context {P : Platform}.

(** X5: [int(field or 0)] is 0 for a missing key, [None], [False], [0], [0.0]
    and the empty string; an integer field is taken as it is; a non-empty
    string field gives the integer [int] reads in it, and [ValueError]
    when [int] rejects it. *)
Theorem int_field_defaults_and_errors (f : option pyval) :
  (default (VInt 0) f = VNone \/ default (VInt 0) f = VBool false \/
   default (VInt 0) f = VInt 0 \/ default (VInt 0) f = VStr "" \/
   (exists q, default (VInt 0) f = VFloat q /\ (q == 0)%Q) ->
     int_field f = Ok 0) /\
  (forall z, f = Some (VInt z) -> int_field f = Ok z) /\
  (forall s, f = Some (VStr s) -> s <> "" ->
     int_field f = match parse_int s with
                   | Some z => Ok z
                   | None => Raise ValueError
                   end).
Proof.
  split; [|split].
  - unfold int_field, py_or.
    intros [-> | [-> | [-> | [-> | (q & -> & Hq)]]]]; try reflexivity.
    simpl. apply Qeq_bool_iff in Hq. rewrite Hq. reflexivity.
  - intros z ->. unfold int_field, py_or. simpl.
    destruct (z =? 0) eqn:E; simpl; [|reflexivity].
    apply Z.eqb_eq in E. subst. reflexivity.
  - intros s -> Hs. unfold int_field, py_or. simpl.
    destruct (String.eqb s "") eqn:Es.
    + apply String.eqb_eq in Es. contradiction.
    + reflexivity.
Qed.

End Conversions.

(** ** Emission *)

Section Emission.
Context {P : Platform}.

Lemma send_email_outcome cfg s m w :
  _send_email cfg s m w =
    (if mail_broken cfg then Raise KeyError else Ok tt,
     if mail_ready cfg then hand_to_smtp s m w else w).
Proof.
  unfold _send_email, mail_broken, mail_ready, mail_enabled.
  fold (email_section cfg).
  destruct (default false (email_enabled (email_section cfg))); simpl; [|reflexivity].
  destruct (email_from (email_section cfg)); simpl; [|reflexivity].
  destruct (email_to (email_section cfg)); reflexivity.
Qed.

Lemma emit_alert_run cfg s m key w :
  _emit_alert cfg s m key w =
    (if mail_broken cfg then Raise KeyError else Ok tt,
     if mail_ready cfg then hand_to_smtp s m (log_warning s m w)
     else log_warning s m w).
Proof. unfold _emit_alert, bind, modify. apply send_email_outcome. Qed.

Lemma mail_broken_not_ready cfg : mail_broken cfg = true -> mail_ready cfg = false.
Proof.
  unfold mail_broken, mail_ready.
  destruct (mail_enabled cfg), (present _), (present _); simpl; congruence.
Qed.


Lemma gated_alert_aborts cfg (c : bool) s m key w :
  c = true ->
  (window cfg <= clock (ticks w) - last_emission key w)%Q ->
  mail_broken cfg = true ->
  when c (bind (_throttle_ok cfg key)
               (fun ok => when ok (_emit_alert cfg s m key))) w =
    (Raise KeyError,
     log_warning s m
       (set_last_alert_time <[key := clock (S (ticks w))]> (tick (tick w)))).
Proof.
  intros -> Hgate Hbroken. simpl when.
  rewrite (bind_ok _ _ _ _ _ (throttle_allows cfg key w Hgate)). simpl when.
  rewrite emit_alert_run, Hbroken, (mail_broken_not_ready cfg Hbroken). reflexivity.
Qed.

(** X7: when mail is enabled without [from] or [to], the first alert of a
    block ends the block: the host checks stop after a host CPU alert (the
    throttle timestamp is recorded, the warning is logged, the memory check
    is not made), and the process pass stops at the first alert of its
    first process, leaving the other processes unchecked. *)
Theorem mail_failure_ends_the_block (cfg : Config) (w : World) :
  mail_broken cfg = true ->
  (forall h,
     (cpu_threshold (host_alerts cfg) <= host_cpu_percent h)%Q ->
     (window cfg <= clock (ticks w) - last_emission "host_cpu" w)%Q ->
     host_checks cfg h w =
       (Raise KeyError,
        log_warning "Host CPU Alert" (HostCpuHigh (host_cpu_percent h))
          (set_last_alert_time <["host_cpu" := clock (S (ticks w))]> (tick (tick w))))) /\
  (forall procs p rest,
     top_offenders procs = p :: rest ->
     (cpu_threshold (process_alerts cfg) <= cpu p)%Q ->
     (window cfg <= clock (ticks w)
                    - last_emission ("proc_cpu_" +:+ str_of_Z (pid p)) w)%Q ->
     process_pass cfg procs w =
       (Raise KeyError,
        log_warning "Process CPU Alert" (ProcCpuMsg (name p) (pid p) (cpu p))
          (set_last_alert_time
             <["proc_cpu_" +:+ str_of_Z (pid p) := clock (S (ticks w))]>
             (tick (tick w))))).
Proof.
  intro Hbroken. split.
  - intros h Hthr Hgate. unfold host_checks.
    apply bind_raise. apply gated_alert_aborts; try assumption.
    apply Qle_bool_iff. exact Hthr.
  - intros procs p rest Htop Hthr Hgate. unfold process_pass. rewrite Htop.
    simpl for_each. apply bind_raise. unfold process_checks.
    apply bind_raise. apply gated_alert_aborts; try assumption.
    apply Qle_bool_iff. exact Hthr.
Qed.

(** X8: values strictly below their thresholds cost nothing: the host checks
    and the process pass then return without reading the clock, logging or
    recording anything, and so does the evaluation of a snapshot without
    VMs. *)
Theorem below_thresholds_nothing_happens (cfg : Config) (w : World) :
  (forall h,
     (host_cpu_percent h < cpu_threshold (host_alerts cfg))%Q ->
     (host_mem_percent h < memory_threshold (host_alerts cfg))%Q ->
     host_checks cfg h w = (Ok tt, w)) /\
  (forall procs,
     (forall p, In p procs ->
        (cpu p < cpu_threshold (process_alerts cfg))%Q /\
        (mem_percent p < memory_threshold (process_alerts cfg))%Q) ->
     process_pass cfg procs w = (Ok tt, w)) /\
  (forall snapshot,
     vms snapshot = [] ->
     (forall h, host snapshot = Some h ->
        (host_cpu_percent h < cpu_threshold (host_alerts cfg))%Q /\
        (host_mem_percent h < memory_threshold (host_alerts cfg))%Q) ->
     (forall p, In p (processes snapshot) ->
        (cpu p < cpu_threshold (process_alerts cfg))%Q /\
        (mem_percent p < memory_threshold (process_alerts cfg))%Q) ->
     check_and_alert cfg snapshot w = (Ok tt, w)).
Proof.
  assert (Hhost : forall h,
     (host_cpu_percent h < cpu_threshold (host_alerts cfg))%Q ->
     (host_mem_percent h < memory_threshold (host_alerts cfg))%Q ->
     host_checks cfg h w = (Ok tt, w)).
  { intros h Hc Hm. unfold host_checks.
    apply Qle_bool_false in Hc, Hm. unfold cpu_threshold in Hc.
    unfold memory_threshold in Hm. rewrite Hc, Hm. reflexivity. }
  assert (Hproc : forall procs,
     (forall p, In p procs ->
        (cpu p < cpu_threshold (process_alerts cfg))%Q /\
        (mem_percent p < memory_threshold (process_alerts cfg))%Q) ->
     process_pass cfg procs w = (Ok tt, w)).
  { intros procs Hall. unfold process_pass.
    assert (Htop : forall p, In p (top_offenders procs) ->
        (cpu p < cpu_threshold (process_alerts cfg))%Q /\
        (mem_percent p < memory_threshold (process_alerts cfg))%Q).
    { intros p Hp. apply Hall.
      apply (Permutation_in _ (sorted_by_cpu_desc_perm procs)).
      unfold top_offenders in Hp. rewrite <- (firstn_skipn 20 (sorted_by_cpu_desc procs)).
      apply in_or_app. left. exact Hp. }
    induction (top_offenders procs) as [|p l IH]; [reflexivity|].
    simpl for_each.
    assert (Hp : process_checks cfg
                   (default (100 # 1)%Q
                      (thr_cpu_percent (default no_thresholds (process_alerts cfg))))
                   (default (100 # 1)%Q
                      (thr_memory_percent (default no_thresholds (process_alerts cfg))))
                   p w = (Ok tt, w)).
    { destruct (Htop p (or_introl eq_refl)) as [Hc Hm].
      apply Qle_bool_false in Hc, Hm. unfold cpu_threshold in Hc.
      unfold memory_threshold in Hm. unfold process_checks. rewrite Hc, Hm.
      reflexivity. }
    rewrite (bind_ok _ _ _ _ _ Hp). apply IH.
    intros q Hq. apply Htop. right. exact Hq. }
  split; [exact Hhost|]. split; [exact Hproc|].
  intros snapshot Hvms Hh Hp. unfold check_and_alert.
  assert (E1 : host_pass cfg snapshot w = (Ok tt, w)).
  { unfold host_pass. destruct (host snapshot) as [h|]; [|reflexivity].
    destruct (Hh h eq_refl) as [Hc Hm]. unfold try_except.
    rewrite (Hhost h Hc Hm). reflexivity. }
  rewrite (bind_ok _ _ _ _ _ E1).
  assert (E2 : try_except ProcSite (process_pass cfg (processes snapshot)) w = (Ok tt, w)).
  { unfold try_except. rewrite (Hproc _ Hp). reflexivity. }
  rewrite (bind_ok _ _ _ _ _ E2). unfold vm_pass. rewrite Hvms. reflexivity.
Qed.

End Emission.

(** ** Invariants of an evaluation *)

Lemma memory_run mem mx w :
  (if 0 <? mx
   then bind (lift (py_truediv (inject_Z mem) (inject_Z mx)))
             (fun q => ret (Some (q * (100 # 1))%Q))
   else ret None) w
  = (Ok (memory_percent mem mx), w).
Proof.
  unfold memory_percent. destruct (0 <? mx) eqn:Hmx; [|reflexivity].
  unfold py_truediv.
  assert (Hnz : Qeq_bool (inject_Z mx) 0 = false).
  { apply Qeq_bool_false_of_pos. apply Z.ltb_lt in Hmx.
    change 0%Q with (inject_Z 0). rewrite <- Zlt_Qlt. exact Hmx. }
  rewrite Hnz. reflexivity.
Qed.

Section MailRaises.
Context {P : Platform} (cfg : Config) (E : exn -> Prop).
Hypothesis E_mail : mail_broken cfg = true -> E KeyError.

Lemma raises_mail_send_email s m : raises_only E (_send_email cfg s m).
Proof.
  intros w e H. unfold result in H. rewrite send_email_outcome in H. simpl in H.
  destruct (mail_broken cfg); [|discriminate H].
  injection H as <-. apply E_mail. reflexivity.
Qed.

Lemma raises_mail_gated_alert (c : bool) s m key :
  raises_only E
    (when c (bind (_throttle_ok cfg key)
                  (fun ok => when ok (_emit_alert cfg s m key)))).
Proof.
  apply raises_only_when, raises_only_bind; [apply raises_only_throttle_ok|].
  intros ok _. apply raises_only_when. unfold _emit_alert.
  apply raises_only_bind; [apply raises_only_modify|].
  intros _ _. apply raises_mail_send_email.
Qed.

Lemma raises_mail_host_checks h : raises_only E (host_checks cfg h).
Proof.
  unfold host_checks. apply raises_only_bind; [apply raises_mail_gated_alert|].
  intros _ _. apply raises_mail_gated_alert.
Qed.

Lemma raises_mail_process_pass procs : raises_only E (process_pass cfg procs).
Proof.
  unfold process_pass. induction (top_offenders procs) as [|p l IH]; simpl.
  - apply raises_only_ret.
  - apply raises_only_bind; [|intros _ _; exact IH].
    unfold process_checks. apply raises_only_bind; [apply raises_mail_gated_alert|].
    intros _ _. apply raises_mail_gated_alert.
Qed.

Hypothesis E_TypeError : E TypeError.
Hypothesis E_ValueError : E ValueError.

Lemma raises_mail_vm_checks iv vm : raises_only E (vm_checks cfg iv vm).
Proof.
  unfold vm_checks.
  apply raises_only_bind;
    [apply raises_only_lift, (int_field_raises E E_TypeError E_ValueError)|].
  intros mx _.
  apply raises_only_bind;
    [apply raises_only_lift, (int_field_raises E E_TypeError E_ValueError)|].
  intros mem _.
  apply raises_only_bind;
    [apply raises_only_lift, (int_field_raises E E_TypeError E_ValueError)|].
  intros ct _.
  apply raises_only_bind.
  { intros w e H. unfold result in H. rewrite memory_run in H. discriminate H. }
  intros mem_pct _.
  apply raises_only_bind; [apply (raises_only_estimate E E_TypeError)|].
  intros cpu_pct _.
  apply raises_only_bind.
  { destruct cpu_pct; [apply raises_mail_gated_alert|apply raises_only_ret]. }
  intros _ _. apply raises_only_bind.
  { destruct mem_pct; [apply raises_mail_gated_alert|apply raises_only_ret]. }
  intros _ _. apply raises_only_when.
  apply raises_only_bind; [intros w e H; discriminate H|].
  intros; apply raises_only_ret.
Qed.

End MailRaises.

Section Steps.
Context {P : Platform} (R : World -> World -> Prop).
Hypothesis R_refl : forall w, R w w.
Hypothesis R_trans : forall w1 w2 w3, R w1 w2 -> R w2 w3 -> R w1 w3.

Lemma steps_pure {A} (m : M A) : (forall w, exec m w = w) -> preserves R m.
Proof. intros H w. rewrite H. apply R_refl. Qed.

Lemma steps_bind {A B} (m : M A) (k : A -> M B) :
  preserves R m -> (forall a, preserves R (k a)) -> preserves R (bind m k).
Proof.
  intros Hm Hk w. specialize (Hm w). unfold exec in *. unfold bind.
  destruct (m w) as [[a|e] w1]; simpl in *.
  - eapply R_trans; [exact Hm|]. apply (Hk a w1).
  - exact Hm.
Qed.

Lemma steps_when (c : bool) (body : M unit) :
  preserves R body -> preserves R (when c body).
Proof. intro H. destruct c; simpl; [exact H|]. intro w. apply R_refl. Qed.

Lemma steps_for_each {A} (l : list A) (body : A -> M unit) :
  (forall x, In x l -> preserves R (body x)) -> preserves R (for_each l body).
Proof.
  induction l as [|x l IH]; intro H; simpl.
  - intro w. apply R_refl.
  - apply steps_bind.
    + apply H. left. reflexivity.
    + intros _. apply IH. intros y Hy. apply H. right. exact Hy.
Qed.

Lemma steps_try_except (E : exn -> Prop) site (body : M unit) :
  raises_only E body ->
  (forall e w, E e -> R w (log_exception site e w)) ->
  preserves R body -> preserves R (try_except site body).
Proof.
  intros Hraise Hexc H w. specialize (H w). specialize (Hraise w).
  unfold exec, result, try_except in *.
  destruct (body w) as [[a|e] w1]; simpl in *.
  - exact H.
  - eapply R_trans; [exact H|]. apply Hexc. apply Hraise. reflexivity.
Qed.

Variable cfg : Config.
Hypothesis R_throttle : forall key, preserves R (_throttle_ok cfg key).
Hypothesis R_emit : forall s m key, preserves R (_emit_alert cfg s m key).

Lemma steps_gated_alert (c : bool) s m key :
  preserves R
    (when c (bind (_throttle_ok cfg key)
                  (fun ok => when ok (_emit_alert cfg s m key)))).
Proof.
  apply steps_when, steps_bind; [apply R_throttle|].
  intro ok. apply steps_when, R_emit.
Qed.

Lemma steps_host_checks h : preserves R (host_checks cfg h).
Proof.
  unfold host_checks. apply steps_bind; [apply steps_gated_alert|].
  intros _. apply steps_gated_alert.
Qed.

Lemma steps_process_pass procs : preserves R (process_pass cfg procs).
Proof.
  unfold process_pass. apply steps_for_each. intros p _.
  unfold process_checks. apply steps_bind; [apply steps_gated_alert|].
  intros _. apply steps_gated_alert.
Qed.

Hypothesis R_estimate :
  forall vname v iv, preserves R (_vm_cpu_percent_from_delta vname v iv).

Lemma steps_vm_checks iv vm : preserves R (vm_checks cfg iv vm).
Proof.
  unfold vm_checks.
  apply steps_bind; [apply steps_pure; reflexivity|]. intros mx.
  apply steps_bind; [apply steps_pure; reflexivity|]. intros mem.
  apply steps_bind; [apply steps_pure; reflexivity|]. intros ct.
  apply steps_bind.
  { apply steps_pure. intro w. unfold exec. rewrite memory_run. reflexivity. }
  intros mem_pct. apply steps_bind; [apply R_estimate|]. intros cpu_pct.
  apply steps_bind.
  { destruct cpu_pct; [apply steps_gated_alert|apply steps_pure; reflexivity]. }
  intros _. apply steps_bind.
  { destruct mem_pct; [apply steps_gated_alert|apply steps_pure; reflexivity]. }
  intros _. apply steps_when.
  apply steps_bind; [apply steps_pure; reflexivity|].
  intros _. apply steps_pure. reflexivity.
Qed.

Variable snapshot : Snapshot.
Hypothesis R_exception :
  forall entry w, may_log cfg snapshot entry ->
                  R w (log_exception (fst entry) (snd entry) w).

Lemma steps_check_and_alert : preserves R (check_and_alert cfg snapshot).
Proof.
  unfold check_and_alert. apply steps_bind.
  { unfold host_pass. destruct (host snapshot) as [h|]; [|apply steps_pure; reflexivity].
    apply (steps_try_except (fun e => e = KeyError /\ mail_broken cfg = true)).
    - apply raises_mail_host_checks. intro H. split; [reflexivity|exact H].
    - intros e w He. apply (R_exception (HostSite, e)). exact He.
    - apply steps_host_checks. }
  intros _. apply steps_bind.
  { apply (steps_try_except (fun e => e = KeyError /\ mail_broken cfg = true)).
    - apply raises_mail_process_pass. intro H. split; [reflexivity|exact H].
    - intros e w He. apply (R_exception (ProcSite, e)). exact He.
    - apply steps_process_pass. }
  intros _. unfold vm_pass. apply steps_for_each. intros vm Hin.
  apply (steps_try_except
           (fun e => (e = KeyError /\ mail_broken cfg = true) \/
                     e = TypeError \/ e = ValueError)).
  - apply raises_mail_vm_checks.
    + intro H. left. split; [reflexivity|exact H].
    + right. left. reflexivity.
    + right. right. reflexivity.
  - intros e w He. apply (R_exception (VmSite vm, e)). split; [exact Hin|exact He].
  - apply steps_vm_checks.
Qed.

End Steps.

Lemma estimate_world_cases vname v iv w :
  exec (_vm_cpu_percent_from_delta vname v iv) w = w \/
  exec (_vm_cpu_percent_from_delta vname v iv) w
    = set_last_vm_cpu_time <[vname := v]> w.
Proof.
  unfold exec. destruct (interval_cases iv) as [[_ H]|[[_ [q H]]|[H _]]].
  - left. rewrite (estimate_unusable _ _ _ _ H). reflexivity.
  - right. destruct (estimate_positive vname v iv q w H) as [r Hr]. rewrite Hr.
    reflexivity.
  - left. unfold _vm_cpu_percent_from_delta, bind, lift. rewrite H. reflexivity.
Qed.

Lemma errors_kept_grow Pe w w' : errors w' = errors w -> errors_grow Pe w w'.
Proof. intro H. exists []. rewrite H, app_nil_r. split; [reflexivity|constructor]. Qed.

Lemma errors_grow_trans Pe w1 w2 w3 :
  errors_grow Pe w1 w2 -> errors_grow Pe w2 w3 -> errors_grow Pe w1 w3.
Proof.
  intros (n1 & E1 & F1) (n2 & E2 & F2). exists (n1 ++ n2)%list.
  split; [rewrite E2, E1, app_assoc; reflexivity|].
  apply List.Forall_app. split; assumption.
Qed.



#[local] Instance baselines_outside_kept_framed names :
  Framed (baselines_outside_kept names).
Proof.
  split; unfold baselines_outside_kept; simpl; try (intros; split; auto; fail).
  intros w1 w2 w3 [H1 K1] [H2 K2]. split.
  - intros n Hn. rewrite (H2 n Hn). apply H1, Hn.
  - intros n Hn. apply K2, K1, Hn.
Qed.

Section Invariants.
Context {P : Platform}.

Lemma throttle_world_cases cfg key w :
  exec (_throttle_ok cfg key) w = tick w \/
  exec (_throttle_ok cfg key) w =
    set_last_alert_time <[key := clock (S (ticks w))]> (tick (tick w)).
Proof.
  unfold exec.
  destruct (Qlt_le_dec (clock (ticks w) - last_emission key w) (window cfg)) as [H|H].
  - left. rewrite (throttle_denies _ _ _ H). reflexivity.
  - right. rewrite (throttle_allows _ _ _ H). reflexivity.
Qed.

Lemma emit_world_cases cfg s m key w :
  exec (_emit_alert cfg s m key) w =
    (if mail_ready cfg then hand_to_smtp s m (log_warning s m w)
     else log_warning s m w).
Proof. unfold exec. rewrite emit_alert_run. reflexivity. Qed.


(** X10: where an evaluation logs exceptions: at the host and process blocks
    nothing but the [KeyError] of a mail section without [from] or [to],
    so nothing at all when mail is not so configured; at the block of a VM
    record, only for a record of the snapshot. *)
Theorem logged_exceptions (cfg : Config) (snapshot : Snapshot) (w : World) :
  errors_grow (logged_at cfg snapshot) w (exec (check_and_alert cfg snapshot) w) /\
  (mail_broken cfg = false ->
     errors_grow
       (fun entry => exists vm, fst entry = VmSite vm /\ In vm (vms snapshot))
       w (exec (check_and_alert cfg snapshot) w)).
Proof.
  assert (H : errors_grow (may_log cfg snapshot) w
                (exec (check_and_alert cfg snapshot) w)).
  { apply (steps_check_and_alert (errors_grow (may_log cfg snapshot))).
    - intro w0. apply errors_kept_grow. reflexivity.
    - apply errors_grow_trans.
    - intros key w0. destruct (throttle_world_cases cfg key w0) as [-> | ->];
        apply errors_kept_grow; reflexivity.
    - intros s m key w0. rewrite emit_world_cases.
      destruct (mail_ready cfg); apply errors_kept_grow; reflexivity.
    - intros vname v iv w0. destruct (estimate_world_cases vname v iv w0) as [-> | ->];
        apply errors_kept_grow; reflexivity.
    - intros entry w0 Hlog. exists [entry]. split.
      + destruct entry. reflexivity.
      + constructor; [exact Hlog|constructor]. }
  destruct H as (new & E & F). split.
  - exists new. split; [exact E|].
    eapply List.Forall_impl; [|exact F].
    intros [site e]. unfold may_log, logged_at. simpl. destruct site as [| |vm].
    + intros Hk. exact Hk.
    + intros Hk. exact Hk.
    + intros [Hin _]. exact Hin.
  - intro Hmail. exists new. split; [exact E|].
    eapply List.Forall_impl; [|exact F].
    intros [site e]. unfold may_log. simpl. destruct site as [| |vm].
    + intros [_ Hb]. congruence.
    + intros [_ Hb]. congruence.
    + intros [Hin _]. exists vm. auto.
Qed.

Lemma timestamps_kept w w' :
  last_alert_time w' = last_alert_time w -> ticks w' = ticks w ->
  timestamps_from_clock w w'.
Proof.
  intros Hl Ht. split; [rewrite Ht; apply Nat.le_refl|].
  intro k. left. rewrite Hl. reflexivity.
Qed.

Lemma timestamps_trans w1 w2 w3 :
  timestamps_from_clock w1 w2 -> timestamps_from_clock w2 w3 ->
  timestamps_from_clock w1 w3.
Proof.
  intros [T1 H1] [T2 H2]. split; [lia|]. intro k.
  destruct (H2 k) as [E2|(n & Hn & E2)].
  - destruct (H1 k) as [E1|(n & Hn & E1)].
    + left. rewrite E2. exact E1.
    + right. exists n. split; [lia|]. rewrite E2. exact E1.
  - right. exists n. split; [lia|exact E2].
Qed.

(** X11: during an evaluation the clock is only read, and a throttle timestamp
    that changes becomes a time read during that evaluation; no key is
    ever removed from the throttle dictionary. *)
Theorem throttle_timestamps_come_from_the_clock (cfg : Config) (snapshot : Snapshot)
    (w : World) :
  timestamps_from_clock w (exec (check_and_alert cfg snapshot) w) /\
  (forall k, is_Some (last_alert_time w !! k) ->
             is_Some (last_alert_time (exec (check_and_alert cfg snapshot) w) !! k)).
Proof.
  assert (H : timestamps_from_clock w (exec (check_and_alert cfg snapshot) w)).
  { apply (steps_check_and_alert timestamps_from_clock).
    - intro w0. apply timestamps_kept; reflexivity.
    - apply timestamps_trans.
    - intros key w0. destruct (throttle_world_cases cfg key w0) as [-> | ->].
      + split; [simpl; lia|]. intro k. left. reflexivity.
      + split; [simpl; lia|]. intro k. simpl.
        destruct (decide (key = k)) as [->|Hne].
        * right. exists (S (ticks w0)). split; [lia|apply lookup_insert_eq].
        * left. apply lookup_insert_ne. exact Hne.
    - intros s m key w0. rewrite emit_world_cases.
      destruct (mail_ready cfg); apply timestamps_kept; reflexivity.
    - intros vname v iv w0. destruct (estimate_world_cases vname v iv w0) as [-> | ->];
        apply timestamps_kept; reflexivity.
    - intros entry w0 _. apply timestamps_kept; reflexivity. }
  split; [exact H|]. intros k Hk. destruct H as [_ H].
  destruct (H k) as [E|(n & _ & E)]; rewrite E; [exact Hk|eexists; reflexivity].
Qed.

Lemma vm_checks_baselines_outside cfg iv vm names :
  In (vm_name vm) names ->
  preserves (baselines_outside_kept names) (vm_checks cfg iv vm).
Proof.
  intro Hin. apply (preserves_vm_checks (baselines_outside_kept _)).
  - intros v w0.
    destruct (estimate_world_cases (vm_name vm) v iv w0) as [-> | ->]; [split; auto|].
    split; simpl.
    + intros n Hn. apply lookup_insert_ne. intros <-. apply Hn, Hin.
    + intros n Hn. destruct (decide (vm_name vm = n)) as [->|Hne].
      * rewrite lookup_insert_eq. eexists. reflexivity.
      * rewrite lookup_insert_ne by exact Hne. exact Hn.
  - intros v pct _ s c w0. split; auto.
  - intros mx _ _ s pct mem w0. split; auto.
Qed.

(** X12: an evaluation changes the baselines of the VM names of its snapshot
    only, and never removes a baseline: VMs that are gone keep their stale
    entries. *)
Theorem baselines_change_only_for_snapshot_vms (cfg : Config) (snapshot : Snapshot)
    (w : World) :
  baselines_outside_kept (map vm_name (vms snapshot)) w
    (exec (check_and_alert cfg snapshot) w).
Proof.
  apply (preserves_check_and_alert (baselines_outside_kept _)).
  - intros site e w0. split; auto.
  - intros s m w0 _. split; auto.
  - intros vm Hin. apply vm_checks_baselines_outside. apply in_map. exact Hin.
Qed.

End Invariants.

(** ** How many alerts an evaluation can log *)

Section Volume.
Context {P : Platform}.

Lemma adds_none {A} (m : M A) :
  (forall w, warnings (exec m w) = warnings w) -> adds_at_most 0 m.
Proof. intros H w. exists []. rewrite H, app_nil_r. split; [reflexivity|apply Nat.le_refl]. Qed.

Lemma adds_weaken {A} (n n' : nat) (m : M A) :
  (n <= n')%nat -> adds_at_most n m -> adds_at_most n' m.
Proof.
  intros Hle H w. destruct (H w) as (new & E & L). exists new.
  split; [exact E|lia].
Qed.

Lemma adds_bind {A B} (n k : nat) (m : M A) (f : A -> M B) :
  adds_at_most n m -> (forall a, adds_at_most k (f a)) ->
  adds_at_most (n + k) (bind m f).
Proof.
  intros Hm Hf w. destruct (Hm w) as (n1 & E1 & L1). unfold exec in *. unfold bind.
  destruct (m w) as [[a|e] w1]; simpl in *.
  - destruct (Hf a w1) as (n2 & E2 & L2). unfold exec in E2.
    exists (n1 ++ n2)%list. rewrite E2, E1, app_assoc.
    split; [reflexivity|]. rewrite length_app. lia.
  - exists n1. split; [exact E1|lia].
Qed.

Lemma adds_when (n : nat) (c : bool) (body : M unit) :
  adds_at_most n body -> adds_at_most n (when c body).
Proof.
  intro H. destruct c; simpl; [exact H|].
  apply (adds_weaken 0); [lia|]. apply adds_none. reflexivity.
Qed.

Lemma adds_for_each {A} (n : nat) (l : list A) (body : A -> M unit) :
  (forall x, adds_at_most n (body x)) ->
  adds_at_most (length l * n) (for_each l body).
Proof.
  intro H. induction l as [|x l IH]; simpl.
  - apply adds_none. reflexivity.
  - apply adds_bind; [apply H|]. intros _. exact IH.
Qed.

Lemma adds_try_except (n : nat) site (body : M unit) :
  adds_at_most n body -> adds_at_most n (try_except site body).
Proof.
  intros H w. destruct (H w) as (new & E & L). exists new. split; [|exact L].
  unfold exec, try_except in *. destruct (body w) as [[a|e] w1]; exact E.
Qed.

Lemma adds_gated_alert cfg (c : bool) s m key :
  adds_at_most 1
    (when c (bind (_throttle_ok cfg key)
                  (fun ok => when ok (_emit_alert cfg s m key)))).
Proof.
  apply adds_when. apply (adds_bind 0 1).
  - apply adds_none. apply throttle_warnings.
  - intro ok. apply adds_when. intro w. exists [(s, m)].
    rewrite emit_world_cases. split; [|apply Nat.le_refl].
    destruct (mail_ready cfg); reflexivity.
Qed.

Lemma adds_two_checks cfg (c c' : bool) s m key s' m' key' :
  adds_at_most 2
    (bind (when c (bind (_throttle_ok cfg key)
                        (fun ok => when ok (_emit_alert cfg s m key))))
          (fun _ => when c' (bind (_throttle_ok cfg key')
                        (fun ok => when ok (_emit_alert cfg s' m' key'))))).
Proof.
  apply (adds_bind 1 1); [apply adds_gated_alert|].
  intros _. apply adds_gated_alert.
Qed.

Lemma adds_vm_checks cfg iv vm : adds_at_most 2 (vm_checks cfg iv vm).
Proof.
  unfold vm_checks.
  apply (adds_bind 0 2); [apply adds_none; reflexivity|]. intro mx.
  apply (adds_bind 0 2); [apply adds_none; reflexivity|]. intro mem.
  apply (adds_bind 0 2); [apply adds_none; reflexivity|]. intro ct.
  apply (adds_bind 0 2).
  { apply adds_none. intro w. unfold exec. rewrite memory_run. reflexivity. }
  intro mem_pct. apply (adds_bind 0 2).
  { apply adds_none. intro w.
    destruct (estimate_world_cases (vm_name vm) ct iv w) as [-> | ->]; reflexivity. }
  intro cpu_pct. apply (adds_bind 1 1).
  { destruct cpu_pct; [apply adds_gated_alert|].
    apply (adds_weaken 0); [lia|]. apply adds_none. reflexivity. }
  intros _. apply (adds_bind 1 0).
  { destruct mem_pct; [apply adds_gated_alert|].
    apply (adds_weaken 0); [lia|]. apply adds_none. reflexivity. }
  intros _. apply adds_when. apply adds_none. reflexivity.
Qed.

(** X13: an evaluation logs at most two alerts for the host, two for each of
    the first 20 processes (so at most 40 for the process pass, however
    many processes there are) and two for each VM record. *)
Theorem alert_volume_is_bounded (cfg : Config) (snapshot : Snapshot) :
  adds_at_most
    (2 * match host snapshot with Some _ => 1 | None => 0 end
     + 2 * Nat.min 20 (length (processes snapshot))
     + 2 * length (vms snapshot))
    (check_and_alert cfg snapshot) /\
  adds_at_most 40 (try_except ProcSite (process_pass cfg (processes snapshot))).
Proof.
  assert (Hproc : adds_at_most (2 * Nat.min 20 (length (processes snapshot)))
                    (try_except ProcSite (process_pass cfg (processes snapshot)))).
  { apply adds_try_except. unfold process_pass.
    replace (2 * Nat.min 20 (length (processes snapshot)))%nat
      with (length (top_offenders (processes snapshot)) * 2)%nat.
    - apply adds_for_each. intro p. unfold process_checks. apply adds_two_checks.
    - unfold top_offenders. rewrite length_firstn.
      rewrite (Permutation_length (sorted_by_cpu_desc_perm (processes snapshot))). lia. }
  split.
  - unfold check_and_alert. rewrite <- Nat.add_assoc. apply adds_bind.
    { unfold host_pass. destruct (host snapshot) as [h|].
      - apply adds_try_except. unfold host_checks. apply adds_two_checks.
      - apply adds_none. reflexivity. }
    intros _. apply adds_bind; [exact Hproc|].
    intros _. unfold vm_pass.
    replace (2 * length (vms snapshot))%nat with (length (vms snapshot) * 2)%nat by lia.
    apply adds_for_each. intro vm. apply adds_try_except, adds_vm_checks.
  - eapply adds_weaken; [|exact Hproc]. lia.
Qed.

End Volume.

(** ** Baselines across the VM loop *)

Section Baselines.
Context {P : Platform}.

Lemma check_and_alert_exec cfg snapshot w :
  exec (check_and_alert cfg snapshot) w =
    exec (vm_pass cfg snapshot)
      (exec (try_except ProcSite (process_pass cfg (processes snapshot)))
         (exec (host_pass cfg snapshot) w)).
Proof.
  unfold check_and_alert. unfold exec at 1.
  rewrite (bind_result _ _ _ _ (host_pass_ok cfg snapshot w)).
  rewrite (bind_result _ _ _ _ (try_except_ok ProcSite _ _)). reflexivity.
Qed.

Lemma before_vm_pass cfg snapshot w :
  let w2 := exec (try_except ProcSite (process_pass cfg (processes snapshot)))
              (exec (host_pass cfg snapshot) w) in
  _last_vm_cpu_time w2 = _last_vm_cpu_time w /\
  warnings_grow (fun a => ~ is_vm_cpu_alert a) w w2.
Proof.
  split.
  - transitivity (_last_vm_cpu_time (exec (host_pass cfg snapshot) w)).
    + apply (preserves_try_except baselines_kept); [reflexivity|].
      apply (preserves_process_pass baselines_kept). reflexivity.
    + unfold host_pass. destruct (host snapshot) as [h|]; [|reflexivity].
      apply (preserves_try_except baselines_kept); [reflexivity|].
      apply (preserves_host_checks baselines_kept); reflexivity.
  - apply (framed_trans (R := warnings_grow _) w (exec (host_pass cfg snapshot) w)).
    + unfold host_pass. destruct (host snapshot) as [h|].
      * apply (preserves_try_except (warnings_grow _)).
        -- intros e w0. apply warnings_kept_grow. reflexivity.
        -- apply (preserves_host_checks (warnings_grow _));
             intros; apply warnings_grow_log; intros [].
      * apply warnings_kept_grow. reflexivity.
    + apply (preserves_try_except (warnings_grow _)).
      * intros e w0. apply warnings_kept_grow. reflexivity.
      * apply (preserves_process_pass (warnings_grow _)).
        intros p a w0 _ [-> | ->]; apply warnings_grow_log; intros [].
Qed.

Lemma try_vm_exec cfg iv vm w :
  exec (try_except (VmSite vm) (vm_checks cfg iv vm)) w = exec (vm_checks cfg iv vm) w \/
  exists e, exec (try_except (VmSite vm) (vm_checks cfg iv vm)) w
            = log_exception (VmSite vm) e (exec (vm_checks cfg iv vm) w).
Proof.
  unfold exec, try_except. destruct (vm_checks cfg iv vm w) as [[a|e] w1]; simpl.
  - left. reflexivity.
  - right. exists e. reflexivity.
Qed.

Lemma vm_loop_step cfg iv vm l w :
  exec (for_each (vm :: l) (fun x => try_except (VmSite x) (vm_checks cfg iv x))) w =
  exec (for_each l (fun x => try_except (VmSite x) (vm_checks cfg iv x)))
       (exec (try_except (VmSite vm) (vm_checks cfg iv vm)) w).
Proof.
  simpl for_each. unfold exec at 1.
  rewrite (bind_result _ _ _ _ (try_except_ok (VmSite vm) _ w)). reflexivity.
Qed.

Lemma vm_loop_baselines_outside cfg iv l :
  preserves (baselines_outside_kept (map vm_name l))
    (for_each l (fun x => try_except (VmSite x) (vm_checks cfg iv x))).
Proof.
  apply (preserves_for_each (baselines_outside_kept _)). intros vm Hin.
  apply (preserves_try_except (baselines_outside_kept _)); [intros; split; auto|].
  apply vm_checks_baselines_outside. apply in_map. exact Hin.
Qed.

Lemma preserves_vm_alert_steps cfg vm mx mem (cpu_pct : option Q)
    (R : World -> World -> Prop) `{!Framed R} :
  (forall s m w, (cpu_pct = None -> ~ is_vm_cpu_alert (s, m)) ->
                 R w (log_warning s m w)) ->
  preserves R (vm_alert_steps cfg vm mx mem cpu_pct).
Proof.
  intro Hlog. unfold vm_alert_steps. apply (preserves_bind R).
  { destruct cpu_pct as [c|]; [|apply (preserves_ret R)].
    apply (preserves_gated_alert R). intros _ w. apply Hlog. discriminate. }
  intros _. apply (preserves_bind R).
  { destruct (memory_percent mem mx); [|apply (preserves_ret R)].
    apply (preserves_gated_alert R). intros _ w. apply Hlog. intros _ []. }
  intros _. apply (preserves_when R).
  apply (preserves_bind R); [apply (preserves_gets R)|].
  intros _. apply (preserves_ret R).
Qed.

Lemma vm_checks_unfold cfg iv vm mx mem ct w :
  int_field (vm_maxMemKB vm) = Ok mx ->
  int_field (vm_memKB vm) = Ok mem ->
  int_field (vm_cpuTime vm) = Ok ct ->
  vm_checks cfg iv vm w =
    bind (_vm_cpu_percent_from_delta (vm_name vm) ct iv)
         (vm_alert_steps cfg vm mx mem) w.
Proof.
  intros Hmx Hmem Hct. unfold vm_checks. rewrite Hmx, Hmem, Hct.
  unfold bind at 1, lift at 1. unfold bind at 1, lift at 1.
  unfold bind at 1, lift at 1.
  rewrite (memory_block mem mx). reflexivity.
Qed.

Lemma vm_checks_cases cfg iv vm w :
  (exists e, vm_checks cfg iv vm w = (Raise e, w)) \/
  exists mx mem ct,
    int_field (vm_maxMemKB vm) = Ok mx /\
    int_field (vm_memKB vm) = Ok mem /\
    int_field (vm_cpuTime vm) = Ok ct.
Proof.
  unfold vm_checks.
  destruct (int_field (vm_maxMemKB vm)) as [mx|e] eqn:Emx;
    [|left; exists e; reflexivity].
  destruct (int_field (vm_memKB vm)) as [mem|e] eqn:Emem;
    [|left; exists e; reflexivity].
  destruct (int_field (vm_cpuTime vm)) as [ct|e] eqn:Ect;
    [|left; exists e; reflexivity].
  right. exists mx, mem, ct. repeat split.
Qed.

Lemma vm_checks_first_sample cfg iv vm w :
  _last_vm_cpu_time w !! vm_name vm = None ->
  warnings_grow (fun a => ~ is_vm_cpu_alert a) w (exec (vm_checks cfg iv vm) w).
Proof.
  intro Hnone. unfold exec.
  destruct (vm_checks_cases cfg iv vm w) as [[e ->]|(mx & mem & ct & Hmx & Hmem & Hct)].
  { apply warnings_kept_grow. reflexivity. }
  rewrite (vm_checks_unfold _ _ _ _ _ _ _ Hmx Hmem Hct).
  destruct (estimate_outcome (vm_name vm) ct iv w) as [[r Hr]|Hraise].
  - assert (r = None) as ->.
    { destruct r as [x|]; [|reflexivity].
      destruct (estimate_some_inv _ _ _ _ _ Hr) as (prev & Hprev).
      congruence. }
    rewrite (bind_result _ _ _ _ Hr).
    apply (framed_trans (R := warnings_grow _) w
             (exec (_vm_cpu_percent_from_delta (vm_name vm) ct iv) w)).
    + apply warnings_kept_grow.
      destruct (estimate_world_cases (vm_name vm) ct iv w) as [-> | ->]; reflexivity.
    + apply (preserves_vm_alert_steps cfg vm mx mem None (warnings_grow _)).
      intros s m w0 Hm. apply warnings_grow_log. apply Hm. reflexivity.
  - rewrite (bind_raise _ _ _ _ _ Hraise). apply warnings_kept_grow. reflexivity.
Qed.

Lemma try_vm_others cfg iv vm w n :
  n <> vm_name vm ->
  _last_vm_cpu_time (exec (try_except (VmSite vm) (vm_checks cfg iv vm)) w) !! n
    = _last_vm_cpu_time w !! n.
Proof.
  intro Hn.
  assert (H : baselines_outside_kept [vm_name vm] w
                (exec (try_except (VmSite vm) (vm_checks cfg iv vm)) w)).
  { apply (preserves_try_except (baselines_outside_kept _)); [intros; split; auto|].
    apply vm_checks_baselines_outside. left. reflexivity. }
  apply H. intros [Heq|[]]. congruence.
Qed.

Lemma vm_loop_first_samples cfg iv l w :
  List.NoDup (map vm_name l) ->
  (forall vm, In vm l -> _last_vm_cpu_time w !! vm_name vm = None) ->
  warnings_grow (fun a => ~ is_vm_cpu_alert a) w
    (exec (for_each l (fun x => try_except (VmSite x) (vm_checks cfg iv x))) w).
Proof.
  revert w. induction l as [|vm l IH]; intros w Hnd Hnone.
  - apply warnings_kept_grow. reflexivity.
  - rewrite vm_loop_step. simpl in Hnd. inversion Hnd as [|? ? Hnotin Hnd']; subst.
    apply (framed_trans (R := warnings_grow _) w
             (exec (try_except (VmSite vm) (vm_checks cfg iv vm)) w)).
    + assert (Hfirst := vm_checks_first_sample cfg iv vm w
                          (Hnone vm (or_introl eq_refl))).
      destruct (try_vm_exec cfg iv vm w) as [-> | [e ->]]; [exact Hfirst|].
      eapply (framed_trans (R := warnings_grow _)); [exact Hfirst|].
      apply warnings_kept_grow. reflexivity.
    + apply IH; [exact Hnd'|]. intros vm' Hin.
      rewrite try_vm_others.
      * apply Hnone. right. exact Hin.
      * intro Heq. apply Hnotin. rewrite <- Heq. apply in_map. exact Hin.
Qed.

(** X14: cold start: when the VM names of a snapshot are distinct and none has
    a baseline yet, the evaluation logs no VM CPU alert, whatever the
    counters, the interval and the thresholds are. *)
Theorem first_samples_raise_no_vm_cpu_alert (cfg : Config) (snapshot : Snapshot)
    (w : World) :
  List.NoDup (map vm_name (vms snapshot)) ->
  (forall vm, In vm (vms snapshot) -> _last_vm_cpu_time w !! vm_name vm = None) ->
  warnings_grow (fun a => ~ is_vm_cpu_alert a) w
    (exec (check_and_alert cfg snapshot) w).
Proof.
  intros Hnd Hnone. rewrite check_and_alert_exec.
  destruct (before_vm_pass cfg snapshot w) as [Hbase Hgrow].
  eapply (framed_trans (R := warnings_grow _)); [exact Hgrow|].
  unfold vm_pass. apply vm_loop_first_samples; [exact Hnd|].
  intros vm Hin. rewrite Hbase. apply Hnone, Hin.
Qed.

Lemma vm_checks_sets_baseline cfg iv q vm mx mem ct w :
  positive_interval iv q ->
  int_field (vm_maxMemKB vm) = Ok mx ->
  int_field (vm_memKB vm) = Ok mem ->
  int_field (vm_cpuTime vm) = Ok ct ->
  _last_vm_cpu_time (exec (vm_checks cfg iv vm) w) !! vm_name vm = Some ct.
Proof.
  intros Hpos Hmx Hmem Hct. unfold exec.
  rewrite (vm_checks_unfold _ _ _ _ _ _ _ Hmx Hmem Hct).
  destruct (estimate_positive (vm_name vm) ct iv q w Hpos) as [r Hr].
  rewrite (bind_ok _ _ _ _ _ Hr).
  pose proof (preserves_vm_alert_steps cfg vm mx mem r baselines_kept
                (fun s m w0 _ => eq_refl)
                (set_last_vm_cpu_time <[vm_name vm := ct]> w)) as Hk.
  unfold baselines_kept, exec in Hk. rewrite Hk. simpl.
  apply lookup_insert_eq.
Qed.

Lemma vm_loop_sets_baseline cfg iv q l vm mx mem ct w :
  positive_interval iv q ->
  List.NoDup (map vm_name l) ->
  In vm l ->
  int_field (vm_maxMemKB vm) = Ok mx ->
  int_field (vm_memKB vm) = Ok mem ->
  int_field (vm_cpuTime vm) = Ok ct ->
  _last_vm_cpu_time
    (exec (for_each l (fun x => try_except (VmSite x) (vm_checks cfg iv x))) w)
    !! vm_name vm = Some ct.
Proof.
  intros Hpos Hnd Hin Hmx Hmem Hct. revert w Hnd Hin.
  induction l as [|x l IH]; intros w Hnd Hin; [destruct Hin|].
  rewrite vm_loop_step. simpl in Hnd. inversion Hnd as [|? ? Hnotin Hnd']; subst.
  destruct Hin as [->|Hin].
  - destruct (vm_loop_baselines_outside cfg iv l
                (exec (try_except (VmSite vm) (vm_checks cfg iv vm)) w)) as [Hout _].
    rewrite (Hout _ Hnotin).
    destruct (try_vm_exec cfg iv vm w) as [-> | [e ->]];
      apply (vm_checks_sets_baseline cfg iv q vm mx mem ct w); assumption.
  - apply IH; assumption.
Qed.

(** X15: after an evaluation with a positive interval over VM records of
    distinct names, the baseline of every record whose three numeric fields
    convert is its [cpuTime], whether or not an alert fired and whether or
    not a later step of the record raised. *)
Theorem baselines_follow_the_snapshot (cfg : Config) (snapshot : Snapshot)
    (q : Q) (w : World) :
  positive_interval (snapshot_interval cfg snapshot) q ->
  List.NoDup (map vm_name (vms snapshot)) ->
  forall vm mx mem ct,
    In vm (vms snapshot) ->
    int_field (vm_maxMemKB vm) = Ok mx ->
    int_field (vm_memKB vm) = Ok mem ->
    int_field (vm_cpuTime vm) = Ok ct ->
    _last_vm_cpu_time (exec (check_and_alert cfg snapshot) w) !! vm_name vm = Some ct.
Proof.
  intros Hpos Hnd vm mx mem ct Hin Hmx Hmem Hct.
  rewrite check_and_alert_exec. unfold vm_pass.
  apply (vm_loop_sets_baseline cfg _ q (vms snapshot) vm mx mem ct); assumption.
Qed.

End Baselines.

(** ** The checks an evaluation reaches *)

Section Reached.
Context {P : Platform}.


Lemma try_except_warnings site (body : M unit) w :
  warnings (exec (try_except site body) w) = warnings (exec body w).
Proof. unfold exec, try_except. destruct (body w) as [[a|e] w1]; reflexivity. Qed.



Lemma vm_checks_grow cfg iv vm :
  preserves (warnings_grow (fun _ => True)) (vm_checks cfg iv vm).
Proof.
  apply (preserves_vm_checks (warnings_grow _)).
  - intro v. apply (preserves_estimate (warnings_grow _)).
    intros f w. apply warnings_kept_grow. reflexivity.
  - intros v pct _ s c w. apply warnings_grow_log. exact I.
  - intros mx _ _ s pct mem w. apply warnings_grow_log. exact I.
Qed.

Lemma vm_loop_grow cfg iv l :
  preserves (warnings_grow (fun _ => True))
    (for_each l (fun vm => try_except (VmSite vm) (vm_checks cfg iv vm))).
Proof.
  apply (preserves_for_each (warnings_grow _)). intros vm _.
  apply (preserves_try_except (warnings_grow _)).
  - intros e w. apply warnings_kept_grow. reflexivity.
  - apply vm_checks_grow.
Qed.


Lemma for_each_split {A} (l1 l2 : list A) (x : A) (body : A -> M unit) w :
  result (for_each l1 body) w = Ok tt ->
  exec (for_each (l1 ++ x :: l2) body) w =
    exec (bind (body x) (fun _ => for_each l2 body)) (exec (for_each l1 body) w).
Proof.
  intro H. unfold exec at 1. rewrite for_each_app, (bind_result _ _ _ _ H).
  reflexivity.
Qed.







Lemma vm_alert_in_evaluation cfg snapshot l1 vm l2 a w :
  vms snapshot = (l1 ++ vm :: l2)%list ->
  In a (warnings (exec (vm_checks cfg (snapshot_interval cfg snapshot) vm)
                       (vm_reached cfg snapshot l1 w))) ->
  In a (warnings (exec (check_and_alert cfg snapshot) w)).
Proof.
  intros Hvms Hin. rewrite check_and_alert_exec. unfold vm_pass. cbv zeta.
  rewrite Hvms.
  rewrite for_each_split by apply (for_each_try_ok l1 VmSite).
  apply in_warnings_bind.
  - rewrite try_except_warnings. exact Hin.
  - intros _. apply vm_loop_grow.
Qed.







Lemma vm_checks_without_interval cfg vm w :
  vm_checks cfg VNone vm w = vm_memory_checks cfg vm w.
Proof.
  unfold vm_checks, vm_memory_checks.
  apply bind_ext; intros mx w1. apply bind_ext; intros mem w2.
  apply bind_ext; intros ct w3.
  rewrite (memory_block mem mx). reflexivity.
Qed.

(** C10: when the snapshot has the [interval] key with the
    value [None], the interval handed to the VM checks is [None] whatever
    [poll_interval] says (the fallback serves only a snapshot without the
    key).  The evaluation then leaves every VM baseline as it was and logs
    no VM CPU alert, while the memory checks of its VM records are made as
    usual: the evaluation is the one whose VM loop makes the memory checks
    only, and a record whose memory percent is at or above the threshold
    gets its memory alert when the gate of its key is open in the world in
    which the loop reaches the record. *)
Theorem C10_null_interval (cfg : Config) (snapshot : Snapshot) :
  interval snapshot = Some VNone ->
  snapshot_interval cfg snapshot = VNone /\
  snapshot_interval cfg (
    {| host := host snapshot; processes := processes snapshot;
       vms := vms snapshot; interval := None |})
    = default (VInt 2) (poll_interval cfg) /\
  (forall w,
     _last_vm_cpu_time (exec (check_and_alert cfg snapshot) w) = _last_vm_cpu_time w) /\
  (forall w,
     warnings_grow (fun a => ~ is_vm_cpu_alert a) w
       (exec (check_and_alert cfg snapshot) w)) /\
  (forall w, check_and_alert cfg snapshot w = check_and_alert_memory_only cfg snapshot w) /\
  (forall l1 vm l2 mx mem ct pct w,
     vms snapshot = (l1 ++ vm :: l2)%list ->
     int_field (vm_maxMemKB vm) = Ok mx ->
     int_field (vm_memKB vm) = Ok mem ->
     int_field (vm_cpuTime vm) = Ok ct ->
     memory_percent mem mx = Some pct ->
     memory_percent_exact mem mx ->
     (memory_threshold (vm_alerts cfg) <= pct)%Q ->
     result (_throttle_ok cfg ("vm_mem_" +:+ vm_name vm)) (vm_reached cfg snapshot l1 w)
       = Ok true ->
     In ("VM Memory Alert", VmMemHigh (vm_name vm) pct mem mx)
        (warnings (exec (check_and_alert cfg snapshot) w))).
Proof.
  intro Hiv.
  assert (Hnone : snapshot_interval cfg snapshot = VNone).
  { unfold snapshot_interval. rewrite Hiv. reflexivity. }
  assert (Hun : unusable_interval VNone) by (left; reflexivity).
  split; [exact Hnone|]. split; [reflexivity|].
  split; [|split; [|split]].
  - intro w. apply (preserves_check_and_alert baselines_kept).
    + intros site e w0. reflexivity.
    + intros s m w0 _. reflexivity.
    + intros vm _. rewrite Hnone. apply (preserves_vm_checks baselines_kept).
      * intros v w0. unfold exec. rewrite (estimate_unusable _ _ _ _ Hun). reflexivity.
      * intros v pct _ s c w0. reflexivity.
      * intros mx _ _ s pct mem w0. reflexivity.
  - intro w. apply (preserves_check_and_alert (warnings_grow _)).
    + intros site e w0. apply warnings_kept_grow. reflexivity.
    + intros s m w0 Hm. apply warnings_grow_log.
      intro Hc. apply Hm. destruct m; try destruct Hc; exact I.
    + intros vm _. rewrite Hnone. apply (preserves_vm_checks (warnings_grow _)).
      * intros v w0. unfold exec. rewrite (estimate_unusable _ _ _ _ Hun).
        apply warnings_kept_grow. reflexivity.
      * intros v pct [w0 Hres]. unfold result in Hres.
        rewrite (estimate_unusable _ _ _ _ Hun) in Hres. discriminate Hres.
      * intros mx _ _ s pct mem w0. apply warnings_grow_log. intros [].
  - intro w. unfold check_and_alert, check_and_alert_memory_only.
    apply bind_ext; intros [] w1. apply bind_ext; intros [] w2.
    unfold vm_pass. rewrite Hnone. apply for_each_ext. intros vm w3.
    apply try_except_ext. apply vm_checks_without_interval.
  - intros l1 vm l2 mx mem ct pct w Hvms Hmx Hmem Hct Hpct _ Hthr Hgate.
    apply (vm_alert_in_evaluation cfg snapshot l1 vm l2 _ w Hvms).
    rewrite Hnone.
    apply (vm_memory_alert_fires cfg VNone vm mx mem ct None pct); try assumption.
    + unfold result. rewrite (estimate_unusable _ _ _ _ Hun). reflexivity.
    + intros c Hc. discriminate Hc.
Qed.

Lemma vm_checks_text_interval cfg s vm w :
  exists e, vm_checks cfg (VStr s) vm w = (Raise e, w).
Proof.
  destruct (vm_checks_cases cfg (VStr s) vm w) as [H|(mx & mem & ct & Hmx & Hmem & Hct)];
    [exact H|].
  exists TypeError. rewrite (vm_checks_unfold _ _ _ _ _ _ _ Hmx Hmem Hct).
  apply bind_raise. reflexivity.
Qed.

Lemma vm_loop_text_interval cfg s l w :
  let w' := exec (for_each l (fun vm => try_except (VmSite vm)
                                          (vm_checks cfg (VStr s) vm))) w in
  warnings w' = warnings w /\
  _last_vm_cpu_time w' = _last_vm_cpu_time w /\
  (forall site, In site (map fst (errors w)) -> In site (map fst (errors w'))) /\
  (forall vm, In vm l -> In (VmSite vm) (map fst (errors w'))).
Proof.
  revert w. induction l as [|vm l IH]; intro w.
  - simpl. repeat split; auto. intros vm [].
  - cbv zeta. rewrite vm_loop_step.
    destruct (vm_checks_text_interval cfg s vm w) as [e He].
    assert (E : exec (try_except (VmSite vm) (vm_checks cfg (VStr s) vm)) w
                = log_exception (VmSite vm) e w).
    { unfold exec, try_except. rewrite He. reflexivity. }
    rewrite E. destruct (IH (log_exception (VmSite vm) e w)) as (Hw & Hb & He1 & He2).
    split; [rewrite Hw; reflexivity|]. split; [rewrite Hb; reflexivity|].
    split.
    + intros site Hin. apply He1. simpl. rewrite map_app. apply in_or_app.
      left. exact Hin.
    + intros vm' [<-|Hin]; [|apply He2, Hin].
      apply He1. simpl. rewrite map_app. apply in_or_app. right. left. reflexivity.
Qed.

(** X4: an interval that is a string makes the estimator raise [TypeError]
    before it touches anything.  An evaluation of a snapshot with such an
    interval then logs an exception for every VM record and no VM alert,
    memory alerts included, and leaves the VM baselines as they were. *)
Theorem estimate_raises_on_non_numeric_interval (cfg : Config) (snapshot : Snapshot)
    (s : string) (w : World) :
  snapshot_interval cfg snapshot = VStr s ->
  (forall vname v w0,
     _vm_cpu_percent_from_delta vname v (VStr s) w0 = (Raise TypeError, w0)) /\
  _last_vm_cpu_time (exec (check_and_alert cfg snapshot) w) = _last_vm_cpu_time w /\
  warnings_grow (fun a => ~ vm_message (snd a)) w (exec (check_and_alert cfg snapshot) w) /\
  (forall vm, In vm (vms snapshot) ->
     In (VmSite vm) (map fst (errors (exec (check_and_alert cfg snapshot) w)))).
Proof.
  intro Hiv. split; [reflexivity|].
  rewrite check_and_alert_exec. unfold vm_pass. cbv zeta. rewrite Hiv.
  match goal with
  | |- context [exec (for_each _ _) ?w2] =>
      destruct (vm_loop_text_interval cfg s (vms snapshot) w2) as (Hw & Hb & _ & He)
  end.
  destruct (before_vm_pass cfg snapshot w) as [Hbase _].
  split; [rewrite Hb; exact Hbase|]. split; [|exact He].
  apply (framed_trans (R := warnings_grow _) w
           (exec (try_except ProcSite (process_pass cfg (processes snapshot)))
                 (exec (host_pass cfg snapshot) w))); [|apply warnings_kept_grow, Hw].
  apply (framed_trans (R := warnings_grow _) w (exec (host_pass cfg snapshot) w)).
  - unfold host_pass. destruct (host snapshot) as [h|].
    + apply (preserves_try_except (warnings_grow _)).
      * intros e w0. apply warnings_kept_grow. reflexivity.
      * apply (preserves_host_checks (warnings_grow _));
          intros; apply warnings_grow_log; intros [].
    + apply warnings_kept_grow. reflexivity.
  - apply (preserves_try_except (warnings_grow _)).
    + intros e w0. apply warnings_kept_grow. reflexivity.
    + apply (preserves_process_pass (warnings_grow _)).
      intros p a w0 _ [-> | ->]; apply warnings_grow_log; intros [].
Qed.

End Reached.


(** ** Records of the hypervisor, and the callback of [core.py] *)

Section StepsRefined.
Context {P : Platform} (R : World -> World -> Prop).
Hypothesis R_refl : forall w, R w w.
Hypothesis R_trans : forall w1 w2 w3, R w1 w2 -> R w2 w3 -> R w1 w3.
Variable cfg : Config.
Hypothesis R_throttle : forall key, preserves R (_throttle_ok cfg key).
Hypothesis R_emit : forall s m key, preserves R (_emit_alert cfg s m key).
Hypothesis R_estimate :
  forall vname v iv, preserves R (_vm_cpu_percent_from_delta vname v iv).
Variable snapshot : Snapshot.
Variable Evm : exn -> Prop.
Hypothesis vm_raises :
  forall vm, In vm (vms snapshot) ->
             raises_only Evm (vm_checks cfg (snapshot_interval cfg snapshot) vm).
Hypothesis R_mail :
  forall site w, mail_broken cfg = true -> R w (log_exception site KeyError w).
Hypothesis R_vm :
  forall vm e w, In vm (vms snapshot) -> Evm e -> R w (log_exception (VmSite vm) e w).

Lemma steps_check_and_alert_refined : preserves R (check_and_alert cfg snapshot).
Proof.
  unfold check_and_alert. apply (steps_bind R R_trans).
  { unfold host_pass. destruct (host snapshot) as [h|];
      [|apply (steps_pure R R_refl); reflexivity].
    apply (steps_try_except R R_trans (fun e => e = KeyError /\ mail_broken cfg = true)).
    - apply raises_mail_host_checks. intro H. split; [reflexivity|exact H].
    - intros e w [-> Hb]. apply R_mail, Hb.
    - apply (steps_host_checks R R_refl R_trans cfg R_throttle R_emit). }
  intros _. apply (steps_bind R R_trans).
  { apply (steps_try_except R R_trans (fun e => e = KeyError /\ mail_broken cfg = true)).
    - apply raises_mail_process_pass. intro H. split; [reflexivity|exact H].
    - intros e w [-> Hb]. apply R_mail, Hb.
    - apply (steps_process_pass R R_refl R_trans cfg R_throttle R_emit). }
  intros _. unfold vm_pass. apply (steps_for_each R R_refl R_trans). intros vm Hin.
  apply (steps_try_except R R_trans Evm).
  - apply vm_raises, Hin.
  - intros e w He. apply (R_vm vm e w Hin He).
  - apply (steps_vm_checks R R_refl R_trans cfg R_throttle R_emit R_estimate).
Qed.

End StepsRefined.

Section Hypervisor.
Context {P : Platform}.

Lemma int_field_of_int z : int_field (Some (VInt z)) = Ok z.
Proof.
  unfold int_field, py_or. simpl. destruct (z =? 0) eqn:E; simpl; [|reflexivity].
  apply Z.eqb_eq in E. subst. reflexivity.
Qed.

Lemma domain_record_fields conn vm :
  In vm (map dd_vm (list_domains conn)) ->
  exists mx mem ct,
    int_field (vm_maxMemKB vm) = Ok mx /\
    int_field (vm_memKB vm) = Ok mem /\
    int_field (vm_cpuTime vm) = Ok ct /\
    vm_cpuTime vm = Some (VInt ct).
Proof.
  intro Hin. apply in_map_iff in Hin. destruct Hin as (dd & <- & Hdd).
  unfold list_domains in Hdd. apply in_app_or in Hdd.
  destruct Hdd as [Hdd|Hdd]; apply in_map_iff in Hdd; destruct Hdd as (dom & <- & _);
    simpl; eexists _, _, _; rewrite !int_field_of_int; repeat split.
Qed.

Lemma vm_checks_numeric_raises cfg iv vm mx mem ct :
  int_field (vm_maxMemKB vm) = Ok mx ->
  int_field (vm_memKB vm) = Ok mem ->
  int_field (vm_cpuTime vm) = Ok ct ->
  (iv = VNone \/ exists q, num_of iv = Some q) ->
  raises_only (fun e => e = KeyError /\ mail_broken cfg = true) (vm_checks cfg iv vm).
Proof.
  intros Hmx Hmem Hct Hiv w e Hres. unfold result in Hres.
  rewrite (vm_checks_unfold _ _ _ _ _ _ _ Hmx Hmem Hct) in Hres.
  revert w e Hres.
  change (raises_only (fun e => e = KeyError /\ mail_broken cfg = true)
            (bind (_vm_cpu_percent_from_delta (vm_name vm) ct iv)
                  (vm_alert_steps cfg vm mx mem))).
  apply raises_only_bind.
  - intros w e Hres. destruct (estimate_outcome (vm_name vm) ct iv w) as [[r Hr]|Hr].
    + rewrite Hr in Hres. discriminate Hres.
    + exfalso. destruct (interval_cases iv) as [[_ Hu]|[[_ [q Hq]]|[_ [Hn Hv]]]].
      * rewrite (estimate_unusable _ _ _ _ Hu) in Hr. discriminate Hr.
      * destruct (estimate_positive (vm_name vm) ct iv q w Hq) as [r' Hr'].
        rewrite Hr' in Hr. discriminate Hr.
      * destruct Hiv as [->|[q Hq]]; congruence.
  - intros cpu_pct _. unfold vm_alert_steps.
    apply raises_only_bind.
    { destruct cpu_pct; [|apply raises_only_ret].
      apply (raises_mail_gated_alert cfg). intro H. split; [reflexivity|exact H]. }
    intros _ _. apply raises_only_bind.
    { destruct (memory_percent mem mx); [|apply raises_only_ret].
      apply (raises_mail_gated_alert cfg). intro H. split; [reflexivity|exact H]. }
    intros _ _. apply raises_only_when.
    apply raises_only_bind; [intros w e H; discriminate H|].
    intros; apply raises_only_ret.
Qed.

(** X16: the records built by [list_domains] are never malformed for the
    engine: their three numeric fields convert to the values libvirt
    reported, and an evaluation of them under a numeric (or [None])
    interval logs no exception other than the [KeyError] of a mail section
    without [from] or [to]; with mail not so configured it logs none. *)
Theorem hypervisor_records_evaluate_cleanly (cfg : Config) (conn : Connection)
    (snapshot : Snapshot) (w : World) :
  vms snapshot = map dd_vm (list_domains conn) ->
  (snapshot_interval cfg snapshot = VNone \/
   exists q, num_of (snapshot_interval cfg snapshot) = Some q) ->
  length (list_domains conn)
    = (length (running_domains conn) + length (defined_domains conn))%nat /\
  (forall vm, In vm (vms snapshot) ->
     exists mx mem ct,
       int_field (vm_maxMemKB vm) = Ok mx /\ int_field (vm_memKB vm) = Ok mem /\
       int_field (vm_cpuTime vm) = Ok ct /\ vm_cpuTime vm = Some (VInt ct)) /\
  errors_grow (fun entry => snd entry = KeyError /\ mail_broken cfg = true)
    w (exec (check_and_alert cfg snapshot) w) /\
  (mail_broken cfg = false ->
     errors (exec (check_and_alert cfg snapshot) w) = errors w).
Proof.
  intros Hvms Hiv.
  assert (Hfields : forall vm, In vm (vms snapshot) ->
     exists mx mem ct,
       int_field (vm_maxMemKB vm) = Ok mx /\ int_field (vm_memKB vm) = Ok mem /\
       int_field (vm_cpuTime vm) = Ok ct /\ vm_cpuTime vm = Some (VInt ct)).
  { intros vm Hin. rewrite Hvms in Hin. apply (domain_record_fields conn vm Hin). }
  assert (Hgrow : errors_grow (fun entry => snd entry = KeyError /\ mail_broken cfg = true)
                    w (exec (check_and_alert cfg snapshot) w)).
  { apply (steps_check_and_alert_refined (errors_grow _)) with
      (Evm := fun e => e = KeyError /\ mail_broken cfg = true).
    - intro w0. apply errors_kept_grow. reflexivity.
    - apply errors_grow_trans.
    - intros key w0. destruct (throttle_world_cases cfg key w0) as [-> | ->];
        apply errors_kept_grow; reflexivity.
    - intros s m key w0. rewrite emit_world_cases.
      destruct (mail_ready cfg); apply errors_kept_grow; reflexivity.
    - intros vname v iv w0. destruct (estimate_world_cases vname v iv w0) as [-> | ->];
        apply errors_kept_grow; reflexivity.
    - intros vm Hin. destruct (Hfields vm Hin) as (mx & mem & ct & Hmx & Hmem & Hct & _).
      apply (vm_checks_numeric_raises cfg _ vm mx mem ct Hmx Hmem Hct Hiv).
    - intros site w0 Hb. exists [(site, KeyError)]. split; [reflexivity|].
      constructor; [split; [reflexivity|exact Hb]|constructor].
    - intros vm e w0 _ He. exists [(VmSite vm, e)]. split; [reflexivity|].
      constructor; [exact He|constructor]. }
  split; [|split; [exact Hfields|split; [exact Hgrow|]]].
  - unfold list_domains. rewrite length_app, !length_map. reflexivity.
  - intro Hmail. destruct Hgrow as (new & E & F). rewrite E.
    destruct new as [|entry new]; [apply app_nil_r|].
    inversion F as [|? ? [_ Hb] _]; subst. congruence.
Qed.

End Hypervisor.

Section CoreCallback.
Context {P : Platform}.

Lemma on_snapshot_run cfg hm data c w :
  on_snapshot cfg hm data c w =
    (Ok {| last_snapshot_time := clock (ticks w);
           vm_read_failures :=
             match hm with
             | Unreachable => S (vm_read_failures c)
             | _ => vm_read_failures c
             end;
           engine_failures := engine_failures c |},
     exec (check_and_alert cfg
             (core_snapshot hm data (clock (ticks w) - last_snapshot_time c)))
          (tick w)).
Proof.
  unfold on_snapshot, bind, time_time.
  fold (core_vms hm).
  change {| host := host data; processes := processes data; vms := core_vms hm;
            interval := Some (VFloat (clock (ticks w) - last_snapshot_time c)) |}
    with (core_snapshot hm data (clock (ticks w) - last_snapshot_time c)).
  rewrite (run_eta (check_and_alert cfg _) (tick w)), check_and_alert_ok.
  reflexivity.
Qed.

Lemma on_snapshot_exec cfg hm data c w :
  exec (on_snapshot cfg hm data c) w =
    exec (check_and_alert cfg
            (core_snapshot hm data (clock (ticks w) - last_snapshot_time c)))
         (tick w).
Proof. unfold exec at 1. rewrite on_snapshot_run. reflexivity. Qed.

Lemma check_and_alert_poll_interval cfg p snapshot x w :
  interval snapshot = Some x ->
  check_and_alert (with_poll_interval p cfg) snapshot w = check_and_alert cfg snapshot w.
Proof.
  intro Hiv. unfold check_and_alert.
  apply bind_ext; intros [] w1. apply bind_ext; intros [] w2.
  unfold vm_pass, snapshot_interval. rewrite Hiv. reflexivity.
Qed.

Lemma unusable_interval_quiet cfg snapshot w :
  unusable_interval (snapshot_interval cfg snapshot) ->
  _last_vm_cpu_time (exec (check_and_alert cfg snapshot) w) = _last_vm_cpu_time w /\
  warnings_grow (fun a => ~ is_vm_cpu_alert a) w (exec (check_and_alert cfg snapshot) w).
Proof.
  intro Hun. split.
  - apply (preserves_check_and_alert baselines_kept).
    + intros site e w0. reflexivity.
    + intros s m w0 _. reflexivity.
    + intros vm _. apply (preserves_vm_checks baselines_kept).
      * intros v w0. unfold exec. rewrite (estimate_unusable _ _ _ _ Hun). reflexivity.
      * intros v pct _ s c w0. reflexivity.
      * intros mx _ _ s pct mem w0. reflexivity.
  - apply (preserves_check_and_alert (warnings_grow _)).
    + intros site e w0. apply warnings_kept_grow. reflexivity.
    + intros s m w0 Hm. apply warnings_grow_log.
      intro Hc. apply Hm. destruct m; try destruct Hc; exact I.
    + intros vm _. apply (preserves_vm_checks (warnings_grow _)).
      * intros v w0. unfold exec. rewrite (estimate_unusable _ _ _ _ Hun).
        apply warnings_kept_grow. reflexivity.
      * intros v pct [w0 Hres]. unfold result in Hres.
        rewrite (estimate_unusable _ _ _ _ Hun) in Hres. discriminate Hres.
      * intros mx _ _ s pct mem w0. apply warnings_grow_log. intros [].
Qed.

Lemma evaluation_sets_baseline cfg snapshot q w vm mx mem ct :
  positive_interval (snapshot_interval cfg snapshot) q ->
  List.NoDup (map vm_name (vms snapshot)) ->
  In vm (vms snapshot) ->
  int_field (vm_maxMemKB vm) = Ok mx ->
  int_field (vm_memKB vm) = Ok mem ->
  int_field (vm_cpuTime vm) = Ok ct ->
  _last_vm_cpu_time (exec (check_and_alert cfg snapshot) w) !! vm_name vm = Some ct.
Proof.
  intros Hpos Hnd Hin Hmx Hmem Hct.
  rewrite check_and_alert_exec. unfold vm_pass.
  apply (vm_loop_sets_baseline cfg _ q (vms snapshot) vm mx mem ct); assumption.
Qed.

(** X17: the callback of [core.py] never fails and never logs an engine error:
    it reads the clock once, hands the engine the host and process data
    with the listed VMs and the time since the previous callback, and
    remembers the time read; only an unreachable hypervisor is counted as a
    failure. *)
Theorem core_callback_runs_the_engine (cfg : Config) (hm : Hypervisor)
    (data : Snapshot) (c : Core) (w : World) :
  exists c',
    on_snapshot cfg hm data c w =
      (Ok c',
       exec (check_and_alert cfg
               (core_snapshot hm data (clock (ticks w) - last_snapshot_time c)))
            (tick w)) /\
    last_snapshot_time c' = clock (ticks w) /\
    engine_failures c' = engine_failures c /\
    (hm = Unreachable -> vm_read_failures c' = S (vm_read_failures c)) /\
    (hm <> Unreachable -> vm_read_failures c' = vm_read_failures c).
Proof.
  eexists. split; [apply on_snapshot_run|]. simpl.
  repeat split; destruct hm; try reflexivity; try discriminate; congruence.
Qed.

(** X18: under [core.py] the [poll_interval] option plays no part in alerting:
    the snapshot always carries its own interval, so the callback behaves
    the same whatever [poll_interval] is; for the engine alone the option
    matters only for a snapshot without the [interval] key. *)
Theorem core_ignores_poll_interval (cfg : Config) (p : option pyval) :
  (forall hm data c w,
     on_snapshot (with_poll_interval p cfg) hm data c w = on_snapshot cfg hm data c w) /\
  (forall snapshot x w,
     interval snapshot = Some x ->
     check_and_alert (with_poll_interval p cfg) snapshot w
       = check_and_alert cfg snapshot w).
Proof.
  split.
  - intros hm data c w. rewrite !on_snapshot_run. unfold exec.
    rewrite (check_and_alert_poll_interval cfg p
               (core_snapshot hm data (clock (ticks w) - last_snapshot_time c))
               (VFloat (clock (ticks w) - last_snapshot_time c)) (tick w) eq_refl).
    reflexivity.
  - intros snapshot x w. apply check_and_alert_poll_interval.
Qed.

(** X19: when the clock has not advanced since the previous callback (the time
    read is not after [last_snapshot_time]), the callback changes no VM
    baseline and logs no VM CPU alert. *)
Theorem stalled_clock_skips_vm_cpu (cfg : Config) (hm : Hypervisor) (data : Snapshot)
    (c : Core) (w : World) :
  (clock (ticks w) <= last_snapshot_time c)%Q ->
  _last_vm_cpu_time (exec (on_snapshot cfg hm data c) w) = _last_vm_cpu_time w /\
  warnings_grow (fun a => ~ is_vm_cpu_alert a) w (exec (on_snapshot cfg hm data c) w).
Proof.
  intro Hle. rewrite on_snapshot_exec.
  assert (Hun : unusable_interval
                  (snapshot_interval cfg
                     (core_snapshot hm data (clock (ticks w) - last_snapshot_time c)))).
  { right. exists (clock (ticks w) - last_snapshot_time c)%Q.
    split; [reflexivity|lra]. }
  destruct (unusable_interval_quiet cfg _ (tick w) Hun) as [Hb Hg].
  split; [rewrite Hb; reflexivity|].
  eapply (framed_trans (R := warnings_grow _)); [|exact Hg].
  apply warnings_kept_grow. reflexivity.
Qed.

(** X20: when the clock has advanced and the domains of the connection have
    distinct names, the callback leaves the baseline of every listed domain
    at the [cpuTime] libvirt reported for it. *)
Theorem core_baselines_track_domains (cfg : Config) (conn : Connection)
    (data : Snapshot) (c : Core) (w : World) :
  (last_snapshot_time c < clock (ticks w))%Q ->
  List.NoDup (domain_names conn) ->
  forall dom,
    In dom (running_domains conn ++ defined_domains conn)%list ->
    _last_vm_cpu_time (exec (on_snapshot cfg (Reachable conn) data c) w) !! dom_name dom
      = Some (info_cpuTime (dom_info dom)).
Proof.
  intros Hlt Hnd dom Hin. rewrite on_snapshot_exec.
  set (vm := dd_vm (domain_dict None dom)).
  assert (Hnames : map vm_name (map dd_vm (list_domains conn)) = domain_names conn).
  { unfold list_domains, domain_names.
    rewrite !map_app, !map_map. reflexivity. }
  assert (Hvm : In vm (map dd_vm (list_domains conn))).
  { unfold list_domains. rewrite map_app, !map_map. apply in_app_or in Hin.
    apply in_or_app. destruct Hin as [Hin|Hin]; [left|right];
      apply in_map_iff; exists dom; split; [reflexivity|exact Hin|reflexivity|exact Hin]. }
  apply (evaluation_sets_baseline cfg _ (clock (ticks w) - last_snapshot_time c)%Q
           (tick w) vm (info_maxMem (dom_info dom)) (info_memory (dom_info dom))
           (info_cpuTime (dom_info dom))).
  - split; [reflexivity|lra].
  - simpl vms. simpl core_vms. rewrite Hnames. exact Hnd.
  - exact Hvm.
  - apply int_field_of_int.
  - apply int_field_of_int.
  - apply int_field_of_int.
Qed.

(** X21: without a hypervisor, or with one whose [list_domains()] raises, the
    callback evaluates the host and the processes only: the engine's world
    is the same in both cases, no VM baseline changes and no VM alert is
    logged. *)
Theorem core_without_hypervisor (cfg : Config) (data : Snapshot) (c : Core) (w : World) :
  exec (on_snapshot cfg Unreachable data c) w
    = exec (on_snapshot cfg NoHypervisor data c) w /\
  _last_vm_cpu_time (exec (on_snapshot cfg NoHypervisor data c) w)
    = _last_vm_cpu_time w /\
  warnings_grow (fun a => ~ vm_message (snd a)) w
    (exec (on_snapshot cfg NoHypervisor data c) w).
Proof.
  rewrite !on_snapshot_exec.
  split; [reflexivity|]. split.
  - change (_last_vm_cpu_time w) with (_last_vm_cpu_time (tick w)).
    apply (preserves_check_and_alert baselines_kept).
    + intros site e w0. reflexivity.
    + intros s m w0 _. reflexivity.
    + intros vm [].
  - eapply (framed_trans (R := warnings_grow _)).
    + apply (warnings_kept_grow _ w (tick w)). reflexivity.
    + apply (preserves_check_and_alert (warnings_grow _)).
      * intros site e w0. apply warnings_kept_grow. reflexivity.
      * intros s m w0 Hm. apply warnings_grow_log. exact Hm.
      * intros vm [].
Qed.

End CoreCallback.

(** ** The dashboard *)

Section DashboardProperties.

Lemma lastn_app_lastn {A} (n : nat) (l l2 : list A) :
  lastn n (lastn n l ++ l2) = lastn n (l ++ l2).
Proof.
  unfold lastn. rewrite !length_app, length_skipn.
  rewrite !skipn_app, skipn_skipn, length_skipn.
  destruct (Nat.le_gt_cases (length l) n) as [Hle|Hgt].
  - replace (length l - n)%nat with 0%nat by lia. simpl skipn.
    rewrite !Nat.sub_0_r, Nat.add_0_r. reflexivity.
  - f_equal; f_equal; lia.
Qed.

Lemma lastn_short {A} (n : nat) (l : list A) :
  (length l <= n)%nat -> lastn n l = l.
Proof.
  intro H. unfold lastn. replace (length l - n)%nat with 0%nat by lia. reflexivity.
Qed.

Lemma length_lastn {A} (n : nat) (l : list A) :
  length (lastn n l) = Nat.min n (length l).
Proof. unfold lastn. rewrite length_skipn. lia. Qed.

Lemma deque_append_lastn {A} (n : nat) (d : list A) (x : A) :
  deque_append n d x = lastn n (d ++ [x]).
Proof. reflexivity. Qed.

Lemma feed_running rs d :
  running d = true ->
  (length (cpu_data d) <= MAX_DATA_POINTS)%nat ->
  (length (mem_data d) <= MAX_DATA_POINTS)%nat ->
  running (feed rs d) = true /\
  cpu_data (feed rs d) = lastn MAX_DATA_POINTS (cpu_data d ++ map fst rs) /\
  mem_data (feed rs d) = lastn MAX_DATA_POINTS (mem_data d ++ map snd rs).
Proof.
  revert d. induction rs as [|[c m] rs IH]; intros d Hrun Hc Hm.
  - simpl. rewrite !app_nil_r, !lastn_short by assumption. auto.
  - change (feed ((c, m) :: rs) d) with (feed rs (update_metrics c m d)).
    unfold update_metrics. rewrite Hrun.
    match goal with |- context [feed rs ?d'] => destruct (IH d') as (Hr & Hcd & Hmd) end.
    + reflexivity.
    + simpl cpu_data. rewrite deque_append_lastn, length_lastn. lia.
    + simpl mem_data. rewrite deque_append_lastn, length_lastn. lia.
    + split; [exact Hr|]. rewrite Hcd, Hmd. simpl cpu_data. simpl mem_data.
      rewrite !deque_append_lastn, !lastn_app_lastn, <- !app_assoc. split; reflexivity.
Qed.

Lemma feed_stopped rs d : running d = false -> feed rs d = d.
Proof.
  intro H. induction rs as [|r rs IH]; [reflexivity|].
  change (feed (r :: rs) d) with (feed rs (update_metrics (fst r) (snd r) d)).
  unfold update_metrics. rewrite H. exact IH.
Qed.

(** X22: while the dashboard is running, the two histories behind the graph
    hold the last 30 readings, oldest first, and never more than 30; since
    [__init__] ends with a first [update_data], the histories of a
    dashboard just constructed hold that reading, and after further
    updates they are the last 30 of that reading and all that followed. *)
Theorem history_keeps_the_last_30 (readings : list (Q * Q)) (d : Dashboard) :
  running d = true ->
  (length (cpu_data d) <= MAX_DATA_POINTS)%nat ->
  (length (mem_data d) <= MAX_DATA_POINTS)%nat ->
  cpu_data (feed readings d) = lastn 30 (cpu_data d ++ map fst readings) /\
  mem_data (feed readings d) = lastn 30 (mem_data d ++ map snd readings) /\
  length (cpu_data (feed readings d))
    = Nat.min 30 (length (cpu_data d) + length readings) /\
  length (mem_data (feed readings d))
    = Nat.min 30 (length (mem_data d) + length readings) /\
  (forall cpu mem,
     cpu_data (constructed_dashboard cpu mem) = [cpu] /\
     mem_data (constructed_dashboard cpu mem) = [mem] /\
     cpu_data (feed readings (constructed_dashboard cpu mem))
       = lastn 30 (cpu :: map fst readings) /\
     mem_data (feed readings (constructed_dashboard cpu mem))
       = lastn 30 (mem :: map snd readings)).
Proof.
  intros Hrun Hc Hm.
  destruct (feed_running readings d Hrun Hc Hm) as (_ & Hcd & Hmd).
  split; [exact Hcd|]. split; [exact Hmd|].
  rewrite Hcd, Hmd. unfold MAX_DATA_POINTS.
  rewrite !length_lastn, !length_app, !length_map.
  split; [reflexivity|]. split; [reflexivity|].
  intros cpu mem. split; [reflexivity|]. split; [reflexivity|].
  destruct (feed_running readings (constructed_dashboard cpu mem) eq_refl)
    as (_ & H1 & H2); [cbv; lia|cbv; lia|].
  split; [exact H1|exact H2].
Qed.

(** X23: [stop_monitoring] freezes the dashboard: updates scheduled while it is
    stopped change nothing, and after [start_monitoring] the history goes
    on from where it was, without the readings taken in between. *)
Theorem stopped_dashboard_is_frozen (while_stopped after : list (Q * Q)) (d : Dashboard) :
  feed while_stopped (stop_monitoring d) = stop_monitoring d /\
  ((length (cpu_data d) <= MAX_DATA_POINTS)%nat ->
   (length (mem_data d) <= MAX_DATA_POINTS)%nat ->
   cpu_data (feed after (start_monitoring (feed while_stopped (stop_monitoring d))))
     = lastn 30 (cpu_data d ++ map fst after)).
Proof.
  split; [apply feed_stopped; reflexivity|].
  intros Hc Hm. rewrite (feed_stopped while_stopped (stop_monitoring d) eq_refl).
  destruct (feed_running after (start_monitoring (stop_monitoring d)) eq_refl Hc Hm)
    as (_ & H & _).
  exact H.
Qed.

Lemma bar_style_rank (p : Q) :
  style_rank (get_bar_style p) =
    if Qlt_bool p (50 # 1) then 0%nat else if Qlt_bool p (80 # 1) then 1%nat else 2%nat.
Proof.
  unfold get_bar_style. destruct (Qlt_bool p (50 # 1)); [reflexivity|].
  destruct (Qlt_bool p (80 # 1)); reflexivity.
Qed.

(** X24: the bar style follows the reading: green below 50, red from 80 on,
    yellow in between, so a higher reading never gets a milder colour. *)
Theorem bar_style_is_monotone (p q : Q) :
  ((p <= q)%Q ->
     (style_rank (get_bar_style p) <= style_rank (get_bar_style q))%nat) /\
  (get_bar_style p = "green.Horizontal.TProgressbar" <-> (p < 50 # 1)%Q) /\
  (get_bar_style p = "red.Horizontal.TProgressbar" <-> (80 # 1 <= p)%Q).
Proof.
  split; [|split].
  - intro Hle. rewrite !bar_style_rank.
    destruct (Qlt_bool p (50 # 1)) eqn:Ep50; [lia|].
    apply Qlt_bool_false in Ep50.
    destruct (Qlt_bool q (50 # 1)) eqn:Eq50.
    { apply Qlt_bool_true in Eq50. lra. }
    destruct (Qlt_bool p (80 # 1)) eqn:Ep80.
    { destruct (Qlt_bool q (80 # 1)); lia. }
    apply Qlt_bool_false in Ep80.
    destruct (Qlt_bool q (80 # 1)) eqn:Eq80; [|lia].
    apply Qlt_bool_true in Eq80. lra.
  - unfold get_bar_style. destruct (Qlt_bool p (50 # 1)) eqn:E50.
    + apply Qlt_bool_true in E50. split; [intros _; exact E50|reflexivity].
    + apply Qlt_bool_false in E50.
      split; [|intro H; lra].
      destruct (Qlt_bool p (80 # 1)); discriminate.
  - unfold get_bar_style. destruct (Qlt_bool p (50 # 1)) eqn:E50.
    + apply Qlt_bool_true in E50. split; [discriminate|intro H; lra].
    + destruct (Qlt_bool p (80 # 1)) eqn:E80.
      * apply Qlt_bool_true in E80. split; [discriminate|intro H; lra].
      * apply Qlt_bool_false in E80. split; [intros _; exact E80|reflexivity].
Qed.

End DashboardProperties.

(** * The theorems at concrete inputs *)

Ltac by_computation :=
  first [ reflexivity
        | vm_compute; reflexivity
        | vm_compute; intro; discriminate
        | vm_compute; lia ].

Ltac computed := vm_compute; reflexivity.

Lemma two_seconds_positive : positive_interval (VFloat (2 # 1)) (2 # 1)%Q.
Proof. split; reflexivity. Defined.

Lemma zero_interval_unusable : unusable_interval (VInt 0).
Proof. right. exists (inject_Z 0). split; [reflexivity|by_computation]. Defined.

(** The baseline follows a 2-second sample, and a zero-interval call
    changes nothing. *)
Lemma C1_baseline_after_estimate_witness :
  _last_vm_cpu_time
    (exec (_vm_cpu_percent_from_delta "vmA" 3000000000 (VFloat (2 # 1)))
          (sampled "vmA" 1000000000)) !! "vmA" = Some 3000000000 /\
  _vm_cpu_percent_from_delta "vmA" 3000000000 (VInt 0) (sampled "vmA" 1000000000)
    = (Ok None, sampled "vmA" 1000000000).
Proof.
  split.
  - destruct (proj1 (C1_baseline_after_estimate "vmA" 3000000000 (VFloat (2 # 1))
                       (sampled "vmA" 1000000000)) _ two_seconds_positive)
      as (r & _ & H).
    exact H.
  - exact (proj1 (proj2 (C1_baseline_after_estimate "vmA" 3000000000 (VInt 0)
                           (sampled "vmA" 1000000000)) zero_interval_unusable)).
Defined.

(** After a first sample of 1e9 ns, a call with 3e9 ns and an interval
    that is [None], 0 or negative returns UNAVAILABLE and the baseline is
    still 1e9, not 3e9. *)
Lemma C1_baseline_not_updated_counterexample :
  let w := sampled "vmA" 1000000000 in
  _last_vm_cpu_time w !! "vmA" = Some 1000000000 /\
  _vm_cpu_percent_from_delta "vmA" 3000000000 VNone w = (Ok None, w) /\
  _vm_cpu_percent_from_delta "vmA" 3000000000 (VInt 0) w = (Ok None, w) /\
  _vm_cpu_percent_from_delta "vmA" 3000000000 (VFloat (-1 # 2)) w = (Ok None, w) /\
  _last_vm_cpu_time (exec (_vm_cpu_percent_from_delta "vmA" 3000000000 VNone) w) !! "vmA"
    <> Some 3000000000 /\
  _last_vm_cpu_time (exec (_vm_cpu_percent_from_delta "vmA" 3000000000 (VInt 0)) w) !! "vmA"
    <> Some 3000000000.
Proof.
  repeat split; try by_computation.
Qed.

(** Reads at 100, 100, 130 and 160 seconds with the default window of 60:
    true, false, true, the time recorded being 100. *)
Lemma C2_throttle_gate_witness :
  let P := listed_clock [(100 # 1); (100 # 1); (130 # 1); (160 # 1)]%Q 0%Q in
  let w1 := exec (@_throttle_ok P default_config "host_cpu") new_engine in
  let w2 := exec (@_throttle_ok P default_config "host_cpu") w1 in
  result (@_throttle_ok P default_config "host_cpu") new_engine = Ok true /\
  result (@_throttle_ok P default_config "host_cpu") w1 = Ok false /\
  result (@_throttle_ok P default_config "host_cpu") w2 = Ok true /\
  last_alert_time w1 !! "host_cpu" = Some (100 # 1)%Q /\
  last_alert_time w1 = <[ "host_cpu" := (100 # 1)%Q ]> ∅ /\
  last_alert_time w2 = last_alert_time w1.
Proof.
  intros P w1 w2.
  pose proof (@C2_throttle_gate P default_config "host_cpu" new_engine)
    as (Ha & _ & Hgen & Hseq).
  pose proof (@C2_throttle_gate P default_config "host_cpu" w1) as (_ & Hb & _).
  specialize (Hseq (100 # 1)%Q (30 # 1)%Q).
  destruct Hseq as (H1 & H2 & H3); try by_computation.
  destruct Hgen as (_ & Hrec & _); try by_computation.
  destruct Ha as [_ Ha]; [by_computation|].
  destruct Hb as [_ Hb]; [by_computation|].
  repeat split; assumption.
Defined.

(** A key never seen before is refused: with a window longer than the
    time since the epoch, and with the default window on a clock that
    stands at 10 seconds; nothing is recorded.  And the time recorded is
    not the time compared: when the clock moves between the two reads of
    an allowed call (100, then 100.000001), the calls made at 100, 130
    and 160 seconds with the window of 60 return true, false, false. *)
Lemma C2_throttle_gate_counterexample :
  (last_alert_time new_engine !! "host_cpu" = None /\
   @_throttle_ok wall_clock long_throttle_config "host_cpu" new_engine
     = (Ok false, tick new_engine) /\
   @_throttle_ok epoch_clock default_config "host_cpu" new_engine
     = (Ok false, tick new_engine) /\
   last_alert_time (tick new_engine) !! "host_cpu" = None) /\
  (let P := drifting_clock in
   let w1 := exec (@_throttle_ok P default_config "host_cpu") new_engine in
   let w2 := exec (@_throttle_ok P default_config "host_cpu") w1 in
   @clock P 0 = (100 # 1)%Q /\ @clock P 2 = (130 # 1)%Q /\ @clock P 3 = (160 # 1)%Q /\
   result (@_throttle_ok P default_config "host_cpu") new_engine = Ok true /\
   last_alert_time w1 !! "host_cpu" <> Some (100 # 1)%Q /\
   result (@_throttle_ok P default_config "host_cpu") w1 = Ok false /\
   result (@_throttle_ok P default_config "host_cpu") w2 = Ok false).
Proof.
  split; repeat split; by_computation.
Qed.

Lemma C3_first_sample_then_rate_witness :
  _vm_cpu_percent_from_delta "vmA" 1000000000 (VFloat (2 # 1)) new_engine
    = (Ok None, set_last_vm_cpu_time <[ "vmA" := 1000000000 ]> new_engine) /\
  result (_vm_cpu_percent_from_delta "vmA" 3000000000 (VFloat (2 # 1)))
         (sampled "vmA" 1000000000)
    = Ok (Some (((inject_Z (3000000000 - 1000000000) / (1000000000 # 1)) / (2 # 1))
                 * (100 # 1))%Q) /\
  exists x,
    result (_vm_cpu_percent_from_delta "vmA" 9000000000 (VFloat (2 # 1)))
           (sampled "vmA" 1000000000) = Ok (Some x) /\
    (100 # 1 < x)%Q.
Proof.
  pose proof (C3_first_sample_then_rate "vmA" (VFloat (2 # 1)) (2 # 1)%Q
                two_seconds_positive) as (H1 & _ & H3 & H4 & _).
  split; [|split].
  - apply H1. by_computation.
  - apply (H3 1000000000 3000000000 (VFloat (2 # 1)) (2 # 1)%Q new_engine
              two_seconds_positive); by_computation.
  - apply (H4 9000000000 1000000000 (sampled "vmA" 1000000000)); by_computation.
Defined.

(** The reset of the spec: after 3e9 ns, a sample of 5e8 ns. *)
Lemma C4_counter_reset_witness :
  result (_vm_cpu_percent_from_delta "vmA" 500000000 (VFloat (2 # 1)))
         (sampled "vmA" 3000000000) = Ok None /\
  _last_vm_cpu_time
    (exec (_vm_cpu_percent_from_delta "vmA" 500000000 (VFloat (2 # 1)))
          (sampled "vmA" 3000000000)) !! "vmA" = Some 500000000.
Proof.
  assert (Hprev : _last_vm_cpu_time (sampled "vmA" 3000000000) !! "vmA"
                  = Some 3000000000) by by_computation.
  assert (Hle : 500000000 - 3000000000 <= 0) by lia.
  exact (proj1 (C4_counter_reset "vmA" 500000000 3000000000 (VFloat (2 # 1)) (2 # 1)%Q
                  (sampled "vmA" 3000000000) two_seconds_positive Hprev Hle)).
Defined.

(** Of 25 processes all above the CPU threshold, the 20 busiest get an
    alert and processes 1 to 5 get none. *)
Example process_cap_on_25 :
  map snd (warnings (exec (@check_and_alert wall_clock config_0 snapshot_25) new_engine))
  = map (fun p => ProcCpuMsg (name p) (pid p) (cpu p))
        (map numbered_process (rev (seq 6 20))).
Proof. vm_compute. reflexivity. Qed.




Lemma C6_no_memory_alert_without_capacity_witness :
  warnings_grow (fun a => ~ is_vm_memory_alert a) new_engine
    (exec (@vm_checks wall_clock config_90 (VFloat (2 # 1)) vm_no_capacity) new_engine).
Proof.
  apply (proj1 (@C6_no_memory_alert_without_capacity wall_clock config_90)
               (VFloat (2 # 1)) vm_no_capacity 0 new_engine).
  - by_computation.
  - lia.
Defined.


(** The malformed record is logged and the memory alert of the record
    after it is emitted. *)
Example malformed_vm_is_skipped :
  let w := exec (@check_and_alert wall_clock config_90 snapshot_malformed) new_engine in
  map fst (warnings w) = ["Host CPU Alert"; "VM Memory Alert"] /\
  errors w = [(VmSite vm_malformed, ValueError)].
Proof. split; vm_compute; reflexivity. Qed.


Lemma full_memory_exact : memory_percent_exact 1024 1024.
Proof.
  split.
  - exists 1, 0. split; [reflexivity|]. split; [lia|reflexivity].
  - exists 100, 0. split; [reflexivity|]. split; [lia|reflexivity].
Defined.




(** With [interval] present and [None], the VM using all of its memory
    gets its memory alert in the evaluation of the snapshot, and no
    baseline moves. *)
Lemma C10_null_interval_witness :
  snapshot_interval default_config snapshot_vm_full_null_interval = VNone /\
  _last_vm_cpu_time
    (exec (@check_and_alert wall_clock default_config snapshot_vm_full_null_interval)
          (sampled "vmC" 0)) = _last_vm_cpu_time (sampled "vmC" 0) /\
  @check_and_alert wall_clock default_config snapshot_vm_full_null_interval
     (sampled "vmC" 0)
   = @check_and_alert_memory_only wall_clock default_config
       snapshot_vm_full_null_interval (sampled "vmC" 0) /\
  In ("VM Memory Alert",
      VmMemHigh "vmC" ((inject_Z 1024 / inject_Z 1024) * (100 # 1))%Q 1024 1024)
     (warnings (exec (@check_and_alert wall_clock default_config
                        snapshot_vm_full_null_interval) (sampled "vmC" 0))).
Proof.
  pose proof (@C10_null_interval wall_clock default_config snapshot_vm_full_null_interval
                eq_refl) as (H1 & _ & H3 & _ & H5 & H6).
  split; [exact H1|]. split; [apply H3|]. split; [apply H5|].
  apply (H6 [vmA] vm_full [] 1024 1024 2000000000).
  - reflexivity.
  - reflexivity.
  - reflexivity.
  - reflexivity.
  - reflexivity.
  - exact full_memory_exact.
  - vm_compute. intro H. discriminate H.
  - computed.
Defined.

(** * The further properties at concrete inputs *)

Lemma throttle_ok_touches_only_its_key_witness :
  let w' := exec (@_throttle_ok wall_clock default_config "host_cpu") new_engine in
  last_alert_time w' !! "host_mem" = last_alert_time new_engine !! "host_mem" /\
  ticks w' = 2%nat.
Proof.
  intro w'.
  pose proof (@throttle_ok_touches_only_its_key wall_clock default_config "host_cpu"
                new_engine) as (_ & Hk & _ & _ & _ & _ & _ & Ht).
  split.
  - apply Hk. discriminate.
  - apply Ht. by_computation.
Defined.

Lemma estimate_touches_only_its_name_witness :
  let w' := exec (_vm_cpu_percent_from_delta "vmA" 5 (VFloat (2 # 1))) (sampled "vmB" 1) in
  _last_vm_cpu_time w' !! "vmB" = _last_vm_cpu_time (sampled "vmB" 1) !! "vmB" /\
  ticks w' = 0%nat.
Proof.
  intro w'.
  pose proof (estimate_touches_only_its_name "vmA" 5 (VFloat (2 # 1)) (sampled "vmB" 1))
    as (Hn & _ & _ & Ht & _).
  split; [apply Hn; discriminate|exact Ht].
Defined.

Lemma estimate_value_only_on_progress_witness :
  exists prev q,
    _last_vm_cpu_time (sampled "vmA" 1000000000) !! "vmA" = Some prev /\
    prev < 3000000000 /\
    positive_interval (VFloat (2 # 1)) q /\
    percent_of_delta (3000000000 - 1000000000) (2 # 1)
      = percent_of_delta (3000000000 - prev) q /\
    (0 < percent_of_delta (3000000000 - 1000000000) (2 # 1))%Q.
Proof.
  apply (estimate_value_only_on_progress "vmA" 3000000000 (VFloat (2 # 1))
           (sampled "vmA" 1000000000)).
  by_computation.
Defined.

Lemma estimate_raises_on_non_numeric_interval_witness :
  let w' := exec (@check_and_alert wall_clock config_90 snapshot_text_interval)
              (sampled "vmA" 1) in
  _vm_cpu_percent_from_delta "vmA" 5 (VStr "fast") (sampled "vmA" 1)
    = (Raise TypeError, sampled "vmA" 1) /\
  _last_vm_cpu_time w' = _last_vm_cpu_time (sampled "vmA" 1) /\
  In (VmSite vmB) (map fst (errors w')).
Proof.
  intro w'.
  destruct (@estimate_raises_on_non_numeric_interval wall_clock config_90
              snapshot_text_interval "fast" (sampled "vmA" 1) eq_refl)
    as (He & Hb & _ & Hlog).
  split; [apply He|]. split; [exact Hb|].
  apply Hlog. right. left. reflexivity.
Defined.

Lemma int_field_defaults_and_errors_witness :
  @int_field wall_clock None = Ok 0 /\
  @int_field wall_clock (Some (VStr "abc")) = Raise ValueError /\
  @int_field wall_clock (Some (VStr "17")) = Ok 17.
Proof.
  split; [|split].
  - apply (proj1 (@int_field_defaults_and_errors wall_clock None)).
    right. right. left. reflexivity.
  - apply (proj2 (proj2 (@int_field_defaults_and_errors wall_clock (Some (VStr "abc"))))
                 "abc" eq_refl).
    discriminate.
  - apply (proj2 (proj2 (@int_field_defaults_and_errors wall_clock (Some (VStr "17"))))
                 "17" eq_refl).
    discriminate.
Defined.


Lemma mail_failure_ends_the_block_witness :
  @host_checks wall_clock broken_email_config host_full new_engine =
    (Raise KeyError,
     log_warning "Host CPU Alert" (HostCpuHigh (100 # 1))
       (set_last_alert_time <["host_cpu" := @clock wall_clock 1]>
          (tick (tick new_engine)))) /\
  result (@process_pass wall_clock broken_email_config [proc_mem_at_90; proc_full])
         new_engine = Raise KeyError.
Proof.
  pose proof (@mail_failure_ends_the_block wall_clock broken_email_config new_engine
                eq_refl) as [Hh Hp].
  split.
  - apply (Hh host_full); by_computation.
  - unfold result.
    rewrite (Hp [proc_mem_at_90; proc_full] proc_full [proc_mem_at_90]);
      by_computation.
Defined.

Lemma below_thresholds_nothing_happens_witness :
  @check_and_alert wall_clock default_config snapshot_quiet new_engine
    = (Ok tt, new_engine).
Proof.
  apply (proj2 (proj2 (@below_thresholds_nothing_happens wall_clock default_config
                         new_engine)) snapshot_quiet).
  - reflexivity.
  - intros h [= <-]. split; by_computation.
  - intros p [<-|[]]. split; by_computation.
Defined.


Lemma logged_exceptions_witness :
  errors_grow
    (fun entry => exists vm, fst entry = VmSite vm /\ In vm (vms snapshot_malformed))
    new_engine (exec (@check_and_alert wall_clock config_90 snapshot_malformed) new_engine).
Proof.
  apply (proj2 (@logged_exceptions wall_clock config_90 snapshot_malformed new_engine)).
  reflexivity.
Defined.

Lemma throttle_timestamps_come_from_the_clock_witness :
  let w := exec (@_throttle_ok wall_clock default_config "host_cpu") new_engine in
  is_Some (last_alert_time
             (exec (@check_and_alert wall_clock config_90 snapshot_two_vms) w)
           !! "host_cpu").
Proof.
  intro w.
  apply (proj2 (@throttle_timestamps_come_from_the_clock wall_clock config_90
                  snapshot_two_vms w)).
  eexists. by_computation.
Defined.

Lemma baselines_change_only_for_snapshot_vms_witness :
  _last_vm_cpu_time
    (exec (@check_and_alert wall_clock config_90 snapshot_two_vms) (sampled "gone" 7))
    !! "gone" = Some 7.
Proof.
  destruct (@baselines_change_only_for_snapshot_vms wall_clock config_90
              snapshot_two_vms (sampled "gone" 7)) as [Hout _].
  rewrite Hout; [by_computation|].
  simpl. intros [H|[H|[]]]; discriminate H.
Defined.

Lemma two_vm_names_distinct : List.NoDup (map vm_name (vms snapshot_two_vms)).
Proof.
  simpl. constructor; [intros [H|[]]; discriminate H|].
  constructor; [intros []|constructor].
Defined.

Lemma first_samples_raise_no_vm_cpu_alert_witness :
  warnings_grow (fun a => ~ is_vm_cpu_alert a) new_engine
    (exec (@check_and_alert wall_clock config_90 snapshot_two_vms) new_engine).
Proof.
  apply (@first_samples_raise_no_vm_cpu_alert wall_clock config_90 snapshot_two_vms
           new_engine two_vm_names_distinct).
  intros vm _. reflexivity.
Defined.

Lemma baselines_follow_the_snapshot_witness :
  _last_vm_cpu_time
    (exec (@check_and_alert wall_clock config_90 snapshot_two_vms) (sampled "vmA" 0))
    !! "vmA" = Some 1800000000.
Proof.
  apply (@baselines_follow_the_snapshot wall_clock config_90 snapshot_two_vms (2 # 1)%Q
           (sampled "vmA" 0) two_seconds_positive two_vm_names_distinct
           vmA 1000 100 1800000000).
  - left. reflexivity.
  - reflexivity.
  - reflexivity.
  - reflexivity.
Defined.

Lemma hypervisor_records_evaluate_cleanly_witness :
  length (list_domains sample_connection) = 2%nat /\
  errors (exec (@check_and_alert wall_clock config_90
                  (core_snapshot (Reachable sample_connection) sample_data (2 # 1)))
               new_engine) = errors new_engine.
Proof.
  pose proof (@hypervisor_records_evaluate_cleanly wall_clock config_90
                sample_connection
                (core_snapshot (Reachable sample_connection) sample_data (2 # 1))
                new_engine eq_refl) as H.
  destruct H as (Hlen & _ & _ & Herr).
  - right. exists (2 # 1)%Q. reflexivity.
  - split; [exact Hlen|]. apply Herr. reflexivity.
Defined.

Lemma core_callback_runs_the_engine_witness :
  exists c',
    result (@on_snapshot wall_clock config_90 Unreachable sample_data sample_core)
           new_engine = Ok c' /\
    vm_read_failures c' = 1%nat /\ engine_failures c' = 0%nat /\
    (last_snapshot_time c' == 1700000000 # 1)%Q.
Proof.
  destruct (@core_callback_runs_the_engine wall_clock config_90 Unreachable
              sample_data sample_core new_engine)
    as (c' & Hrun & Hlast & Heng & Hfail & _).
  exists c'. split; [unfold result; rewrite Hrun; reflexivity|].
  split; [apply Hfail; reflexivity|]. split; [exact Heng|].
  rewrite Hlast. by_computation.
Defined.

Lemma core_ignores_poll_interval_witness :
  @check_and_alert wall_clock (with_poll_interval (Some (VInt 30)) config_90)
     snapshot_two_vms new_engine
  = @check_and_alert wall_clock config_90 snapshot_two_vms new_engine.
Proof.
  apply (proj2 (@core_ignores_poll_interval wall_clock config_90 (Some (VInt 30)))
               snapshot_two_vms (VFloat (2 # 1)) new_engine).
  reflexivity.
Defined.

Lemma stalled_clock_skips_vm_cpu_witness :
  _last_vm_cpu_time
    (exec (@on_snapshot epoch_clock config_90 (Reachable sample_connection)
             sample_data stalled_core) (sampled "web" 1))
  = _last_vm_cpu_time (sampled "web" 1).
Proof.
  assert (H : (@clock epoch_clock (ticks (sampled "web" 1))
               <= last_snapshot_time stalled_core)%Q) by by_computation.
  exact (proj1 (@stalled_clock_skips_vm_cpu epoch_clock config_90
                  (Reachable sample_connection) sample_data stalled_core
                  (sampled "web" 1) H)).
Defined.

Lemma core_baselines_track_domains_witness :
  _last_vm_cpu_time
    (exec (@on_snapshot wall_clock config_90 (Reachable sample_connection)
             sample_data sample_core) new_engine) !! "web" = Some 5000000000.
Proof.
  assert (Hlt : (last_snapshot_time sample_core < @clock wall_clock (ticks new_engine))%Q)
    by by_computation.
  assert (Hnd : List.NoDup (domain_names sample_connection)).
  { simpl. constructor; [intros [H|[]]; discriminate H|].
    constructor; [intros []|constructor]. }
  exact (@core_baselines_track_domains wall_clock config_90 sample_connection
           sample_data sample_core new_engine Hlt Hnd domain_web (or_introl eq_refl)).
Defined.

Lemma history_keeps_the_last_30_witness :
  map fst (readings_up_to 35) = map (fun i => inject_Z (Z.of_nat i)) (seq 1 35) /\
  cpu_data (feed (readings_up_to 35) new_dashboard)
    = lastn 30 (cpu_data new_dashboard ++ map fst (readings_up_to 35)) /\
  length (cpu_data (feed (readings_up_to 35) new_dashboard)) = 30%nat /\
  cpu_data (feed (readings_up_to 3) (constructed_dashboard (7 # 1) (40 # 1)))
    = lastn 30 ((7 # 1)%Q :: map fst (readings_up_to 3)).
Proof.
  destruct (history_keeps_the_last_30 (readings_up_to 35) new_dashboard eq_refl)
    as (Hc & _ & Hlen & _).
  - simpl. lia.
  - simpl. lia.
  - split; [reflexivity|]. split; [exact Hc|]. split; [rewrite Hlen; reflexivity|].
    destruct (history_keeps_the_last_30 (readings_up_to 3) new_dashboard eq_refl)
      as (_ & _ & _ & _ & Hnew); [simpl; lia|simpl; lia|].
    exact (proj1 (proj2 (proj2 (Hnew (7 # 1)%Q (40 # 1)%Q)))).
Defined.

Lemma stopped_dashboard_is_frozen_witness :
  cpu_data (feed (readings_up_to 3)
              (start_monitoring (feed (readings_up_to 5) (stop_monitoring new_dashboard))))
  = lastn 30 (cpu_data new_dashboard ++ map fst (readings_up_to 3)).
Proof.
  apply (proj2 (stopped_dashboard_is_frozen (readings_up_to 5) (readings_up_to 3)
                  new_dashboard)); simpl; lia.
Defined.

Lemma bar_style_is_monotone_witness :
  (style_rank (get_bar_style (49 # 1)) <= style_rank (get_bar_style (50 # 1)))%nat /\
  get_bar_style (80 # 1) = "red.Horizontal.TProgressbar".
Proof.
  split.
  - apply (proj1 (bar_style_is_monotone (49 # 1) (50 # 1))). by_computation.
  - apply (proj2 (proj2 (bar_style_is_monotone (80 # 1) (80 # 1)))). by_computation.
Defined.
